(** * Stock accounting of the product catalogue and the cart

    A shallow embedding of [src/src/app.controller.ts] (the NestJS
    [AppController]) together with the relational schema of
    [src/schema.prisma] and its migration ([CREATE TABLE], the unique
    indexes and the two [ON DELETE RESTRICT] foreign keys).

    - The database is a record of three tables, each a list of rows; the
      constraints of the schema are checked by the store operations, the way
      PostgreSQL checks them, and are not built into the types.
    - A controller method is a [Tarefa]: a program whose only effects are
      awaited store calls.  Running it to completion gives the behaviour of a
      request served alone; stepping several of them gives the interleavings
      of requests served concurrently.
    - [uuid()] is an input of the request that needs it. *)

From Stdlib Require Import List ZArith QArith Qreduction Qround Bool String Ascii Lia.
From Stdlib Require Import DecimalString Permutation.
Import ListNotations.

Set Implicit Arguments.
Local Open Scope string_scope.
Local Open Scope Z_scope.

(** ** Numbers *)

(** A JavaScript [number] coming from a JSON body is a finite binary64 value,
    hence a rational.  The code compares such numbers and hands them to the
    store; comparisons of finite doubles agree with those of the rationals
    they denote, and the store keeps the integer part of a number it is
    given for an [Int] column.  Only [formatarCarrinho] computes with
    numbers: there each operation is followed by the rounding to binary64
    (see [number_add] and [number_mul]). *)
Definition number := Q.

(** [a < b] and [a >= b] on numbers. *)
Definition number_lt (a b : number) : bool := negb (Qle_bool b a).
Definition number_ge (a b : number) : bool := Qle_bool b a.

(** The range of a PostgreSQL [INTEGER] column (Prisma [Int]). *)
Definition int4 (z : Z) : bool := (-2147483648 <=? z) && (z <=? 2147483647).

(** The integer a number is, when it is one and fits the column.  This
    is what the specification means by a quantity or a stock; the store
    itself takes any number (see [paraInt]). *)
Definition toInt4 (x : number) : option Z :=
  let r := Qred x in
  if (Qden r =? 1)%positive && int4 (Qnum r) then Some (Qnum r) else None.

(** A number handed to the store for an [Int] column loses its fraction:
    1.5 is stored as 1 and -1.5 as -1. *)
Definition truncar (x : number) : Z := Z.quot (Qnum x) (Z.pos (Qden x)).

(** The value the store writes for an [Int] argument; a value outside the
    range of the column is refused (P2020). *)
Definition paraInt (x : number) : option Z :=
  let z := truncar x in if int4 z then Some z else None.

(** An [Int] read back from the store, as the number JavaScript sees. *)
Definition ofInt (z : Z) : number := inject_Z z.

(** [`${n}`] for an integral number. *)
Definition numberToString (z : Z) : string := NilZero.string_of_int (Z.to_int z).

(** ** Rows of the three tables (schema.prisma) *)

Module Produto.
Record t := mk {
  id : string;          (* @id @default(uuid()) *)
  nome : string;        (* @unique *)
  preco : number;       (* Float *)
  estoque : Z           (* Int *)
}.
End Produto.

Module Carrinho.
Record t := mk {
  id : string;          (* @id @default(uuid()) *)
  usuarioId : string    (* @unique *)
}.
End Carrinho.

Module ItemCarrinho.
Record t := mk {
  id : string;          (* @id @default(uuid()) *)
  quantidade : Z;       (* Int *)
  produtoId : string;   (* references Produto(id), ON DELETE RESTRICT *)
  carrinhoId : string   (* references Carrinho(id), ON DELETE RESTRICT *)
}.                      (* @@unique([produtoId, carrinhoId]) *)
End ItemCarrinho.

Record Prisma := mkPrisma {
  produtos : list Produto.t;
  carrinhos : list Carrinho.t;
  itens : list ItemCarrinho.t
}.

Definition bancoVazio : Prisma := mkPrisma [] [] [].

(** A cart loaded with [include: { itens: { include: { produto: true } } }]:
    every line carries the product row it points to. *)
Module ItemComProduto.
Record t := mk {
  item : ItemCarrinho.t;
  produto : Produto.t
}.
End ItemComProduto.

Module CarrinhoComItens.
Record t := mk {
  carrinho : Carrinho.t;
  itens : list ItemComProduto.t
}.
End CarrinhoComItens.

(** ** Request bodies (the DTO classes) *)

Module CriarProdutoDto.
Record t := mk {
  nome : string;
  preco : number;
  estoque : number
}.
End CriarProdutoDto.

Module AtualizarProdutoDto.
Record t := mk {
  nome : option string;
  preco : option number;
  estoque : option number
}.
End AtualizarProdutoDto.

Module AdicionarItemDto.
Record t := mk {
  produtoId : string;
  quantidade : number
}.
End AdicionarItemDto.

(** ** Exceptions *)

(** Errors raised by the Prisma client or by PostgreSQL; the controller
    catches none of them. *)
Inductive ErroPrisma :=
| P2002                   (* unique constraint failed *)
| P2003                   (* foreign key constraint failed *)
| P2017                   (* the records of a relation are not connected *)
| P2020                   (* value out of range for the column *)
| P2025                   (* a record the operation depends on was not found *)
| P2032.                  (* a required relation came back empty *)

Inductive Excecao :=
| NotFoundException (mensagem : string)
| BadRequestException (mensagem : string)
| ConflictException (mensagem : string)
| PrismaClientError (erro : ErroPrisma).

Inductive Resultado (A : Type) :=
| Ok (a : A)
| Lancou (e : Excecao).
Arguments Lancou {A} e.

(** ** Store calls and awaiting programs *)

(** One call to the store: atomic, it may change the database and either
    returns or throws. *)
Definition Consulta (A : Type) := Prisma -> Prisma * Resultado A.

Definition consulta_ret {A} (a : A) : Consulta A := fun db => (db, Ok a).
Definition consulta_erro {A} (e : ErroPrisma) : Consulta A :=
  fun db => (db, Lancou (PrismaClientError e)).
Definition consulta_bind {A B} (c : Consulta A) (f : A -> Consulta B) : Consulta B :=
  fun db =>
    match c db with
    | (db', Ok a) => f a db'
    | (db', Lancou e) => (db', Lancou e)
    end.

(** [prisma.$transaction([...])]: all of the writes or none of them. *)
Definition transaction {A} (c : Consulta A) : Consulta A :=
  fun db =>
    match c db with
    | (db', Ok a) => (db', Ok a)
    | (_, Lancou e) => (db, Lancou e)
    end.

(** An [async] method: it returns, throws, or awaits a store call and goes
    on with its answer.  An awaited call that throws ends the method with the
    same exception (no method has a [try]). *)
Inductive Tarefa (A : Type) : Type :=
| Retorne (a : A)
| Lance (e : Excecao)
| Aguarde (B : Type) (consulta : Consulta B) (k : B -> Tarefa A).
Arguments Lance {A} e.
Arguments Aguarde {A B} consulta k.

Fixpoint tarefa_bind {A B} (t : Tarefa A) (f : A -> Tarefa B) : Tarefa B :=
  match t with
  | Retorne a => f a
  | Lance e => Lance e
  | Aguarde c k => Aguarde c (fun b => tarefa_bind (k b) f)
  end.

(** [await c] *)
Definition await {B} (c : Consulta B) : Tarefa B := Aguarde c (fun b => Retorne b).

Declare Scope tarefa_scope.
Delimit Scope tarefa_scope with tarefa.
Notation "x <- t ;; k" := (tarefa_bind t (fun x => k))
  (at level 61, t at next level, right associativity) : tarefa_scope.

(** A request served alone: the method runs to its end. *)
Fixpoint executar {A} (t : Tarefa A) (db : Prisma) : Prisma * Resultado A :=
  match t with
  | Retorne a => (db, Ok a)
  | Lance e => (db, Lancou e)
  | Aguarde c k =>
      match c db with
      | (db', Ok b) => executar (k b) db'
      | (db', Lancou e) => (db', Lancou e)
      end
  end.

(** One scheduling step of a request served among others: the awaited call
    runs and the method stops at its next [await]. *)
Definition passo {A} (t : Tarefa A) (db : Prisma) : Prisma * Tarefa A :=
  match t with
  | Aguarde c k =>
      match c db with
      | (db', Ok b) => (db', k b)
      | (db', Lancou e) => (db', Lance e)
      end
  | _ => (db, t)
  end.

(** ** The store calls the controller makes

    Each definition is one Prisma call of the controller, with the checks
    PostgreSQL and the Prisma client make for the schema: primary keys and
    unique indexes (P2002), the two foreign keys (P2003), the range of an
    [INTEGER] (P2020), the existence of the row named by [where] (P2025)
    and of the related row named by a nested [delete] (P2017).

    No query of the controller has an [ORDER BY]: rows come back in the
    order of the table, where an inserted row and the new version of an
    updated row are last. *)

Definition temId {A} (chave : A -> string) (k : string) (l : list A) : bool :=
  existsb (fun x => chave x =? k)%string l.

Definition acharPor {A} (chave : A -> string) (k : string) (l : list A) : option A :=
  find (fun x => chave x =? k)%string l.

Definition apagar {A} (chave : A -> string) (k : string) (l : list A) : list A :=
  filter (fun x => negb (chave x =? k)%string) l.

(** [UPDATE ... WHERE chave = k]: the old version of the row goes and the
    new one is written after the rows of the table. *)
Definition substituir {A} (chave : A -> string) (k : string) (novo : A) (l : list A) : list A :=
  apagar chave k l ++ [novo].

(** [prisma.produto.findUnique({ where: { nome } })] *)
Definition produto_findUnique_nome (nome : string) : Consulta (option Produto.t) :=
  fun db => (db, Ok (acharPor Produto.nome nome (produtos db))).

(** [prisma.produto.findUnique({ where: { id } })] *)
Definition produto_findUnique_id (id : string) : Consulta (option Produto.t) :=
  fun db => (db, Ok (acharPor Produto.id id (produtos db))).

(** [prisma.produto.findMany()] *)
Definition produto_findMany : Consulta (list Produto.t) :=
  fun db => (db, Ok (produtos db)).

(** [prisma.produto.create({ data })]; [uuid] is the default of [id].
    The [INSERT] is refused by ["Produto_pkey"] and by the unique index
    ["Produto_nome_key"] of the migration, whatever the caller looked up
    before. *)
Definition produto_create (uuid : string) (data : CriarProdutoDto.t) : Consulta Produto.t :=
  fun db =>
    match paraInt (CriarProdutoDto.estoque data) with
    | None => consulta_erro P2020 db
    | Some e =>
        if temId Produto.id uuid (produtos db)
           || temId Produto.nome (CriarProdutoDto.nome data) (produtos db)
        then consulta_erro P2002 db
        else
          let p := Produto.mk uuid (CriarProdutoDto.nome data)
                              (CriarProdutoDto.preco data) e in
          (mkPrisma (produtos db ++ [p]) (carrinhos db) (itens db), Ok p)
    end.

(** The value of a column after [data] gave it or left it out. *)
Definition campo {A} (dado : option A) (atual : A) : A :=
  match dado with Some v => v | None => atual end.

(** An optional [Int] argument: left out, written, or out of range ([None]). *)
Definition intOpcional (dado : option number) : option (option Z) :=
  match dado with
  | None => Some None
  | Some v => option_map Some (paraInt v)
  end.

(** Another row than [id] holds [nome]: the unique index would refuse it. *)
Definition nomeDeOutro (id nome : string) (ps : list Produto.t) : bool :=
  existsb (fun p => (Produto.nome p =? nome)%string && negb (Produto.id p =? id)%string) ps.

(** [prisma.produto.update({ where: { id }, data })] with plain fields. *)
Definition produto_update (id : string) (data : AtualizarProdutoDto.t) : Consulta Produto.t :=
  fun db =>
    match intOpcional (AtualizarProdutoDto.estoque data) with
    | None => consulta_erro P2020 db
    | Some e =>
        match acharPor Produto.id id (produtos db) with
        | None => consulta_erro P2025 db
        | Some atual =>
            let novoNome := campo (AtualizarProdutoDto.nome data) (Produto.nome atual) in
            if nomeDeOutro id novoNome (produtos db)
            then consulta_erro P2002 db
            else
              let p := Produto.mk id novoNome
                         (campo (AtualizarProdutoDto.preco data) (Produto.preco atual))
                         (campo e (Produto.estoque atual)) in
              (mkPrisma (substituir Produto.id id p (produtos db)) (carrinhos db) (itens db),
               Ok p)
        end
    end.

(** A row with one column changed. *)
Definition comEstoque (p : Produto.t) (e : Z) : Produto.t :=
  Produto.mk (Produto.id p) (Produto.nome p) (Produto.preco p) e.

Definition comQuantidade (i : ItemCarrinho.t) (q : Z) : ItemCarrinho.t :=
  ItemCarrinho.mk (ItemCarrinho.id i) q (ItemCarrinho.produtoId i) (ItemCarrinho.carrinhoId i).

(** An atomic number operation of an update. *)
Inductive Atomico :=
| increment (n : number)
| decrement (n : number).

(** What the operation adds to the column. *)
Definition variacao (op : Atomico) : option Z :=
  match op with
  | increment n => paraInt n
  | decrement n => option_map Z.opp (paraInt n)
  end.

(** [prisma.produto.update({ where: { id }, data: { estoque: op } })]:
    [UPDATE "Produto" SET estoque = estoque + d WHERE id = ...]. *)
Definition produto_update_estoque (id : string) (op : Atomico) : Consulta Produto.t :=
  fun db =>
    match variacao op with
    | None => consulta_erro P2020 db
    | Some d =>
        match acharPor Produto.id id (produtos db) with
        | None => consulta_erro P2025 db
        | Some atual =>
            let e := Produto.estoque atual + d in
            if int4 e then
              let p := comEstoque atual e in
              (mkPrisma (substituir Produto.id id p (produtos db)) (carrinhos db) (itens db),
               Ok p)
            else consulta_erro P2020 db
        end
    end.

(** [prisma.produto.delete({ where: { id } })]; the foreign key
    [ItemCarrinho_produtoId_fkey] is [ON DELETE RESTRICT]. *)
Definition produto_delete (id : string) : Consulta Produto.t :=
  fun db =>
    match acharPor Produto.id id (produtos db) with
    | None => consulta_erro P2025 db
    | Some p =>
        if temId ItemCarrinho.produtoId id (itens db)
        then consulta_erro P2003 db
        else (mkPrisma (apagar Produto.id id (produtos db)) (carrinhos db) (itens db), Ok p)
    end.

(** The rows an [include] loads. *)
Fixpoint comProdutos (ps : list Produto.t) (l : list ItemCarrinho.t)
  : option (list ItemComProduto.t) :=
  match l with
  | [] => Some []
  | i :: l' =>
      match acharPor Produto.id (ItemCarrinho.produtoId i) ps, comProdutos ps l' with
      | Some p, Some r => Some (ItemComProduto.mk i p :: r)
      | _, _ => None
      end
  end.

Definition itensDe (carrinhoId : string) (db : Prisma) : list ItemCarrinho.t :=
  filter (fun i => (ItemCarrinho.carrinhoId i =? carrinhoId)%string) (itens db).

Definition incluir (c : Carrinho.t) : Consulta CarrinhoComItens.t :=
  fun db =>
    match comProdutos (produtos db) (itensDe (Carrinho.id c) db) with
    | Some l => (db, Ok (CarrinhoComItens.mk c l))
    | None => consulta_erro P2032 db
    end.

(** [prisma.carrinho.findUnique({ where: { usuarioId }, include })] *)
Definition carrinho_findUnique (usuarioId : string) : Consulta (option CarrinhoComItens.t) :=
  fun db =>
    match acharPor Carrinho.usuarioId usuarioId (carrinhos db) with
    | None => (db, Ok None)
    | Some c => consulta_bind (incluir c) (fun r => consulta_ret (Some r)) db
    end.

(** [prisma.carrinho.create({ data: { usuarioId }, include })] *)
Definition carrinho_create (uuid usuarioId : string) : Consulta CarrinhoComItens.t :=
  fun db =>
    if temId Carrinho.id uuid (carrinhos db)
       || temId Carrinho.usuarioId usuarioId (carrinhos db)
    then consulta_erro P2002 db
    else
      let c := Carrinho.mk uuid usuarioId in
      incluir c (mkPrisma (produtos db) (carrinhos db ++ [c]) (itens db)).

Definition mesmaLinha (produtoId carrinhoId : string) (i : ItemCarrinho.t) : bool :=
  (ItemCarrinho.produtoId i =? produtoId)%string
  && (ItemCarrinho.carrinhoId i =? carrinhoId)%string.

(** [prisma.carrinho.update({ where: { id }, data: { itens: { upsert: {
      where: { produtoId_carrinhoId }, create: { produtoId, quantidade },
      update: { quantidade: { increment: quantidade } } } } }, include })];
    [uuid] is the default of the [id] of a created line. *)
Definition carrinho_update_upsert (id : string) (uuid : string)
    (produtoId : string) (quantidade : number) : Consulta CarrinhoComItens.t :=
  fun db =>
    match paraInt quantidade with
    | None => consulta_erro P2020 db
    | Some n =>
        match acharPor Carrinho.id id (carrinhos db) with
        | None => consulta_erro P2025 db
        | Some c =>
            match find (mesmaLinha produtoId id) (itens db) with
            | Some i =>
                let q := ItemCarrinho.quantidade i + n in
                if int4 q then
                  let i' := comQuantidade i q in
                  incluir c (mkPrisma (produtos db) (carrinhos db)
                               (substituir ItemCarrinho.id (ItemCarrinho.id i) i' (itens db)))
                else consulta_erro P2020 db
            | None =>
                if temId ItemCarrinho.id uuid (itens db) then consulta_erro P2002 db
                else if negb (temId Produto.id produtoId (produtos db))
                then consulta_erro P2003 db
                else
                  let i := ItemCarrinho.mk uuid n produtoId id in
                  incluir c (mkPrisma (produtos db) (carrinhos db) (itens db ++ [i]))
            end
        end
    end.

(** [prisma.carrinho.update({ where: { id }, data: { itens: { delete:
      { id: itemId } } }, include })]; a line that is not there, or not of
    this cart, is not connected to it (P2017). *)
Definition carrinho_update_delete (id : string) (itemId : string)
  : Consulta CarrinhoComItens.t :=
  fun db =>
    match acharPor Carrinho.id id (carrinhos db) with
    | None => consulta_erro P2025 db
    | Some c =>
        if existsb (fun i => (ItemCarrinho.id i =? itemId)%string
                             && (ItemCarrinho.carrinhoId i =? id)%string) (itens db)
        then incluir c (mkPrisma (produtos db) (carrinhos db)
                          (apagar ItemCarrinho.id itemId (itens db)))
        else consulta_erro P2017 db
    end.

(** ** Validation declared on the DTO classes (class-validator)

    [@IsString() @IsNotEmpty()], [@IsNumber() @Min(m)], and [@IsOptional()],
    which skips the other checks of a field that is left out.  The decorators
    only declare the rules: [bootstrap] installs no validation pipe
    ([NestFactory.create] and [listen], nothing between them) and no method
    checks its body, so a body that breaks the rules reaches the method as
    it is. *)

Definition IsNotEmpty (s : string) : bool := negb (s =? EmptyString)%string.
Definition Min (m : number) (v : number) : bool := number_ge v m.

(** The double written [0.01]. *)
Definition um_centesimo : number := (5764607523034235 # 576460752303423488)%Q.

Definition IsOptional {A} (regra : A -> bool) (v : option A) : bool :=
  match v with Some x => regra x | None => true end.

Definition validarCriarProdutoDto (d : CriarProdutoDto.t) : bool :=
  IsNotEmpty (CriarProdutoDto.nome d)
  && Min um_centesimo (CriarProdutoDto.preco d)
  && Min 0%Q (CriarProdutoDto.estoque d).

Definition validarAtualizarProdutoDto (d : AtualizarProdutoDto.t) : bool :=
  IsOptional IsNotEmpty (AtualizarProdutoDto.nome d)
  && IsOptional (Min um_centesimo) (AtualizarProdutoDto.preco d)
  && IsOptional (Min 0%Q) (AtualizarProdutoDto.estoque d).

Definition validarAdicionarItemDto (d : AdicionarItemDto.t) : bool :=
  IsNotEmpty (AdicionarItemDto.produtoId d)
  && Min 1%Q (AdicionarItemDto.quantidade d).

(** ** Responses *)

Module ItemFormatado.
Record t := mk {
  produtoId : string;
  nome : string;
  quantidade : Z;
  precoUnitario : number;
  totalItem : number
}.
End ItemFormatado.

Module CarrinhoFormatado.
Record t := mk {
  id : string;
  usuarioId : string;
  itens : list ItemFormatado.t;
  total : number
}.
End CarrinhoFormatado.

Module RespostaProduto.
Record t := mk { mensagem : string; produto : Produto.t }.
End RespostaProduto.

Module RespostaCarrinho.
Record t := mk { mensagem : string; carrinho : CarrinhoFormatado.t }.
End RespostaCarrinho.

Definition aspas : string := String (ascii_of_nat 34) EmptyString.

(** ** The controller *)

Section AppController.

(** JavaScript arithmetic on numbers is the exact operation followed by the
    rounding to binary64.  The rounding is left open: what is proved below
    holds whatever it is. *)
Variable arredondar : Q -> number.

Definition number_add (a b : number) : number := arredondar (a + b)%Q.
Definition number_mul (a b : number) : number := arredondar (a * b)%Q.

Local Open Scope tarefa_scope.

(** [private readonly usuarioId = 'usuario-123'] *)
Definition usuarioId : string := "usuario-123".

Definition criarProduto (uuid : string) (dadosDoProduto : CriarProdutoDto.t)
  : Tarefa RespostaProduto.t :=
  produtoExistente <- await (produto_findUnique_nome (CriarProdutoDto.nome dadosDoProduto)) ;;
  match produtoExistente with
  | Some _ => Lance (ConflictException "Já existe um produto com este nome.")
  | None =>
      produto <- await (produto_create uuid dadosDoProduto) ;;
      Retorne (RespostaProduto.mk "Produto criado com sucesso!" produto)
  end.

Definition listarTodos : Tarefa (list Produto.t) :=
  await produto_findMany.

Definition buscarProdutoPorId (id : string) : Tarefa Produto.t :=
  produto <- await (produto_findUnique_id id) ;;
  match produto with
  | None => Lance (NotFoundException ("Produto com ID " ++ id ++ " não encontrado."))
  | Some produto => Retorne produto
  end.

(** [Object.keys(dadosParaAtualizar).length] *)
Definition presente {A} (v : option A) : nat :=
  match v with Some _ => 1%nat | None => 0%nat end.

Definition Object_keys_length (d : AtualizarProdutoDto.t) : nat :=
  (presente (AtualizarProdutoDto.nome d)
   + presente (AtualizarProdutoDto.preco d)
   + presente (AtualizarProdutoDto.estoque d))%nat.

Definition atualizarProduto (id : string) (dadosParaAtualizar : AtualizarProdutoDto.t)
  : Tarefa RespostaProduto.t :=
  _ <- buscarProdutoPorId id ;;
  if (Object_keys_length dadosParaAtualizar =? 0)%nat then
    Lance (BadRequestException
             "Pelo menos um campo deve ser fornecido para atualização.")
  else
    produtoAtualizado <- await (produto_update id dadosParaAtualizar) ;;
    Retorne (RespostaProduto.mk "Produto atualizado!" produtoAtualizado).

Definition removerProduto (id : string) : Tarefa unit :=
  _ <- buscarProdutoPorId id ;;
  _ <- await (produto_delete id) ;;
  Retorne tt.

Definition obterOuCriarCarrinho (uuid : string) : Tarefa CarrinhoComItens.t :=
  carrinho <- await (carrinho_findUnique usuarioId) ;;
  match carrinho with
  | None =>
      carrinho <- await (carrinho_create uuid usuarioId) ;;
      Retorne carrinho
  | Some carrinho => Retorne carrinho
  end.

Definition formatarCarrinho (carrinho : CarrinhoComItens.t) : CarrinhoFormatado.t :=
  let total :=
    fold_left
      (fun acc item =>
         number_add acc
           (number_mul (ofInt (ItemCarrinho.quantidade (ItemComProduto.item item)))
                       (Produto.preco (ItemComProduto.produto item))))
      (CarrinhoComItens.itens carrinho) 0%Q in
  CarrinhoFormatado.mk
    (Carrinho.id (CarrinhoComItens.carrinho carrinho))
    (Carrinho.usuarioId (CarrinhoComItens.carrinho carrinho))
    (map (fun i =>
            ItemFormatado.mk
              (ItemCarrinho.produtoId (ItemComProduto.item i))
              (Produto.nome (ItemComProduto.produto i))
              (ItemCarrinho.quantidade (ItemComProduto.item i))
              (Produto.preco (ItemComProduto.produto i))
              (number_mul (ofInt (ItemCarrinho.quantidade (ItemComProduto.item i)))
                          (Produto.preco (ItemComProduto.produto i))))
         (CarrinhoComItens.itens carrinho))
    total.

(** [uuidCarrinho] and [uuidItem] are the identifiers [uuid()] gives when the
    cart, respectively the line, has to be created. *)
Definition adicionarItem (uuidCarrinho uuidItem : string) (itemDto : AdicionarItemDto.t)
  : Tarefa RespostaCarrinho.t :=
  carrinho <- obterOuCriarCarrinho uuidCarrinho ;;
  produto <- await (produto_findUnique_id (AdicionarItemDto.produtoId itemDto)) ;;
  match produto with
  | None =>
      Lance (NotFoundException
               ("Produto com ID " ++ AdicionarItemDto.produtoId itemDto ++ " não encontrado."))
  | Some produto =>
      if number_lt (ofInt (Produto.estoque produto)) (AdicionarItemDto.quantidade itemDto)
      then
        Lance (BadRequestException
                 ("Estoque insuficiente para " ++ aspas ++ Produto.nome produto ++ aspas
                  ++ ". Disponível: " ++ numberToString (Produto.estoque produto) ++ "."))
      else
        r <- await (transaction
               (consulta_bind
                  (produto_update_estoque (AdicionarItemDto.produtoId itemDto)
                     (decrement (AdicionarItemDto.quantidade itemDto)))
                  (fun p =>
               consulta_bind
                  (carrinho_update_upsert
                     (Carrinho.id (CarrinhoComItens.carrinho carrinho)) uuidItem
                     (AdicionarItemDto.produtoId itemDto)
                     (AdicionarItemDto.quantidade itemDto))
                  (fun c => consulta_ret (p, c))))) ;;
        let carrinhoAtualizado := snd r in
        Retorne (RespostaCarrinho.mk "Item adicionado ao carrinho!"
                   (formatarCarrinho carrinhoAtualizado))
  end.

Definition verCarrinho (uuidCarrinho : string) : Tarefa CarrinhoFormatado.t :=
  carrinho <- obterOuCriarCarrinho uuidCarrinho ;;
  Retorne (formatarCarrinho carrinho).

Definition removerItem (uuidCarrinho : string) (produtoId : string)
  : Tarefa RespostaCarrinho.t :=
  carrinho <- obterOuCriarCarrinho uuidCarrinho ;;
  match find (fun i => (ItemCarrinho.produtoId (ItemComProduto.item i) =? produtoId)%string)
             (CarrinhoComItens.itens carrinho) with
  | None =>
      Lance (NotFoundException ("Produto com ID " ++ produtoId ++ " não está no carrinho."))
  | Some itemNoCarrinho =>
      r <- await (transaction
             (consulta_bind
                (produto_update_estoque produtoId
                   (increment (ofInt (ItemCarrinho.quantidade
                                        (ItemComProduto.item itemNoCarrinho)))))
                (fun p =>
             consulta_bind
                (carrinho_update_delete
                   (Carrinho.id (CarrinhoComItens.carrinho carrinho))
                   (ItemCarrinho.id (ItemComProduto.item itemNoCarrinho)))
                (fun c => consulta_ret (p, c))))) ;;
      let carrinhoAtualizado := snd r in
      Retorne (RespostaCarrinho.mk "Item removido do carrinho!"
                 (formatarCarrinho carrinhoAtualizado))
  end.

End AppController.

(** ** Requests *)

(** The routes of the controller, each with its parameters, its body and the
    identifiers [uuid()] would give while it is served. *)
Inductive Requisicao :=
| PostProdutos (uuid : string) (body : CriarProdutoDto.t)
| GetProdutos
| GetProdutosId (id : string)
| PutProdutosId (id : string) (body : AtualizarProdutoDto.t)
| DeleteProdutosId (id : string)
| PostCarrinhoAdicionar (uuidCarrinho uuidItem : string) (body : AdicionarItemDto.t)
| GetCarrinho (uuidCarrinho : string)
| DeleteCarrinhoRemover (uuidCarrinho : string) (produtoId : string).

Inductive Resposta :=
| RProduto (r : RespostaProduto.t)
| RProdutos (l : list Produto.t)
| RUmProduto (p : Produto.t)
| RVazio
| RCarrinho (r : RespostaCarrinho.t)
| RVisao (c : CarrinhoFormatado.t).

(** The body of the request satisfies the constraints its DTO class
    declares. *)
Definition corpoValido (r : Requisicao) : bool :=
  match r with
  | PostProdutos _ body => validarCriarProdutoDto body
  | PutProdutosId _ body => validarAtualizarProdutoDto body
  | PostCarrinhoAdicionar _ _ body => validarAdicionarItemDto body
  | _ => true
  end.

Section Servidor.

Variable arredondar : Q -> number.

Local Open Scope tarefa_scope.

Definition rota (r : Requisicao) : Tarefa Resposta :=
  match r with
  | PostProdutos uuid body => x <- criarProduto uuid body ;; Retorne (RProduto x)
  | GetProdutos => x <- listarTodos ;; Retorne (RProdutos x)
  | GetProdutosId id => x <- buscarProdutoPorId id ;; Retorne (RUmProduto x)
  | PutProdutosId id body => x <- atualizarProduto id body ;; Retorne (RProduto x)
  | DeleteProdutosId id => _ <- removerProduto id ;; Retorne RVazio
  | PostCarrinhoAdicionar uc ui body =>
      x <- adicionarItem arredondar uc ui body ;; Retorne (RCarrinho x)
  | GetCarrinho uc => x <- verCarrinho arredondar uc ;; Retorne (RVisao x)
  | DeleteCarrinhoRemover uc produtoId =>
      x <- removerItem arredondar uc produtoId ;; Retorne (RCarrinho x)
  end.

(** Requests served one after the other. *)
Definition atender (db : Prisma) (r : Requisicao) : Prisma :=
  fst (executar (rota r) db).

Definition atenderTodas (db : Prisma) (rs : list Requisicao) : Prisma :=
  fold_left atender rs db.

End Servidor.

(** ** Consistency of a database, as decidable checks *)

Fixpoint semRepeticao {A} (igual : A -> A -> bool) (l : list A) : bool :=
  match l with
  | [] => true
  | x :: l' => negb (existsb (igual x) l') && semRepeticao igual l'
  end.

Definition mesmoPar (a b : string * string) : bool :=
  (fst a =? fst b)%string && (snd a =? snd b)%string.

Definition chaveDaLinha (i : ItemCarrinho.t) : string * string :=
  (ItemCarrinho.produtoId i, ItemCarrinho.carrinhoId i).

(** The constraints of the schema: primary keys, unique indexes, foreign
    keys and the range of the [INTEGER] columns. *)
Definition integro (db : Prisma) : bool :=
  semRepeticao String.eqb (map Produto.id (produtos db))
  && semRepeticao String.eqb (map Produto.nome (produtos db))
  && semRepeticao String.eqb (map Carrinho.id (carrinhos db))
  && semRepeticao String.eqb (map Carrinho.usuarioId (carrinhos db))
  && semRepeticao String.eqb (map ItemCarrinho.id (itens db))
  && semRepeticao mesmoPar (map chaveDaLinha (itens db))
  && forallb (fun i => temId Produto.id (ItemCarrinho.produtoId i) (produtos db)) (itens db)
  && forallb (fun i => temId Carrinho.id (ItemCarrinho.carrinhoId i) (carrinhos db)) (itens db)
  && forallb (fun p => int4 (Produto.estoque p)) (produtos db)
  && forallb (fun i => int4 (ItemCarrinho.quantidade i)) (itens db).

(** The stock rules: no negative stock, no line below one unit. *)
Definition estoqueValido (db : Prisma) : bool :=
  forallb (fun p => 0 <=? Produto.estoque p) (produtos db)
  && forallb (fun i => 1 <=? ItemCarrinho.quantidade i) (itens db).

Definition saudavel (db : Prisma) : bool := integro db && estoqueValido db.

(** The same constraints as propositions. *)
Record Integro (db : Prisma) : Prop := {
  pk_produto : NoDup (map Produto.id (produtos db));
  uq_produto_nome : NoDup (map Produto.nome (produtos db));
  pk_carrinho : NoDup (map Carrinho.id (carrinhos db));
  uq_carrinho_usuarioId : NoDup (map Carrinho.usuarioId (carrinhos db));
  pk_item : NoDup (map ItemCarrinho.id (itens db));
  uq_item_produto_carrinho : NoDup (map chaveDaLinha (itens db));
  fk_item_produto :
    forall i, In i (itens db) -> In (ItemCarrinho.produtoId i) (map Produto.id (produtos db));
  fk_item_carrinho :
    forall i, In i (itens db) -> In (ItemCarrinho.carrinhoId i) (map Carrinho.id (carrinhos db));
  int4_estoque : forall p, In p (produtos db) -> int4 (Produto.estoque p) = true;
  int4_quantidade : forall i, In i (itens db) -> int4 (ItemCarrinho.quantidade i) = true
}.

(** Units of a product held by cart lines, over all carts. *)
Definition reservadoEm (produtoId : string) (l : list ItemCarrinho.t) : Z :=
  fold_right (fun i acc =>
                if (ItemCarrinho.produtoId i =? produtoId)%string
                then ItemCarrinho.quantidade i + acc else acc)
             0 l.

Definition reservado (produtoId : string) (db : Prisma) : Z :=
  reservadoEm produtoId (itens db).

(** A request that does not set the stock of the product by hand: it is
    neither an update that supplies [estoque] for it nor the creation of a
    product under its identifier. *)
Definition naoRedefine (produtoId : string) (r : Requisicao) : bool :=
  match r with
  | PostProdutos uuid _ => negb (uuid =? produtoId)%string
  | PutProdutosId id body =>
      negb (id =? produtoId)%string
      || match AtualizarProdutoDto.estoque body with Some _ => false | None => true end
  | _ => true
  end.

(** Text inclusion. *)
Definition contem (parte texto : string) : Prop :=
  exists antes depois, texto = (antes ++ parte ++ depois)%string.

(** ** Definitions used to state the properties *)

Unset Implicit Arguments.

Definition Preserva (P : Prisma -> Prop) {A} (c : Consulta A) : Prop :=
  forall db, P db -> P (fst (c db)).

(** A program all of whose store calls keep [P]. *)
Inductive Seguro (P : Prisma -> Prop) {A} : Tarefa A -> Prop :=
| Seguro_Retorne a : Seguro P (Retorne a)
| Seguro_Lance e : Seguro P (Lance e)
| Seguro_Aguarde B (c : Consulta B) k :
    Preserva P c -> (forall b, Seguro P (k b)) -> Seguro P (Aguarde c k).

(** The state after [obterOuCriarCarrinho] found or created the cart. *)
Definition comCarrinho (uuid : string) (db : Prisma) : Prisma :=
  match acharPor Carrinho.usuarioId usuarioId (carrinhos db) with
  | Some _ => db
  | None => mkPrisma (produtos db) (carrinhos db ++ [Carrinho.mk uuid usuarioId]) (itens db)
  end.

(** The lines an [include] loads for a cart, in a consistent database. *)
Definition carregado (c : Carrinho.t) (db : Prisma) : list ItemComProduto.t :=
  match comProdutos (produtos db) (itensDe (Carrinho.id c) db) with
  | Some l => l
  | None => []
  end.

(** The database after the two writes of the transaction of [adicionarItem]. *)
Definition aposAdicionar (db : Prisma) (p : Produto.t) (cid uuid : string) (n : Z) : Prisma :=
  mkPrisma
    (substituir Produto.id (Produto.id p) (comEstoque p (Produto.estoque p + - n)) (produtos db))
    (carrinhos db)
    (match find (mesmaLinha (Produto.id p) cid) (itens db) with
     | Some i =>
         substituir ItemCarrinho.id (ItemCarrinho.id i)
           (comQuantidade i (ItemCarrinho.quantidade i + n)) (itens db)
     | None => itens db ++ [ItemCarrinho.mk uuid n (Produto.id p) cid]
     end).

(** The database after the two writes of the transaction of [removerItem]. *)
Definition aposRemover (db : Prisma) (p : Produto.t) (i : ItemCarrinho.t) : Prisma :=
  mkPrisma
    (substituir Produto.id (Produto.id p)
       (comEstoque p (Produto.estoque p + ItemCarrinho.quantidade i)) (produtos db))
    (carrinhos db)
    (apagar ItemCarrinho.id (ItemCarrinho.id i) (itens db)).

Inductive Efeito : Requisicao -> Prisma -> Prisma -> Prop :=
| Ef_nada r db db' :
    produtos db' = produtos db -> itens db' = itens db -> Efeito r db db'
| Ef_criar uuid body db e :
    paraInt (CriarProdutoDto.estoque body) = Some e ->
    ~ In uuid (map Produto.id (produtos db)) ->
    Efeito (PostProdutos uuid body) db
      (mkPrisma (produtos db ++ [Produto.mk uuid (CriarProdutoDto.nome body)
                                   (CriarProdutoDto.preco body) e])
                (carrinhos db) (itens db))
| Ef_atualizar id body db atual e :
    acharPor Produto.id id (produtos db) = Some atual ->
    intOpcional (AtualizarProdutoDto.estoque body) = Some e ->
    Efeito (PutProdutosId id body) db
      (mkPrisma
         (substituir Produto.id id
            (Produto.mk id (campo (AtualizarProdutoDto.nome body) (Produto.nome atual))
               (campo (AtualizarProdutoDto.preco body) (Produto.preco atual))
               (campo e (Produto.estoque atual)))
            (produtos db))
         (carrinhos db) (itens db))
| Ef_apagar id db :
    temId ItemCarrinho.produtoId id (itens db) = false ->
    Efeito (DeleteProdutosId id) db
      (mkPrisma (apagar Produto.id id (produtos db)) (carrinhos db) (itens db))
| Ef_adicionar uc ui body db c p n :
    paraInt (AdicionarItemDto.quantidade body) = Some n ->
    acharPor Produto.id (AdicionarItemDto.produtoId body) (produtos db) = Some p ->
    n <= Produto.estoque p ->
    Efeito (PostCarrinhoAdicionar uc ui body) db
      (aposAdicionar (comCarrinho uc db) p (Carrinho.id c) ui n)
| Ef_remover uc pid db p i :
    In i (itens db) ->
    ItemCarrinho.produtoId i = pid ->
    acharPor Produto.id pid (produtos db) = Some p ->
    Efeito (DeleteCarrinhoRemover uc pid) db (aposRemover (comCarrinho uc db) p i).

Definition EstoqueValido (db : Prisma) : Prop :=
  (forall p, In p (produtos db) -> 0 <= Produto.estoque p)
  /\ (forall i, In i (itens db) -> 1 <= ItemCarrinho.quantidade i).

(** The claim C1 as the specification words it: whatever the requests that
    follow the creation of a product, what is available plus what is reserved
    is the stock the product was created with. *)
Definition ConservacaoDoEstoque : Prop :=
  forall (arredondar : Q -> number) db0 uuid body e rs p,
    integro db0 = true ->
    acharPor Produto.id uuid (produtos db0) = None ->
    acharPor Produto.nome (CriarProdutoDto.nome body) (produtos db0) = None ->
    toInt4 (CriarProdutoDto.estoque body) = Some e ->
    forallb corpoValido (PostProdutos uuid body :: rs) = true ->
    acharPor Produto.id uuid
      (produtos (atenderTodas arredondar db0 (PostProdutos uuid body :: rs))) = Some p ->
    Produto.estoque p
    + reservado uuid (atenderTodas arredondar db0 (PostProdutos uuid body :: rs)) = e.

(** A database with one product, the cart of the owner and one line that
    holds three units of the product. *)
Definition bancoComLinha : Prisma :=
  mkPrisma [Produto.mk "p1" "Widget" 10%Q 2]
           [Carrinho.mk "c1" "usuario-123"]
           [ItemCarrinho.mk "i1" 3 "p1" "c1"].

(** Requests served concurrently take turns at their awaits: [true] lets the
    first method run to its next await, [false] the second. *)
Fixpoint intercalar {A B} (agenda : list bool) (t1 : Tarefa A) (t2 : Tarefa B) (db : Prisma)
  : Prisma * (Tarefa A * Tarefa B) :=
  match agenda with
  | [] => (db, (t1, t2))
  | true :: agenda' => let (db', t1') := passo t1 db in intercalar agenda' t1' t2 db'
  | false :: agenda' => let (db', t2') := passo t2 db in intercalar agenda' t1 t2' db'
  end.

(** How a finished method ended. *)
Definition desfecho {A} (t : Tarefa A) : option (Resultado A) :=
  match t with
  | Retorne a => Some (Ok a)
  | Lance e => Some (Lancou e)
  | Aguarde _ _ => None
  end.

(** A method stepped alone, [n] times. *)
Fixpoint passos {A} (n : nat) (t : Tarefa A) (db : Prisma) : Prisma * Tarefa A :=
  match n with
  | O => (db, t)
  | S n' => let (db', t') := passo t db in passos n' t' db'
  end.

(** One product with five units and the cart of the owner, empty. *)
Definition bancoComWidget : Prisma :=
  mkPrisma [Produto.mk "p1" "Widget" 10%Q 5] [Carrinho.mk "c1" "usuario-123"] [].

(** Two products; the cart of the owner holds one unit of the second. *)
Definition bancoComDoisProdutos : Prisma :=
  mkPrisma [Produto.mk "p1" "Widget" 10%Q 5; Produto.mk "p2" "Gadget" 4%Q 1]
           [Carrinho.mk "c1" "usuario-123"]
           [ItemCarrinho.mk "i2" 1 "p2" "c1"].

Definition tresWidgets : AdicionarItemDto.t := AdicionarItemDto.mk "p1" 3%Q.

Definition widget : CriarProdutoDto.t := CriarProdutoDto.mk "Widget" 10%Q 5%Q.

(** Products and lines are [ps] and [ls]. *)
Definition Quadro (ps : list Produto.t) (ls : list ItemCarrinho.t) (db : Prisma) : Prop :=
  produtos db = ps /\ itens db = ls.

(** The cart of the owner is [c]. *)
Definition CarrinhoDoDono (c : Carrinho.t) (db : Prisma) : Prop :=
  acharPor Carrinho.usuarioId usuarioId (carrinhos db) = Some c.

(** The routes under [/produtos]. *)
Definition rotaDeProdutos (r : Requisicao) : bool :=
  match r with
  | PostProdutos _ _ | GetProdutos | GetProdutosId _ | PutProdutosId _ _
  | DeleteProdutosId _ => true
  | _ => false
  end.

(** The view of a cart as the specification words it: for each line of
    the cart the product id, the name, the quantity, the unit price and
    the line total, quantity times price; and as total the sum of the line
    totals.  The name and the price are those the table of products holds
    now.  Each product and each sum is rounded as JavaScript rounds it. *)
Definition linhaEsperada (arredondar : Q -> number) (ps : list Produto.t)
    (i : ItemCarrinho.t) : list ItemFormatado.t :=
  match find (fun p => (Produto.id p =? ItemCarrinho.produtoId i)%string) ps with
  | Some p =>
      [ItemFormatado.mk (ItemCarrinho.produtoId i) (Produto.nome p)
         (ItemCarrinho.quantidade i) (Produto.preco p)
         (arredondar (inject_Z (ItemCarrinho.quantidade i) * Produto.preco p)%Q)]
  | None => []
  end.

Definition visaoEsperada (arredondar : Q -> number) (db : Prisma) (c : Carrinho.t)
  : CarrinhoFormatado.t :=
  let linhas :=
    flat_map (linhaEsperada arredondar (produtos db))
      (filter (fun i => (ItemCarrinho.carrinhoId i =? Carrinho.id c)%string) (itens db)) in
  CarrinhoFormatado.mk (Carrinho.id c) (Carrinho.usuarioId c) linhas
    (fold_left (fun acc l => arredondar (acc + ItemFormatado.totalItem l)%Q) linhas 0%Q).

(** Quantity times price summed over the loaded lines, in exact arithmetic. *)
Definition somaExata (l : list ItemComProduto.t) : Q :=
  fold_right
    (fun i acc =>
       (inject_Z (ItemCarrinho.quantidade (ItemComProduto.item i))
        * Produto.preco (ItemComProduto.produto i) + acc)%Q)
    0%Q l.

(** The exact products of the lines, and the exact sums met when they are
    added from [acc] in the order of the lines. *)
Fixpoint valoresDoTotal (acc : Q) (l : list ItemComProduto.t) : list Q :=
  match l with
  | [] => []
  | i :: l' =>
      let v := (inject_Z (ItemCarrinho.quantidade (ItemComProduto.item i))
                * Produto.preco (ItemComProduto.produto i))%Q in
      v :: (acc + v)%Q :: valoresDoTotal (acc + v)%Q l'
  end.

(** A rounding that, like the rounding to binary64, is exact on some
    numbers only: to the quarter below. *)
Definition aosQuartos (q : Q) : number := (Qfloor (q * 4) # 4)%Q.

(** A cart loaded with three Widgets at 10 and two Gadgets at 2.5. *)
Definition carrinhoDeDoisProdutos : CarrinhoComItens.t :=
  CarrinhoComItens.mk (Carrinho.mk "c1" "usuario-123")
    [ItemComProduto.mk (ItemCarrinho.mk "i1" 3 "p1" "c1") (Produto.mk "p1" "Widget" 10%Q 2);
     ItemComProduto.mk (ItemCarrinho.mk "i2" 2 "p2" "c1") (Produto.mk "p2" "Gadget" (5 # 2)%Q 1)].

(** A route of the cart that does not name the product [produtoId]. *)
Definition outroProduto (produtoId : string) (r : Requisicao) : bool :=
  match r with
  | PostCarrinhoAdicionar _ _ body =>
      negb (AdicionarItemDto.produtoId body =? produtoId)%string
  | DeleteCarrinhoRemover _ pid => negb (pid =? produtoId)%string
  | GetCarrinho _ => true
  | _ => false
  end.

(** The lines of a product, over all carts. *)
Definition linhasDe (produtoId : string) (db : Prisma) : list ItemCarrinho.t :=
  filter (fun i => (ItemCarrinho.produtoId i =? produtoId)%string) (itens db).

(** What a cart route cannot change in a product. *)
Definition fichaDoProduto (p : Produto.t) : string * string * number :=
  (Produto.id p, Produto.nome p, Produto.preco p).

(** The table of carts is [cs]. *)
Definition MesmosCarrinhos (cs : list Carrinho.t) (db : Prisma) : Prop :=
  carrinhos db = cs.

(** ** Numbers: facts *)

Lemma int4_iff z : int4 z = true <-> -2147483648 <= z <= 2147483647.
Proof. unfold int4. rewrite andb_true_iff, !Z.leb_le. tauto. Qed.

Lemma toInt4_Some x z :
  toInt4 x = Some z -> int4 z = true /\ (x == inject_Z z)%Q.
Proof.
  unfold toInt4. intros H.
  destruct (Pos.eqb_spec (Qden (Qred x)) 1) as [Hd|]; simpl in H; [|discriminate].
  destruct (int4 (Qnum (Qred x))) eqn:Hr; [|discriminate].
  injection H as <-. split; [assumption|].
  rewrite <- (Qred_correct x) at 1.
  destruct (Qred x) as [a b]. simpl in *. subst b. reflexivity.
Qed.

Lemma toInt4_ofInt z : int4 z = true -> toInt4 (ofInt z) = Some z.
Proof.
  intros H. unfold toInt4, ofInt, inject_Z.
  assert (Qred (z # 1) = z # 1) as ->.
  { unfold Qred.
    generalize (Z.ggcd_gcd z 1), (Z.ggcd_correct_divisors z 1).
    destruct (Z.ggcd z 1) as [g [a b]]. simpl.
    rewrite Z.gcd_1_r. intros -> [Ha Hb].
    rewrite Z.mul_1_l in Ha, Hb. now subst. }
  simpl. now rewrite H.
Qed.

Lemma paraInt_Some x z : paraInt x = Some z -> int4 z = true.
Proof.
  unfold paraInt. destruct (int4 (truncar x)) eqn:E; [|discriminate].
  now intros [= <-].
Qed.

Lemma truncar_inteiro x z : (x == inject_Z z)%Q -> truncar x = z.
Proof.
  unfold truncar, Qeq, inject_Z. simpl. intros H. rewrite Z.mul_1_r in H.
  rewrite H. apply Z.quot_mul. discriminate.
Qed.

(** On the integers of the range the store writes what it is given. *)
Lemma paraInt_toInt4 x z : toInt4 x = Some z -> paraInt x = Some z.
Proof.
  intros H. apply toInt4_Some in H as [Hr Hx].
  unfold paraInt. rewrite (truncar_inteiro _ _ Hx). now rewrite Hr.
Qed.

Lemma paraInt_ofInt z : int4 z = true -> paraInt (ofInt z) = Some z.
Proof. intros H. apply paraInt_toInt4. now apply toInt4_ofInt. Qed.

Lemma truncar_cota x :
  (0 <= Qnum x ->
   Z.pos (Qden x) * truncar x <= Qnum x < Z.pos (Qden x) * truncar x + Z.pos (Qden x))
  /\ (Qnum x <= 0 ->
      Z.pos (Qden x) * truncar x - Z.pos (Qden x) < Qnum x <= Z.pos (Qden x) * truncar x).
Proof.
  unfold truncar. destruct x as [a b]. cbn [Qnum Qden].
  pose proof (Z.quot_rem' a (Z.pos b)) as E.
  split; intros Ha.
  - pose proof (Z.rem_bound_pos_pos a (Z.pos b) ltac:(lia) Ha). lia.
  - pose proof (Z.rem_bound_pos_neg a (Z.pos b) ltac:(lia) Ha). lia.
Qed.

Lemma truncar_le x e : (x <= inject_Z e)%Q -> truncar x <= e.
Proof.
  intros H. unfold Qle in H. cbn [Qnum Qden inject_Z] in H. rewrite Z.mul_1_r in H.
  destruct (truncar_cota x) as [H1 H2].
  destruct (Z_le_gt_dec 0 (Qnum x)) as [Ha|Ha].
  - specialize (H1 Ha). nia.
  - specialize (H2 ltac:(lia)). nia.
Qed.

Lemma truncar_ge m x : (inject_Z m <= x)%Q -> m <= truncar x.
Proof.
  intros H. unfold Qle in H. cbn [Qnum Qden inject_Z] in H. rewrite Z.mul_1_r in H.
  destruct (truncar_cota x) as [H1 H2].
  destruct (Z_le_gt_dec 0 (Qnum x)) as [Ha|Ha].
  - specialize (H1 Ha). nia.
  - specialize (H2 ltac:(lia)). nia.
Qed.

Lemma paraInt_truncar x z : paraInt x = Some z -> z = truncar x.
Proof.
  unfold paraInt. destruct (int4 (truncar x)); [|discriminate]. now intros [= <-].
Qed.

Lemma number_lt_nao e x : number_lt (ofInt e) x = false <-> (x <= inject_Z e)%Q.
Proof.
  unfold number_lt, ofInt. rewrite negb_false_iff. apply Qle_bool_iff.
Qed.

Lemma Min_paraInt m x z : paraInt x = Some z -> Min (inject_Z m) x = true -> m <= z.
Proof.
  intros H Hm. apply paraInt_truncar in H as ->.
  unfold Min, number_ge in Hm. apply Qle_bool_iff in Hm. now apply truncar_ge.
Qed.

Lemma number_lt_ofInt e x z :
  toInt4 x = Some z -> number_lt (ofInt e) x = (e <? z).
Proof.
  intros H. apply toInt4_Some in H as [_ H].
  unfold number_lt, ofInt.
  destruct (Qle_bool x (inject_Z e)) eqn:Hle; simpl; symmetry.
  - apply Qle_bool_iff in Hle. rewrite H, <- Zle_Qle in Hle. apply Z.ltb_ge. exact Hle.
  - apply Z.ltb_lt. apply Z.nle_gt. intros Hc.
    assert (Qle_bool x (inject_Z e) = true) as Ht; [|congruence].
    apply Qle_bool_iff. rewrite H, <- Zle_Qle. exact Hc.
Qed.

Lemma number_lt_iff a b : number_lt a b = true <-> (a < b)%Q.
Proof.
  unfold number_lt. rewrite negb_true_iff. split.
  - intros H. apply Qnot_le_lt. intros Hc. apply Qle_bool_iff in Hc. congruence.
  - intros H. destruct (Qle_bool b a) eqn:E; [|reflexivity].
    apply Qle_bool_iff in E. exfalso. exact (Qlt_not_le _ _ H E).
Qed.

Lemma Min_toInt4 m x z :
  toInt4 x = Some z -> Min (inject_Z m) x = true -> m <= z.
Proof.
  intros H Hm. apply toInt4_Some in H as [_ H].
  unfold Min, number_ge in Hm. apply Qle_bool_iff in Hm.
  rewrite H, <- Zle_Qle in Hm. exact Hm.
Qed.

(** ** Tables: facts *)

Section Tabela.

Context {A : Type} (chave : A -> string).

Lemma temId_true k l : temId chave k l = true <-> In k (map chave l).
Proof.
  unfold temId. rewrite existsb_exists, in_map_iff.
  split; intros [x H]; exists x.
  - destruct H as [H1 H2]. apply String.eqb_eq in H2. tauto.
  - destruct H as [H1 H2]. split; [assumption|]. now apply String.eqb_eq.
Qed.

Lemma temId_false k l : temId chave k l = false <-> ~ In k (map chave l).
Proof.
  rewrite <- temId_true. destruct (temId chave k l); split; congruence.
Qed.

Lemma acharPor_Some k l x : acharPor chave k l = Some x -> In x l /\ chave x = k.
Proof.
  unfold acharPor. intros H. apply find_some in H as [H1 H2].
  apply String.eqb_eq in H2. tauto.
Qed.

Lemma acharPor_None k l : acharPor chave k l = None <-> ~ In k (map chave l).
Proof.
  unfold acharPor. split.
  - intros H Hin. apply in_map_iff in Hin as [x [Hx Hin]].
    apply (find_none _ _ H) in Hin. apply String.eqb_neq in Hin. congruence.
  - intros H. destruct (find _ l) eqn:E; [|reflexivity].
    apply find_some in E as [E1 E2]. apply String.eqb_eq in E2.
    exfalso. apply H. apply in_map_iff. eauto.
Qed.

Lemma acharPor_existe k l : In k (map chave l) -> exists x, acharPor chave k l = Some x.
Proof.
  intros H. destruct (acharPor chave k l) eqn:E; [eauto|].
  apply acharPor_None in E. contradiction.
Qed.

Lemma acharPor_unico l x :
  NoDup (map chave l) -> In x l -> acharPor chave (chave x) l = Some x.
Proof.
  unfold acharPor. induction l as [|y l IH]; simpl; intros Hnd Hin; [contradiction|].
  inversion Hnd as [|? ? Hy Hnd']; subst.
  destruct (String.eqb_spec (chave y) (chave x)) as [E|E].
  - destruct Hin as [->|Hin]; [reflexivity|].
    exfalso. apply Hy. rewrite E. now apply in_map.
  - destruct Hin as [->|Hin]; [congruence|]. now apply IH.
Qed.

Lemma In_apagar k l x : In x (apagar chave k l) <-> In x l /\ chave x <> k.
Proof.
  unfold apagar. rewrite filter_In, negb_true_iff.
  split; intros [H1 H2]; split; try assumption.
  - now apply String.eqb_neq.
  - now apply String.eqb_neq.
Qed.

Lemma acharPor_apagar k k' l :
  acharPor chave k' (apagar chave k l)
  = if (k' =? k)%string then None else acharPor chave k' l.
Proof.
  unfold acharPor, apagar. induction l as [|y l IH]; simpl.
  - now destruct (k' =? k)%string.
  - destruct (String.eqb_spec (chave y) k) as [E|E]; simpl.
    + rewrite IH. destruct (String.eqb_spec k' k) as [E'|E']; [reflexivity|].
      destruct (String.eqb_spec (chave y) k'); [congruence|reflexivity].
    + destruct (String.eqb_spec (chave y) k') as [E'|E'].
      * destruct (String.eqb_spec k' k); [congruence|reflexivity].
      * exact IH.
Qed.

Lemma In_substituir k novo l x :
  In x (substituir chave k novo l) -> x = novo \/ (In x l /\ chave x <> k).
Proof.
  unfold substituir. rewrite in_app_iff, In_apagar. simpl. intuition.
Qed.

Lemma In_substituir_novo k novo l : In novo (substituir chave k novo l).
Proof. unfold substituir. apply in_or_app. right. now left. Qed.

Lemma In_substituir_outro k novo l x :
  In x l -> chave x <> k -> In x (substituir chave k novo l).
Proof.
  intros H1 H2. unfold substituir. apply in_or_app. left. now apply In_apagar.
Qed.

(** The keys of a table are the same after an update of a row that is
    there. *)
Lemma In_map_chave_substituir k novo l k' :
  chave novo = k -> In k (map chave l) ->
  In k' (map chave (substituir chave k novo l)) <-> In k' (map chave l).
Proof.
  intros Hn Hk. rewrite !in_map_iff. split.
  - intros [x [Hx Hin]]. apply In_substituir in Hin as [->|[Hin _]].
    + rewrite Hn in Hx. subst k'. now apply in_map_iff.
    + eauto.
  - intros [x [Hx Hin]]. destruct (String.eqb_spec (chave x) k) as [E|E].
    + exists novo. split; [congruence|apply In_substituir_novo].
    + exists x. split; [assumption|now apply In_substituir_outro].
Qed.

Lemma acharPor_app k l l' :
  acharPor chave k (l ++ l')
  = match acharPor chave k l with Some x => Some x | None => acharPor chave k l' end.
Proof.
  unfold acharPor. induction l as [|y l IH]; simpl; [reflexivity|].
  destruct (chave y =? k)%string; [reflexivity|exact IH].
Qed.

Lemma acharPor_substituir k novo l k' :
  chave novo = k ->
  acharPor chave k' (substituir chave k novo l)
  = if (k' =? k)%string then Some novo else acharPor chave k' l.
Proof.
  intros Hn. unfold substituir. rewrite acharPor_app, acharPor_apagar.
  destruct (String.eqb_spec k' k) as [E|E].
  - unfold acharPor. simpl. rewrite Hn, E. now rewrite String.eqb_refl.
  - destruct (acharPor chave k' l); [reflexivity|].
    unfold acharPor. simpl. rewrite Hn.
    destruct (String.eqb_spec k k'); [congruence|reflexivity].
Qed.

Lemma apagar_ausente k l : ~ In k (map chave l) -> apagar chave k l = l.
Proof.
  unfold apagar. induction l as [|y l IH]; simpl; intros H; [reflexivity|].
  destruct (String.eqb_spec (chave y) k) as [E|E]; [tauto|].
  simpl. f_equal. apply IH. tauto.
Qed.

Lemma apagar_app k l l' : apagar chave k (l ++ l') = (apagar chave k l ++ apagar chave k l')%list.
Proof. unfold apagar. apply filter_app. Qed.

Lemma NoDup_map_app_um {B} (f : A -> B) l x :
  NoDup (map f l) -> ~ In (f x) (map f l) -> NoDup (map f (l ++ [x])).
Proof.
  intros H1 H2. rewrite map_app. simpl.
  apply NoDup_app; [assumption| |].
  - constructor; [simpl; tauto|constructor].
  - intros a Ha [<-|[]]. contradiction.
Qed.

Lemma NoDup_map_filter {B} (f : A -> B) (p : A -> bool) l :
  NoDup (map f l) -> NoDup (map f (filter p l)).
Proof.
  induction l as [|y l IH]; simpl; intros H; [constructor|].
  inversion H as [|? ? Hy H']; subst.
  destruct (p y); simpl; [|now apply IH].
  constructor; [|now apply IH].
  intros Hin. apply Hy. apply in_map_iff in Hin as [z [Hz Hin]].
  apply filter_In in Hin as [Hin _]. apply in_map_iff. eauto.
Qed.

End Tabela.

Lemma NoDup_map_unico {A B} (f : A -> B) l x y :
  NoDup (map f l) -> In x l -> In y l -> f x = f y -> x = y.
Proof.
  induction l as [|z l IH]; simpl; intros Hnd Hx Hy E; [contradiction|].
  inversion Hnd as [|? ? Hz Hnd']; subst.
  destruct Hx as [->|Hx], Hy as [->|Hy]; auto.
  - exfalso. apply Hz. rewrite E. now apply in_map.
  - exfalso. apply Hz. rewrite <- E. now apply in_map.
Qed.

Section TabelaUnicidade.

Context {A B : Type} (chave : A -> string) (f : A -> B).

Lemma NoDup_map_substituir k novo l :
  NoDup (map chave l) -> NoDup (map f l) ->
  (forall y, In y l -> chave y <> k -> f y <> f novo) ->
  NoDup (map f (substituir chave k novo l)).
Proof.
  intros Hc Hf Hn. unfold substituir. apply (NoDup_map_app_um chave).
  - unfold apagar. now apply NoDup_map_filter.
  - intros Hin. apply in_map_iff in Hin as [y [Hy Hin]].
    apply In_apagar in Hin as [Hin Hk]. exact (Hn y Hin Hk Hy).
Qed.

(** The updated row aside, a table and its update hold the same rows. *)
Lemma map_substituir_igual k novo l x :
  NoDup (map chave l) -> In x l -> chave x = k -> f novo = f x ->
  forall v, In v (map f (substituir chave k novo l)) <-> In v (map f l).
Proof.
  intros Hnd Hx Hk Hf v. rewrite !in_map_iff. split.
  - intros [y [Hy Hin]]. apply In_substituir in Hin as [->|[Hin _]]; [|eauto].
    exists x. split; [congruence|assumption].
  - intros [y [Hy Hin]]. destruct (String.eqb_spec (chave y) k) as [E|E].
    + assert (y = x) as -> by (apply (NoDup_map_unico chave l); congruence).
      exists novo. split; [congruence|apply In_substituir_novo].
    + exists y. split; [assumption|now apply In_substituir_outro].
Qed.

End TabelaUnicidade.

(** ** The decidable checks and the propositions agree *)

Lemma semRepeticao_NoDup {A} (igual : A -> A -> bool) (l : list A) :
  (forall a b, igual a b = true <-> a = b) ->
  semRepeticao igual l = true <-> NoDup l.
Proof.
  intros Hig. induction l as [|x l IH]; simpl.
  - split; [constructor|reflexivity].
  - rewrite andb_true_iff, negb_true_iff, IH, NoDup_cons_iff.
    assert (existsb (igual x) l = false <-> ~ In x l) as ->; [|tauto].
    split.
    + intros H Hin. assert (existsb (igual x) l = true); [|congruence].
      apply existsb_exists. exists x. split; [assumption|now apply Hig].
    + intros H. destruct (existsb (igual x) l) eqn:E; [|reflexivity].
      apply existsb_exists in E as [y [Hy E]]. apply Hig in E. subst. contradiction.
Qed.

Lemma mesmoPar_eq a b : mesmoPar a b = true <-> a = b.
Proof.
  destruct a as [a1 a2], b as [b1 b2]. unfold mesmoPar. simpl.
  rewrite andb_true_iff, !String.eqb_eq. split; [intros []|intros [=]]; subst; auto.
Qed.

Lemma integro_iff db : integro db = true <-> Integro db.
Proof.
  unfold integro. rewrite !andb_true_iff.
  rewrite !(semRepeticao_NoDup _ _ String.eqb_eq), (semRepeticao_NoDup _ _ mesmoPar_eq).
  rewrite !forallb_forall.
  split.
  - intros [[[[[[[[[H1 H2] H3] H4] H5] H6] H7] H8] H9] H10].
    constructor; auto.
    + intros i Hi. apply temId_true. auto.
    + intros i Hi. apply temId_true. auto.
  - intros [H1 H2 H3 H4 H5 H6 H7 H8 H9 H10].
    repeat split; auto; intros i Hi; apply temId_true; auto.
Qed.

Lemma integro_bancoVazio : Integro bancoVazio.
Proof. apply integro_iff. reflexivity. Qed.

(** ** Every store call keeps the constraints of the schema *)

Lemma Preserva_ret P A (a : A) : Preserva P (consulta_ret a).
Proof. intros db H. exact H. Qed.

Lemma Preserva_erro P A e : Preserva P (@consulta_erro A e).
Proof. intros db H. exact H. Qed.

Lemma Preserva_bind P A B (c : Consulta A) (f : A -> Consulta B) :
  Preserva P c -> (forall a, Preserva P (f a)) -> Preserva P (consulta_bind c f).
Proof.
  intros Hc Hf db H. unfold consulta_bind.
  specialize (Hc db H). destruct (c db) as [db' [a|e]]; simpl in *; [|assumption].
  now apply Hf.
Qed.

Lemma Preserva_transaction P A (c : Consulta A) :
  Preserva P c -> Preserva P (transaction c).
Proof.
  intros Hc db H. unfold transaction.
  specialize (Hc db H). destruct (c db) as [db' [a|e]]; simpl in *; assumption.
Qed.

Lemma Preserva_incluir P c : Preserva P (incluir c).
Proof.
  intros db H. unfold incluir. now destruct (comProdutos _ _).
Qed.

Lemma Integro_produto_findUnique_nome n : Preserva Integro (produto_findUnique_nome n).
Proof. intros db H. exact H. Qed.

Lemma Integro_produto_findUnique_id n : Preserva Integro (produto_findUnique_id n).
Proof. intros db H. exact H. Qed.

Lemma Integro_produto_findMany : Preserva Integro produto_findMany.
Proof. intros db H. exact H. Qed.

Lemma Integro_produto_create uuid data : Preserva Integro (produto_create uuid data).
Proof.
  intros db H. unfold produto_create.
  destruct (paraInt _) as [e|] eqn:He; [|exact H].
  destruct (temId Produto.id uuid _) eqn:Hid; [exact H|].
  destruct (temId Produto.nome _ _) eqn:Hn; [exact H|]. simpl.
  apply temId_false in Hid, Hn. apply paraInt_Some in He.
  destruct H. constructor; simpl; auto.
  - now apply NoDup_map_app_um.
  - now apply NoDup_map_app_um.
  - intros i Hi. rewrite map_app, in_app_iff. auto.
  - intros p Hp. apply in_app_iff in Hp as [Hp|[<-|[]]]; auto.
Qed.

Lemma Integro_substituir_produto db id p atual :
  Integro db ->
  acharPor Produto.id id (produtos db) = Some atual ->
  Produto.id p = id ->
  (forall y, In y (produtos db) -> Produto.id y <> id -> Produto.nome y <> Produto.nome p) ->
  int4 (Produto.estoque p) = true ->
  Integro (mkPrisma (substituir Produto.id id p (produtos db)) (carrinhos db) (itens db)).
Proof.
  intros H Ha Hid Hn Hr.
  destruct (acharPor_Some _ _ _ _ Ha) as [Hain Haid].
  assert (In id (map Produto.id (produtos db))) as Hk by (rewrite <- Haid; now apply in_map).
  destruct H. constructor; simpl; auto.
  - apply NoDup_map_substituir; auto. congruence.
  - now apply NoDup_map_substituir.
  - intros i Hi. apply In_map_chave_substituir; auto.
  - intros y Hy. apply In_substituir in Hy as [->|[Hy _]]; auto.
Qed.

Lemma nomeDeOutro_true id n ps y :
  In y ps -> Produto.id y <> id -> Produto.nome y = n -> nomeDeOutro id n ps = true.
Proof.
  intros Hy Hid E. apply existsb_exists. exists y. split; [assumption|].
  apply andb_true_iff. split; [now apply String.eqb_eq|].
  apply negb_true_iff. now apply String.eqb_neq.
Qed.

Lemma Integro_produto_update id data : Preserva Integro (produto_update id data).
Proof.
  intros db H. unfold produto_update.
  destruct (intOpcional _) as [e|] eqn:He; [|exact H].
  destruct (acharPor _ _ _) as [atual|] eqn:Ha; [|exact H].
  destruct (nomeDeOutro _ _ _) eqn:Hn; [exact H|]. simpl.
  apply Integro_substituir_produto with (atual := atual); simpl; auto.
  - intros y Hy Hid E. now rewrite (nomeDeOutro_true id _ (produtos db) y) in Hn.
  - unfold intOpcional in He.
    destruct (AtualizarProdutoDto.estoque data) as [v|].
    + destruct (paraInt v) as [z|] eqn:Hz; [|discriminate]. injection He as <-.
      simpl. now apply paraInt_Some in Hz.
    + injection He as <-. simpl. apply acharPor_Some in Ha as [Ha _].
      now apply (int4_estoque H).
Qed.

Lemma Integro_produto_update_estoque id op : Preserva Integro (produto_update_estoque id op).
Proof.
  intros db H. unfold produto_update_estoque.
  destruct (variacao op) as [d|]; [|exact H].
  destruct (acharPor _ _ _) as [atual|] eqn:Ha; [|exact H].
  destruct (int4 _) eqn:Hr; [|exact H]. simpl.
  destruct (acharPor_Some _ _ _ _ Ha) as [Hin Hid].
  apply Integro_substituir_produto with (atual := atual); simpl; auto.
  intros y Hy Hy' E. apply Hy'. rewrite <- Hid. f_equal.
  apply (NoDup_map_unico Produto.nome (produtos db)); auto. apply H.
Qed.

Lemma Integro_produto_delete id : Preserva Integro (produto_delete id).
Proof.
  intros db H. unfold produto_delete.
  destruct (acharPor _ _ _) as [p|] eqn:Ha; [|exact H].
  destruct (temId ItemCarrinho.produtoId id _) eqn:Hfk; [exact H|]. simpl.
  apply temId_false in Hfk.
  destruct H. constructor; simpl; auto.
  - now apply NoDup_map_filter.
  - now apply NoDup_map_filter.
  - intros i Hi. specialize (fk_item_produto0 i Hi).
    apply in_map_iff in fk_item_produto0 as [q [Hq Hin]].
    apply in_map_iff. exists q. split; [assumption|].
    apply In_apagar. split; [assumption|].
    intros E. apply Hfk. apply in_map_iff. exists i. split; congruence.
  - intros q Hq. apply In_apagar in Hq as [Hq _]. auto.
Qed.

Lemma Integro_carrinho_findUnique u : Preserva Integro (carrinho_findUnique u).
Proof.
  intros db H. unfold carrinho_findUnique.
  destruct (acharPor _ _ _) as [c|]; [|exact H].
  apply Preserva_bind; auto using Preserva_incluir, Preserva_ret.
Qed.

Lemma Integro_carrinho_create uuid u : Preserva Integro (carrinho_create uuid u).
Proof.
  intros db H. unfold carrinho_create.
  destruct (temId Carrinho.id uuid _) eqn:Hid; [exact H|].
  destruct (temId Carrinho.usuarioId u _) eqn:Hu; [exact H|]. simpl.
  apply Preserva_incluir.
  apply temId_false in Hid, Hu.
  destruct H. constructor; simpl; auto.
  - now apply NoDup_map_app_um.
  - now apply NoDup_map_app_um.
  - intros i Hi. rewrite map_app, in_app_iff. auto.
Qed.

Lemma mesmaLinha_chave p c i : mesmaLinha p c i = true <-> chaveDaLinha i = (p, c).
Proof.
  unfold mesmaLinha, chaveDaLinha. rewrite andb_true_iff, !String.eqb_eq.
  split; [intros []|intros [=]]; subst; auto.
Qed.

Lemma find_mesmaLinha_None p c l :
  find (mesmaLinha p c) l = None <-> ~ In (p, c) (map chaveDaLinha l).
Proof.
  split.
  - intros H Hin. apply in_map_iff in Hin as [i [Hi Hin]].
    apply (find_none _ _ H) in Hin. apply mesmaLinha_chave in Hi. congruence.
  - intros H. destruct (find _ l) as [i|] eqn:E; [|reflexivity].
    apply find_some in E as [E1 E2]. apply mesmaLinha_chave in E2.
    exfalso. apply H. apply in_map_iff. eauto.
Qed.

Lemma Integro_carrinho_update_upsert id uuid p q :
  Preserva Integro (carrinho_update_upsert id uuid p q).
Proof.
  intros db H. unfold carrinho_update_upsert.
  destruct (paraInt q) as [n|] eqn:Hn; [|exact H].
  destruct (acharPor _ _ _) as [c|] eqn:Hc; [|exact H].
  apply paraInt_Some in Hn. apply acharPor_Some in Hc as [Hc Hcid].
  destruct (find _ _) as [i|] eqn:Hi.
  - destruct (int4 (ItemCarrinho.quantidade i + n)) eqn:Hr; [|exact H].
    apply Preserva_incluir. apply find_some in Hi as [Hi _].
    pose proof (uq_item_produto_carrinho H) as Huq.
    destruct H. constructor; simpl; auto.
    + apply NoDup_map_substituir; auto.
    + apply NoDup_map_substituir; auto.
      intros y Hy Hne E. apply Hne. f_equal.
      apply (NoDup_map_unico chaveDaLinha (itens db)); auto.
    + intros y Hy. apply In_substituir in Hy as [->|[Hy _]]; simpl; auto.
    + intros y Hy. apply In_substituir in Hy as [->|[Hy _]]; simpl; auto.
    + intros y Hy. apply In_substituir in Hy as [->|[Hy _]]; simpl; auto.
  - destruct (temId ItemCarrinho.id uuid _) eqn:Hu; [exact H|].
    destruct (temId Produto.id p _) eqn:Hp; [|exact H]. simpl.
    apply Preserva_incluir.
    apply temId_false in Hu. apply temId_true in Hp. apply find_mesmaLinha_None in Hi.
    destruct H. constructor; simpl; auto.
    + now apply NoDup_map_app_um.
    + now apply NoDup_map_app_um.
    + intros y Hy. apply in_app_iff in Hy as [Hy|[<-|[]]]; auto.
    + intros y Hy. apply in_app_iff in Hy as [Hy|[<-|[]]]; auto.
      simpl. rewrite <- Hcid. now apply in_map.
    + intros y Hy. apply in_app_iff in Hy as [Hy|[<-|[]]]; auto.
Qed.

Lemma Integro_carrinho_update_delete id itemId :
  Preserva Integro (carrinho_update_delete id itemId).
Proof.
  intros db H. unfold carrinho_update_delete.
  destruct (acharPor _ _ _) as [c|] eqn:Hc; [|exact H].
  destruct (existsb _ _); [|exact H].
  apply Preserva_incluir.
  destruct H. constructor; simpl; auto.
  - now apply NoDup_map_filter.
  - now apply NoDup_map_filter.
  - intros y Hy. apply In_apagar in Hy as [Hy _]. auto.
  - intros y Hy. apply In_apagar in Hy as [Hy _]. auto.
  - intros y Hy. apply In_apagar in Hy as [Hy _]. auto.
Qed.

(** ** Awaiting programs: facts *)

Lemma executar_bind A B (t : Tarefa A) (f : A -> Tarefa B) db :
  executar (tarefa_bind t f) db
  = match executar t db with
    | (db', Ok a) => executar (f a) db'
    | (db', Lancou e) => (db', Lancou e)
    end.
Proof.
  revert db. induction t as [a|e|C c k IH]; intros db; simpl; try reflexivity.
  destruct (c db) as [db' [b|e]]; [apply IH|reflexivity].
Qed.

Lemma executar_await A (c : Consulta A) db :
  executar (await c) db = c db.
Proof.
  unfold await. simpl. now destruct (c db) as [db' [a|e]].
Qed.

Lemma Seguro_bind P A B (t : Tarefa A) (f : A -> Tarefa B) :
  Seguro P t -> (forall a, Seguro P (f a)) -> Seguro P (tarefa_bind t f).
Proof.
  intros Ht Hf. induction Ht; simpl; auto using Seguro_Lance.
  constructor; auto.
Qed.

Lemma Seguro_await P A (c : Consulta A) : Preserva P c -> Seguro P (await c).
Proof. intros H. constructor; [assumption|constructor]. Qed.

Lemma Seguro_executar P A (t : Tarefa A) db :
  Seguro P t -> P db -> P (fst (executar t db)).
Proof.
  intros Ht. revert db. induction Ht as [a|e|B c k Hc Hk IH]; intros db H; simpl; auto.
  specialize (Hc db H). destruct (c db) as [db' [b|e]]; simpl in *; auto.
Qed.

Lemma Seguro_passo P A (t : Tarefa A) db :
  Seguro P t -> P db -> P (fst (passo t db)) /\ Seguro P (snd (passo t db)).
Proof.
  intros Ht H. destruct Ht as [a|e|B c k Hc Hk]; simpl; auto using Seguro.
  specialize (Hc db H). destruct (c db) as [db' [b|e]]; simpl in *; auto using Seguro.
Qed.

Create HintDb integridade.

#[local] Hint Resolve Preserva_ret Preserva_erro Preserva_bind Preserva_transaction
  Preserva_incluir Integro_produto_findUnique_nome Integro_produto_findUnique_id
  Integro_produto_findMany Integro_produto_create Integro_produto_update
  Integro_produto_update_estoque Integro_produto_delete Integro_carrinho_findUnique
  Integro_carrinho_create Integro_carrinho_update_upsert Integro_carrinho_update_delete
  Seguro_await Seguro_bind Seguro_Retorne Seguro_Lance : integridade.

Ltac seguro :=
  repeat (first
    [ apply Seguro_bind | apply Seguro_await | apply Seguro_Retorne | apply Seguro_Lance
    | apply Preserva_transaction | apply Preserva_bind
    | progress auto with integridade
    | progress intros
    | match goal with |- Seguro _ (match ?x with _ => _ end) => destruct x end
    | match goal with |- Seguro _ (if ?x then _ else _) => destruct x end ]).

Lemma Seguro_buscarProdutoPorId id : Seguro Integro (buscarProdutoPorId id).
Proof. unfold buscarProdutoPorId. seguro. Qed.

Lemma Seguro_obterOuCriarCarrinho uuid : Seguro Integro (obterOuCriarCarrinho uuid).
Proof. unfold obterOuCriarCarrinho. seguro. Qed.

Lemma Seguro_rota arredondar r : Seguro Integro (rota arredondar r).
Proof.
  pose proof Seguro_buscarProdutoPorId. pose proof Seguro_obterOuCriarCarrinho.
  destruct r; unfold rota, criarProduto, listarTodos, atualizarProduto, removerProduto,
    adicionarItem, verCarrinho, removerItem; seguro.
Qed.

(** The constraints of the schema hold after a request, served alone or
    stepped among others. *)
Lemma Integro_atender arredondar db r : Integro db -> Integro (atender arredondar db r).
Proof. intros H. unfold atender. now apply Seguro_executar; [apply Seguro_rota|]. Qed.

Lemma Integro_atenderTodas arredondar rs db :
  Integro db -> Integro (atenderTodas arredondar db rs).
Proof.
  unfold atenderTodas. revert db.
  induction rs as [|r rs IH]; intros db H; simpl; [assumption|].
  apply IH. now apply Integro_atender.
Qed.

(** ** Loading a cart *)

Lemma comProdutos_existe ps l :
  (forall i, In i l -> In (ItemCarrinho.produtoId i) (map Produto.id ps)) ->
  exists r, comProdutos ps l = Some r.
Proof.
  induction l as [|i l IH]; simpl; intros H; [eauto|].
  destruct (acharPor_existe Produto.id _ ps (H i (or_introl eq_refl))) as [p ->].
  destruct IH as [r ->]; eauto.
Qed.

Lemma comProdutos_Some ps l r :
  comProdutos ps l = Some r ->
  map ItemComProduto.item r = l
  /\ Forall (fun ip => acharPor Produto.id (ItemCarrinho.produtoId (ItemComProduto.item ip)) ps
                      = Some (ItemComProduto.produto ip)) r.
Proof.
  revert r. induction l as [|i l IH]; simpl; intros r H.
  - injection H as <-. split; constructor.
  - destruct (acharPor _ _ ps) as [p|] eqn:Hp; [|discriminate].
    destruct (comProdutos ps l) as [r'|]; [|discriminate].
    injection H as <-. destruct (IH r' eq_refl) as [H1 H2]. simpl.
    split; [now f_equal|]. constructor; assumption.
Qed.

Lemma incluir_Integro db c :
  Integro db ->
  exists l, comProdutos (produtos db) (itensDe (Carrinho.id c) db) = Some l
            /\ incluir c db = (db, Ok (CarrinhoComItens.mk c l)).
Proof.
  intros H. unfold incluir.
  destruct (comProdutos_existe (produtos db) (itensDe (Carrinho.id c) db)) as [l Hl].
  - intros i Hi. apply filter_In in Hi as [Hi _]. now apply (fk_item_produto H).
  - exists l. now rewrite Hl.
Qed.

Lemma itensDe_ausente db cid :
  Integro db -> ~ In cid (map Carrinho.id (carrinhos db)) -> itensDe cid db = [].
Proof.
  intros H Hc. unfold itensDe.
  destruct (filter _ _) as [|i l] eqn:E; [reflexivity|].
  assert (In i (i :: l)) as Hi by now left.
  rewrite <- E in Hi. apply filter_In in Hi as [Hi Hk].
  apply String.eqb_eq in Hk. apply (fk_item_carrinho H) in Hi. congruence.
Qed.

Lemma obterOuCriarCarrinho_existente db uuid c :
  Integro db ->
  acharPor Carrinho.usuarioId usuarioId (carrinhos db) = Some c ->
  exists l, comProdutos (produtos db) (itensDe (Carrinho.id c) db) = Some l
    /\ executar (obterOuCriarCarrinho uuid) db = (db, Ok (CarrinhoComItens.mk c l)).
Proof.
  intros H Hc. destruct (incluir_Integro _ c H) as [l [Hl Hi]].
  exists l. split; [assumption|].
  unfold obterOuCriarCarrinho. rewrite executar_bind, executar_await.
  unfold carrinho_findUnique, consulta_bind. now rewrite Hc, Hi.
Qed.

Lemma obterOuCriarCarrinho_novo db uuid :
  Integro db ->
  acharPor Carrinho.usuarioId usuarioId (carrinhos db) = None ->
  executar (obterOuCriarCarrinho uuid) db
  = if temId Carrinho.id uuid (carrinhos db)
    then (db, Lancou (PrismaClientError P2002))
    else (mkPrisma (produtos db) (carrinhos db ++ [Carrinho.mk uuid usuarioId]) (itens db),
          Ok (CarrinhoComItens.mk (Carrinho.mk uuid usuarioId) [])).
Proof.
  intros H Hc.
  unfold obterOuCriarCarrinho. rewrite executar_bind, executar_await.
  unfold carrinho_findUnique. rewrite Hc. simpl.
  unfold carrinho_create.
  assert (temId Carrinho.usuarioId usuarioId (carrinhos db) = false) as ->.
  { apply temId_false. now apply acharPor_None. }
  destruct (temId Carrinho.id uuid (carrinhos db)) eqn:Hu; simpl; [reflexivity|].
  unfold incluir. simpl.
  unfold itensDe at 1. simpl. fold (itensDe uuid db).
  rewrite itensDe_ausente; [reflexivity|assumption|now apply temId_false].
Qed.

(** Either way: the cart step never touches products or lines, the owner has
    a cart afterwards unless [uuid] collides, and the loaded lines are those
    of the cart. *)
Lemma obterOuCriarCarrinho_spec db uuid :
  Integro db ->
  (exists c l,
      executar (obterOuCriarCarrinho uuid) db
      = (comCarrinho uuid db, Ok (CarrinhoComItens.mk c l))
      /\ acharPor Carrinho.usuarioId usuarioId (carrinhos (comCarrinho uuid db)) = Some c
      /\ comProdutos (produtos db) (itensDe (Carrinho.id c) db) = Some l)
  \/ (executar (obterOuCriarCarrinho uuid) db = (db, Lancou (PrismaClientError P2002))
      /\ acharPor Carrinho.usuarioId usuarioId (carrinhos db) = None
      /\ temId Carrinho.id uuid (carrinhos db) = true).
Proof.
  intros H. unfold comCarrinho.
  destruct (acharPor Carrinho.usuarioId usuarioId (carrinhos db)) as [c|] eqn:Hc.
  - left. destruct (obterOuCriarCarrinho_existente _ uuid _ H Hc) as [l [Hl He]].
    exists c, l. auto.
  - rewrite (obterOuCriarCarrinho_novo _ uuid H Hc).
    destruct (temId Carrinho.id uuid (carrinhos db)) eqn:Hu; [right; auto|].
    left. exists (Carrinho.mk uuid usuarioId), []. simpl.
    split; [reflexivity|]. split.
    + rewrite acharPor_app, Hc. unfold acharPor. simpl. reflexivity.
    + rewrite itensDe_ausente; [reflexivity|assumption|now apply temId_false].
Qed.

Lemma comCarrinho_produtos uuid db : produtos (comCarrinho uuid db) = produtos db.
Proof. unfold comCarrinho. now destruct (acharPor _ _ _). Qed.

Lemma comCarrinho_itens uuid db : itens (comCarrinho uuid db) = itens db.
Proof. unfold comCarrinho. now destruct (acharPor _ _ _). Qed.

Lemma Integro_comCarrinho uuid db :
  Integro db -> temId Carrinho.id uuid (carrinhos db) = false \/
                acharPor Carrinho.usuarioId usuarioId (carrinhos db) <> None ->
  Integro (comCarrinho uuid db).
Proof.
  intros H Hu. unfold comCarrinho.
  destruct (acharPor Carrinho.usuarioId usuarioId (carrinhos db)) eqn:Hc; [assumption|].
  destruct Hu as [Hu|Hu]; [|congruence].
  pose proof (Integro_carrinho_create uuid usuarioId _ H) as Hp.
  unfold carrinho_create in Hp. rewrite Hu in Hp.
  assert (temId Carrinho.usuarioId usuarioId (carrinhos db) = false) as E.
  { apply temId_false. now apply acharPor_None. }
  rewrite E in Hp. simpl in Hp. unfold incluir in Hp.
  now destruct (comProdutos _ _) in Hp.
Qed.

Lemma incluir_ok db c :
  Integro db -> incluir c db = (db, Ok (CarrinhoComItens.mk c (carregado c db))).
Proof.
  intros H. destruct (incluir_Integro _ c H) as [l [Hl Hi]].
  unfold carregado. now rewrite Hl.
Qed.

Lemma fst_incluir c db : fst (incluir c db) = db.
Proof. unfold incluir. now destruct (comProdutos _ _). Qed.

(** ** [adicionarItem], step by step *)

Lemma adicionarItem_passos arredondar uc ui body db :
  executar (adicionarItem arredondar uc ui body) db
  = match executar (obterOuCriarCarrinho uc) db with
    | (db1, Ok carrinho) =>
        match acharPor Produto.id (AdicionarItemDto.produtoId body) (produtos db1) with
        | None =>
            (db1, Lancou (NotFoundException
                            ("Produto com ID " ++ AdicionarItemDto.produtoId body
                             ++ " não encontrado.")))
        | Some produto =>
            if number_lt (ofInt (Produto.estoque produto)) (AdicionarItemDto.quantidade body)
            then
              (db1, Lancou (BadRequestException
                              ("Estoque insuficiente para " ++ aspas ++ Produto.nome produto
                               ++ aspas ++ ". Disponível: "
                               ++ numberToString (Produto.estoque produto) ++ ".")))
            else
              match transaction
                      (consulta_bind
                         (produto_update_estoque (AdicionarItemDto.produtoId body)
                            (decrement (AdicionarItemDto.quantidade body)))
                         (fun p =>
                            consulta_bind
                              (carrinho_update_upsert
                                 (Carrinho.id (CarrinhoComItens.carrinho carrinho)) ui
                                 (AdicionarItemDto.produtoId body)
                                 (AdicionarItemDto.quantidade body))
                              (fun c => consulta_ret (p, c)))) db1 with
              | (db2, Ok r) =>
                  (db2, Ok (RespostaCarrinho.mk "Item adicionado ao carrinho!"
                              (formatarCarrinho arredondar (snd r))))
              | (db2, Lancou e) => (db2, Lancou e)
              end
        end
    | (db1, Lancou e) => (db1, Lancou e)
    end.
Proof.
  unfold adicionarItem. rewrite executar_bind.
  destruct (executar (obterOuCriarCarrinho uc) db) as [db1 [carrinho|e]]; [|reflexivity].
  cbn [tarefa_bind await executar produto_findUnique_id].
  destruct (acharPor _ _ _) as [produto|]; [|reflexivity].
  destruct (number_lt _ _); [reflexivity|].
  cbn [tarefa_bind executar].
  destruct (transaction _ db1) as [db2 [r|e]]; reflexivity.
Qed.

(** The transaction of [adicionarItem] in a consistent database: both writes
    or none. *)
Lemma transacao_adicionar db c p ui pid q n :
  Integro db ->
  paraInt q = Some n ->
  acharPor Produto.id pid (produtos db) = Some p ->
  acharPor Carrinho.id (Carrinho.id c) (carrinhos db) = Some c ->
  transaction
    (consulta_bind (produto_update_estoque pid (decrement q))
       (fun p' => consulta_bind (carrinho_update_upsert (Carrinho.id c) ui pid q)
                    (fun c' => consulta_ret (p', c')))) db
  = if int4 (Produto.estoque p + - n)
    then
      match find (mesmaLinha pid (Carrinho.id c)) (itens db) with
      | Some i =>
          if int4 (ItemCarrinho.quantidade i + n)
          then (aposAdicionar db p (Carrinho.id c) ui n,
                Ok (comEstoque p (Produto.estoque p + - n),
                    CarrinhoComItens.mk c (carregado c (aposAdicionar db p (Carrinho.id c) ui n))))
          else (db, Lancou (PrismaClientError P2020))
      | None =>
          if temId ItemCarrinho.id ui (itens db)
          then (db, Lancou (PrismaClientError P2002))
          else (aposAdicionar db p (Carrinho.id c) ui n,
                Ok (comEstoque p (Produto.estoque p + - n),
                    CarrinhoComItens.mk c (carregado c (aposAdicionar db p (Carrinho.id c) ui n))))
      end
    else (db, Lancou (PrismaClientError P2020)).
Proof.
  intros H Hn Hp Hc.
  destruct (acharPor_Some _ _ _ _ Hp) as [Hpin Hpid].
  pose proof (Integro_produto_update_estoque pid (decrement q) _ H) as HA.
  unfold transaction, consulta_bind, produto_update_estoque in *.
  cbn [variacao] in *. rewrite Hn in *. cbn [option_map] in *. rewrite Hp in *.
  destruct (int4 (Produto.estoque p + - n)) eqn:Hr; [|reflexivity].
  cbn [fst] in HA.
  pose proof (Integro_carrinho_update_upsert (Carrinho.id c) ui pid q _ HA) as HB.
  unfold carrinho_update_upsert in *. cbn [produtos carrinhos itens] in *.
  rewrite Hn, Hc in *. unfold aposAdicionar. rewrite Hpid.
  destruct (find (mesmaLinha pid (Carrinho.id c)) (itens db)) as [i|] eqn:Hi.
  - destruct (int4 (ItemCarrinho.quantidade i + n)) eqn:Hq; [|reflexivity].
    rewrite fst_incluir in HB. now rewrite (incluir_ok _ c HB).
  - destruct (temId ItemCarrinho.id ui (itens db)) eqn:Hu; [reflexivity|].
    assert (temId Produto.id pid
              (substituir Produto.id pid (comEstoque p (Produto.estoque p + - n)) (produtos db))
            = true) as Ht.
    { apply temId_true. apply in_map_iff. exists (comEstoque p (Produto.estoque p + - n)).
      split; [exact Hpid|apply In_substituir_novo]. }
    rewrite Ht in *. cbn [negb] in *.
    rewrite fst_incluir in HB. now rewrite (incluir_ok _ c HB).
Qed.

(** ** [removerItem], step by step *)

Lemma find_map_opcao {A B} (g : A -> B) (p : B -> bool) l :
  find p (map g l) = option_map g (find (fun x => p (g x)) l).
Proof.
  induction l as [|x l IH]; simpl; [reflexivity|].
  destruct (p (g x)); [reflexivity|exact IH].
Qed.

Lemma find_filter_e {A} (p q : A -> bool) l :
  find p (filter q l) = find (fun x => p x && q x) l.
Proof.
  induction l as [|x l IH]; simpl; [reflexivity|].
  destruct (q x); simpl; [destruct (p x)|rewrite andb_false_r]; auto.
Qed.

(** The line JavaScript finds in the loaded cart is the line of the table. *)
Lemma find_no_carrinho db cid l pid :
  comProdutos (produtos db) (itensDe cid db) = Some l ->
  option_map ItemComProduto.item
    (find (fun i => (ItemCarrinho.produtoId (ItemComProduto.item i) =? pid)%string) l)
  = find (mesmaLinha pid cid) (itens db).
Proof.
  intros H. apply comProdutos_Some in H as [H _].
  rewrite <- (find_map_opcao ItemComProduto.item
                (fun i => (ItemCarrinho.produtoId i =? pid)%string)).
  rewrite H. unfold itensDe. now rewrite find_filter_e.
Qed.

Lemma removerItem_passos arredondar uc pid db :
  executar (removerItem arredondar uc pid) db
  = match executar (obterOuCriarCarrinho uc) db with
    | (db1, Ok carrinho) =>
        match find (fun i => (ItemCarrinho.produtoId (ItemComProduto.item i) =? pid)%string)
                (CarrinhoComItens.itens carrinho) with
        | None =>
            (db1, Lancou (NotFoundException
                            ("Produto com ID " ++ pid ++ " não está no carrinho.")))
        | Some itemNoCarrinho =>
            match transaction
                    (consulta_bind
                       (produto_update_estoque pid
                          (increment (ofInt (ItemCarrinho.quantidade
                                               (ItemComProduto.item itemNoCarrinho)))))
                       (fun p =>
                          consulta_bind
                            (carrinho_update_delete
                               (Carrinho.id (CarrinhoComItens.carrinho carrinho))
                               (ItemCarrinho.id (ItemComProduto.item itemNoCarrinho)))
                            (fun c => consulta_ret (p, c)))) db1 with
            | (db2, Ok r) =>
                (db2, Ok (RespostaCarrinho.mk "Item removido do carrinho!"
                            (formatarCarrinho arredondar (snd r))))
            | (db2, Lancou e) => (db2, Lancou e)
            end
        end
    | (db1, Lancou e) => (db1, Lancou e)
    end.
Proof.
  unfold removerItem. rewrite executar_bind.
  destruct (executar (obterOuCriarCarrinho uc) db) as [db1 [carrinho|e]]; [|reflexivity].
  destruct (find _ _) as [i|]; [|reflexivity].
  cbn [tarefa_bind await executar].
  destruct (transaction _ db1) as [db2 [r|e]]; reflexivity.
Qed.

Lemma transacao_remover db c p i :
  Integro db ->
  In i (itens db) ->
  ItemCarrinho.carrinhoId i = Carrinho.id c ->
  acharPor Carrinho.id (Carrinho.id c) (carrinhos db) = Some c ->
  acharPor Produto.id (ItemCarrinho.produtoId i) (produtos db) = Some p ->
  transaction
    (consulta_bind
       (produto_update_estoque (ItemCarrinho.produtoId i)
          (increment (ofInt (ItemCarrinho.quantidade i))))
       (fun p' => consulta_bind (carrinho_update_delete (Carrinho.id c) (ItemCarrinho.id i))
                    (fun c' => consulta_ret (p', c')))) db
  = if int4 (Produto.estoque p + ItemCarrinho.quantidade i)
    then (aposRemover db p i,
          Ok (comEstoque p (Produto.estoque p + ItemCarrinho.quantidade i),
              CarrinhoComItens.mk c (carregado c (aposRemover db p i))))
    else (db, Lancou (PrismaClientError P2020)).
Proof.
  intros H Hi Hic Hc Hp.
  destruct (acharPor_Some _ _ _ _ Hp) as [Hpin Hpid].
  pose proof (Integro_produto_update_estoque (ItemCarrinho.produtoId i)
                (increment (ofInt (ItemCarrinho.quantidade i))) _ H) as HA.
  unfold transaction, consulta_bind, produto_update_estoque in *.
  cbn [variacao] in *. rewrite (paraInt_ofInt _ (int4_quantidade H _ Hi)) in *.
  rewrite Hp in *.
  destruct (int4 (Produto.estoque p + ItemCarrinho.quantidade i)) eqn:Hr; [|reflexivity].
  cbn [fst] in HA.
  pose proof (Integro_carrinho_update_delete (Carrinho.id c) (ItemCarrinho.id i) _ HA) as HB.
  unfold carrinho_update_delete in *. cbn [produtos carrinhos itens] in *. rewrite Hc in *.
  assert (existsb (fun j => (ItemCarrinho.id j =? ItemCarrinho.id i)%string
                            && (ItemCarrinho.carrinhoId j =? Carrinho.id c)%string)
            (itens db) = true) as He.
  { apply existsb_exists. exists i. split; [assumption|].
    rewrite String.eqb_refl. simpl. now apply String.eqb_eq. }
  rewrite He in *. unfold aposRemover. rewrite Hpid.
  rewrite fst_incluir in HB. now rewrite (incluir_ok _ c HB).
Qed.

Lemma carrinho_pronto db uc :
  Integro db ->
  (acharPor Carrinho.usuarioId usuarioId (carrinhos db) = None ->
   temId Carrinho.id uc (carrinhos db) = false) ->
  exists c l,
    executar (obterOuCriarCarrinho uc) db = (comCarrinho uc db, Ok (CarrinhoComItens.mk c l))
    /\ acharPor Carrinho.usuarioId usuarioId (carrinhos (comCarrinho uc db)) = Some c
    /\ comProdutos (produtos db) (itensDe (Carrinho.id c) db) = Some l.
Proof.
  intros H Hu. destruct (obterOuCriarCarrinho_spec _ uc H) as [Hok|[_ [Hn Ht]]]; [exact Hok|].
  rewrite (Hu Hn) in Ht. discriminate.
Qed.

Lemma contem_inicio b c : contem b (b ++ c).
Proof. now exists EmptyString, c. Qed.

Lemma contem_prefixo a b t : contem b t -> contem b (a ++ t).
Proof.
  intros [x [y ->]]. exists (a ++ x)%string, y.
  induction a as [|ch a IH]; simpl; [reflexivity|now rewrite IH].
Qed.

(** ** [adicionarItem] that fails *)

Lemma adicionarItem_insuficiente (arredondar : Q -> number) db uc ui body p :
  Integro db ->
  (acharPor Carrinho.usuarioId usuarioId (carrinhos db) = None ->
   temId Carrinho.id uc (carrinhos db) = false) ->
  acharPor Produto.id (AdicionarItemDto.produtoId body) (produtos db) = Some p ->
  (inject_Z (Produto.estoque p) < AdicionarItemDto.quantidade body)%Q ->
  executar (adicionarItem arredondar uc ui body) db
  = (comCarrinho uc db,
     Lancou (BadRequestException
               ("Estoque insuficiente para " ++ aspas ++ Produto.nome p ++ aspas
                ++ ". Disponível: " ++ numberToString (Produto.estoque p) ++ "."))).
Proof.
  intros H Hu Hp Hlt.
  destruct (carrinho_pronto _ uc H Hu) as (c & l & He & _ & _).
  rewrite adicionarItem_passos, He, comCarrinho_produtos, Hp.
  apply number_lt_iff in Hlt. unfold ofInt. now rewrite Hlt.
Qed.


(** C6. When the product exists and its stock is below the requested
    quantity, [adicionarItem] throws [BadRequestException] (insufficient
    stock) with a message that holds the name of the product and its stock,
    and neither the products nor the lines of the cart change. *)
Theorem C6_estoque_insuficiente (arredondar : Q -> number) db uc ui body p :
  integro db = true ->
  (acharPor Carrinho.usuarioId usuarioId (carrinhos db) = None ->
   temId Carrinho.id uc (carrinhos db) = false) ->
  acharPor Produto.id (AdicionarItemDto.produtoId body) (produtos db) = Some p ->
  (inject_Z (Produto.estoque p) < AdicionarItemDto.quantidade body)%Q ->
  exists db' mensagem,
    executar (adicionarItem arredondar uc ui body) db
    = (db', Lancou (BadRequestException mensagem))
    /\ mensagem = ("Estoque insuficiente para " ++ aspas ++ Produto.nome p ++ aspas
                   ++ ". Disponível: " ++ numberToString (Produto.estoque p) ++ ".")%string
    /\ contem (Produto.nome p) mensagem
    /\ contem (numberToString (Produto.estoque p)) mensagem
    /\ produtos db' = produtos db
    /\ itens db' = itens db.
Proof.
  intros H Hu Hp Hlt. apply integro_iff in H.
  exists (comCarrinho uc db). eexists.
  split; [exact (adicionarItem_insuficiente arredondar db uc ui body p H Hu Hp Hlt)|].
  split; [reflexivity|].
  split; [|split; [|split]].
  - do 2 apply contem_prefixo. apply contem_inicio.
  - do 5 apply contem_prefixo. apply contem_inicio.
  - apply comCarrinho_produtos.
  - apply comCarrinho_itens.
Qed.

(** C10. When the owner has no cart, a call of [adicionarItem] that fails
    because the product is unknown or its stock insufficient still leaves a
    new, empty cart of the owner behind: the cart is created before the
    checks and nothing undoes it. *)
Theorem C10_carrinho_criado_apesar_da_falha (arredondar : Q -> number) db uc ui body :
  integro db = true ->
  acharPor Carrinho.usuarioId usuarioId (carrinhos db) = None ->
  temId Carrinho.id uc (carrinhos db) = false ->
  match acharPor Produto.id (AdicionarItemDto.produtoId body) (produtos db) with
  | None => True
  | Some p => (inject_Z (Produto.estoque p) < AdicionarItemDto.quantidade body)%Q
  end ->
  exists db' e,
    executar (adicionarItem arredondar uc ui body) db = (db', Lancou e)
    /\ match acharPor Produto.id (AdicionarItemDto.produtoId body) (produtos db) with
       | None => exists m, e = NotFoundException m
       | Some _ => exists m, e = BadRequestException m
       end
    /\ carrinhos db' = (carrinhos db ++ [Carrinho.mk uc usuarioId])%list
    /\ acharPor Carrinho.usuarioId usuarioId (carrinhos db') = Some (Carrinho.mk uc usuarioId)
    /\ itensDe uc db' = []
    /\ produtos db' = produtos db
    /\ itens db' = itens db.
Proof.
  intros H Hc Hu Hf. apply integro_iff in H.
  rewrite adicionarItem_passos, (obterOuCriarCarrinho_novo _ uc H Hc), Hu. simpl.
  assert (acharPor Carrinho.usuarioId usuarioId
            (carrinhos db ++ [Carrinho.mk uc usuarioId]) = Some (Carrinho.mk uc usuarioId)) as Hn.
  { rewrite acharPor_app, Hc. reflexivity. }
  assert (itensDe uc (mkPrisma (produtos db) (carrinhos db ++ [Carrinho.mk uc usuarioId])
                        (itens db)) = []) as Hv.
  { change (itensDe uc db = []). apply itensDe_ausente; [assumption|now apply temId_false]. }
  destruct (acharPor Produto.id _ _) as [p|].
  - apply number_lt_iff in Hf. unfold ofInt. rewrite Hf.
    do 2 eexists. split; [reflexivity|]. simpl. repeat split; eauto.
  - do 2 eexists. split; [reflexivity|]. simpl. repeat split; eauto.
Qed.

(** ** What a request does to products and lines *)

Lemma acharPor_carrinho_id db c u :
  acharPor Carrinho.usuarioId u (carrinhos db) = Some c ->
  Integro db ->
  acharPor Carrinho.id (Carrinho.id c) (carrinhos db) = Some c.
Proof.
  intros Hc H. apply acharPor_Some in Hc as [Hc _].
  apply acharPor_unico; [apply H|assumption].
Qed.

Lemma adicionarItem_Efeito arredondar db uc ui body :
  Integro db ->
  Efeito (PostCarrinhoAdicionar uc ui body) db
    (fst (executar (adicionarItem arredondar uc ui body) db)).
Proof.
  intros H. rewrite adicionarItem_passos.
  destruct (obterOuCriarCarrinho_spec _ uc H) as [(c & l & He & Hc & Hl)|(He & _)];
    rewrite He; [|now apply Ef_nada].
  assert (Integro (comCarrinho uc db)) as H1.
  { pose proof (Seguro_executar _ _ _ db (Seguro_obterOuCriarCarrinho uc) H) as H1.
    now rewrite He in H1. }
  pose proof (comCarrinho_produtos uc db) as Hps.
  pose proof (comCarrinho_itens uc db) as His.
  rewrite Hps.
  destruct (acharPor Produto.id _ (produtos db)) as [p|] eqn:Hp; [|now apply Ef_nada].
  destruct (number_lt _ _) eqn:Hlt; [now apply Ef_nada|].
  destruct (paraInt (AdicionarItemDto.quantidade body)) as [n|] eqn:Hn.
  - simpl. rewrite <- Hps in Hp.
    rewrite (transacao_adicionar _ c p ui _ _ n H1 Hn Hp (acharPor_carrinho_id _ _ _ Hc H1)).
    apply number_lt_nao, truncar_le in Hlt. rewrite <- (paraInt_truncar _ _ Hn) in Hlt.
    rewrite Hps in Hp.
    destruct (int4 _); [|now apply Ef_nada].
    destruct (find _ _) as [i|].
    + destruct (int4 _); [|now apply Ef_nada]. simpl. now apply Ef_adicionar.
    + destruct (temId _ _ _); [now apply Ef_nada|]. simpl. now apply Ef_adicionar.
  - unfold transaction, consulta_bind, produto_update_estoque. cbn [variacao].
    rewrite Hn. simpl. now apply Ef_nada.
Qed.

Lemma removerItem_Efeito arredondar db uc pid :
  Integro db ->
  Efeito (DeleteCarrinhoRemover uc pid) db
    (fst (executar (removerItem arredondar uc pid) db)).
Proof.
  intros H. rewrite removerItem_passos.
  destruct (obterOuCriarCarrinho_spec _ uc H) as [(c & l & He & Hc & Hl)|(He & _)];
    rewrite He; [|now apply Ef_nada].
  assert (Integro (comCarrinho uc db)) as H1.
  { pose proof (Seguro_executar _ _ _ db (Seguro_obterOuCriarCarrinho uc) H) as H1.
    now rewrite He in H1. }
  pose proof (comCarrinho_produtos uc db) as Hps.
  pose proof (comCarrinho_itens uc db) as His.
  pose proof (find_no_carrinho db _ _ pid Hl) as Hf. simpl.
  destruct (find _ l) as [ip|]; [|now apply Ef_nada].
  simpl in Hf. symmetry in Hf. apply find_some in Hf as [Hi Hk].
  apply andb_true_iff in Hk as [Hk1 Hk2].
  apply String.eqb_eq in Hk1, Hk2. set (i := ItemComProduto.item ip) in *.
  destruct (acharPor_existe Produto.id _ _ (fk_item_produto H _ Hi)) as [p Hp].
  rewrite <- Hk1.
  rewrite (@transacao_remover (comCarrinho uc db) c p i); auto.
  - destruct (int4 _); [|now apply Ef_nada]. simpl.
    apply Ef_remover; congruence.
  - now rewrite His.
  - now apply acharPor_carrinho_id with (u := usuarioId).
  - now rewrite Hps.
Qed.

Lemma executar_buscarProdutoPorId id db :
  executar (buscarProdutoPorId id) db
  = match acharPor Produto.id id (produtos db) with
    | Some p => (db, Ok p)
    | None => (db, Lancou (NotFoundException ("Produto com ID " ++ id ++ " não encontrado.")))
    end.
Proof.
  unfold buscarProdutoPorId. simpl. now destruct (acharPor _ _ _).
Qed.

Lemma executar_criarProduto uuid body db :
  executar (criarProduto uuid body) db
  = match acharPor Produto.nome (CriarProdutoDto.nome body) (produtos db) with
    | Some _ => (db, Lancou (ConflictException "Já existe um produto com este nome."))
    | None =>
        match produto_create uuid body db with
        | (db', Ok p) => (db', Ok (RespostaProduto.mk "Produto criado com sucesso!" p))
        | (db', Lancou e) => (db', Lancou e)
        end
    end.
Proof.
  unfold criarProduto. simpl. destruct (acharPor _ _ _); [reflexivity|]. simpl.
  now destruct (produto_create uuid body db) as [db' [p|e]].
Qed.

Lemma executar_atualizarProduto id body db :
  executar (atualizarProduto id body) db
  = match acharPor Produto.id id (produtos db) with
    | None => (db, Lancou (NotFoundException ("Produto com ID " ++ id ++ " não encontrado.")))
    | Some _ =>
        if (Object_keys_length body =? 0)%nat
        then (db, Lancou (BadRequestException
                            "Pelo menos um campo deve ser fornecido para atualização."))
        else
          match produto_update id body db with
          | (db', Ok p) => (db', Ok (RespostaProduto.mk "Produto atualizado!" p))
          | (db', Lancou e) => (db', Lancou e)
          end
    end.
Proof.
  unfold atualizarProduto. rewrite executar_bind, executar_buscarProdutoPorId.
  destruct (acharPor _ _ _); [|reflexivity].
  destruct (Object_keys_length body =? 0)%nat; [reflexivity|]. simpl.
  now destruct (produto_update id body db) as [db' [p|e]].
Qed.

Lemma executar_removerProduto id db :
  executar (removerProduto id) db
  = match acharPor Produto.id id (produtos db) with
    | None => (db, Lancou (NotFoundException ("Produto com ID " ++ id ++ " não encontrado.")))
    | Some _ =>
        match produto_delete id db with
        | (db', Ok _) => (db', Ok tt)
        | (db', Lancou e) => (db', Lancou e)
        end
    end.
Proof.
  unfold removerProduto. rewrite executar_bind, executar_buscarProdutoPorId.
  destruct (acharPor _ _ _); [|reflexivity]. simpl.
  now destruct (produto_delete id db) as [db' [p|e]].
Qed.

Lemma fst_executar_bind_Retorne A B (t : Tarefa A) (g : A -> B) db :
  fst (executar (tarefa_bind t (fun x => Retorne (g x))) db) = fst (executar t db).
Proof.
  rewrite executar_bind. now destruct (executar t db) as [db' [a|e]].
Qed.

Lemma atender_Efeito arredondar db r :
  Integro db -> Efeito r db (atender arredondar db r).
Proof.
  intros H. unfold atender.
  destruct r as [uuid body| |id|id body|id|uc ui body|uc|uc pid]; unfold rota;
    rewrite ?(fst_executar_bind_Retorne _ (fun _ => RVazio)), ?fst_executar_bind_Retorne.
  - rewrite executar_criarProduto.
    destruct (acharPor _ _ _); [now apply Ef_nada|].
    unfold produto_create.
    destruct (paraInt _) as [e|] eqn:He; [|now apply Ef_nada].
    destruct (temId Produto.id uuid _) eqn:Hu; [now apply Ef_nada|].
    destruct (temId Produto.nome _ _); [now apply Ef_nada|]. simpl.
    apply Ef_criar; [assumption|now apply temId_false].
  - now apply Ef_nada.
  - rewrite executar_buscarProdutoPorId. destruct (acharPor _ _ _); now apply Ef_nada.
  - rewrite executar_atualizarProduto.
    destruct (acharPor _ _ _) as [atual|] eqn:Ha; [|now apply Ef_nada].
    destruct (Object_keys_length body =? 0)%nat; [now apply Ef_nada|].
    unfold produto_update. rewrite Ha.
    destruct (intOpcional _) as [e|] eqn:He; [|now apply Ef_nada].
    destruct (nomeDeOutro _ _ _); [now apply Ef_nada|]. simpl.
    now apply Ef_atualizar.
  - rewrite executar_removerProduto.
    destruct (acharPor _ _ _) as [atual|] eqn:Ha; [|now apply Ef_nada].
    unfold produto_delete. rewrite Ha.
    destruct (temId _ _ _) eqn:Hfk; [now apply Ef_nada|]. simpl.
    now apply Ef_apagar.
  - now apply adicionarItem_Efeito.
  - unfold verCarrinho. rewrite fst_executar_bind_Retorne.
    destruct (obterOuCriarCarrinho_spec _ uc H) as [(c & l & He & Hc & Hl)|(He & _)];
      rewrite He; simpl; apply Ef_nada;
      auto using comCarrinho_produtos, comCarrinho_itens.
  - now apply removerItem_Efeito.
Qed.

(** ** The stock rules are kept by requests whose bodies are valid *)

Lemma estoqueValido_iff db : estoqueValido db = true <-> EstoqueValido db.
Proof.
  unfold estoqueValido, EstoqueValido.
  rewrite andb_true_iff, !forallb_forall.
  split; intros [H1 H2]; split; intros x Hx.
  - apply Z.leb_le. auto.
  - apply Z.leb_le. auto.
  - apply Z.leb_le. auto.
  - apply Z.leb_le. auto.
Qed.

Lemma saudavel_iff db : saudavel db = true <-> Integro db /\ EstoqueValido db.
Proof.
  unfold saudavel. now rewrite andb_true_iff, integro_iff, estoqueValido_iff.
Qed.

Lemma Efeito_EstoqueValido r db db' :
  corpoValido r = true -> Integro db -> EstoqueValido db -> Efeito r db db' ->
  EstoqueValido db'.
Proof.
  intros Hv H [Hp Hi] He.
  destruct He as [r db db' E1 E2|uuid body db e He Hu|id body db atual e Ha He|id db Hfk
                 |uc ui body db c p n Hn Hp' Hle|uc pid db p i Hin Hpid Hp'];
    unfold EstoqueValido, aposAdicionar, aposRemover; simpl in *;
    rewrite ?comCarrinho_produtos, ?comCarrinho_itens.
  - rewrite E1, E2. auto.
  - split; [|assumption].
    intros p Hin. apply in_app_iff in Hin as [Hin|[<-|[]]]; [auto|]. simpl.
    unfold validarCriarProdutoDto in Hv. apply andb_true_iff in Hv as [_ Hv].
    apply (Min_paraInt 0 _ _ He Hv).
  - split; [|assumption].
    intros p Hin. apply In_substituir in Hin as [->|[Hin _]]; [|auto]. simpl.
    unfold validarAtualizarProdutoDto in Hv. apply andb_true_iff in Hv as [_ Hv].
    unfold intOpcional in He.
    destruct (AtualizarProdutoDto.estoque body) as [v|]; simpl in *.
    + destruct (paraInt v) as [z|] eqn:Hz; [|discriminate]. injection He as <-. simpl.
      apply (Min_paraInt 0 _ _ Hz Hv).
    + injection He as <-. simpl. apply acharPor_Some in Ha as [Ha _]. auto.
  - split; [|assumption].
    intros p Hin. apply In_apagar in Hin as [Hin _]. auto.
  - unfold validarAdicionarItemDto in Hv. apply andb_true_iff in Hv as [_ Hv].
    pose proof (Min_paraInt 1 _ _ Hn Hv) as Hn1.
    split.
    + intros q Hin. apply In_substituir in Hin as [->|[Hin _]]; [|auto]. simpl. lia.
    + intros j Hin. destruct (find _ _) as [i|] eqn:Hf.
      * apply find_some in Hf as [Hf _]. pose proof (Hi i Hf).
        apply In_substituir in Hin as [->|[Hin _]]; [|auto]. simpl. lia.
      * apply in_app_iff in Hin as [Hin|[<-|[]]]; auto.
  - split.
    + intros q Hin'. apply In_substituir in Hin' as [->|[Hin' _]]; [|auto]. simpl.
      apply acharPor_Some in Hp' as [Hp' _]. specialize (Hp p Hp'). specialize (Hi i Hin). lia.
    + intros j Hin'. apply In_apagar in Hin' as [Hin' _]. auto.
Qed.

Lemma saudavel_atender arredondar db r :
  corpoValido r = true -> Integro db /\ EstoqueValido db ->
  Integro (atender arredondar db r) /\ EstoqueValido (atender arredondar db r).
Proof.
  intros Hv [H Hs]. split; [now apply Integro_atender|].
  apply (Efeito_EstoqueValido r db _ Hv H Hs). now apply atender_Efeito.
Qed.

Lemma saudavel_atenderTodas arredondar rs db :
  forallb corpoValido rs = true -> Integro db /\ EstoqueValido db ->
  Integro (atenderTodas arredondar db rs) /\ EstoqueValido (atenderTodas arredondar db rs).
Proof.
  unfold atenderTodas. revert db.
  induction rs as [|r rs IH]; intros db Hv H; simpl in *; [assumption|].
  apply andb_true_iff in Hv as [Hr Hv].
  apply IH; [assumption|]. now apply saudavel_atender.
Qed.

Lemma forallb_firstn {A} (f : A -> bool) n l :
  forallb f l = true -> forallb f (firstn n l) = true.
Proof.
  revert n. induction l as [|x l IH]; intros [|n] H; simpl in *; auto.
  apply andb_true_iff in H as [H1 H2]. rewrite H1. simpl. auto.
Qed.

(** Were the rules of the DTO classes applied to every body, and the
    requests served one after the other, no stock would go below zero. *)
Lemma estoque_nunca_negativo_com_regras (arredondar : Q -> number) db rs n p :
  saudavel db = true ->
  forallb corpoValido rs = true ->
  In p (produtos (atenderTodas arredondar db (firstn n rs))) ->
  0 <= Produto.estoque p.
Proof.
  intros H Hv Hp. apply saudavel_iff in H.
  destruct (saudavel_atenderTodas arredondar (firstn n rs) db
              (forallb_firstn _ n _ Hv) H) as [_ [Hs _]].
  auto.
Qed.

(** [criarProduto] writes the stock it is given, below zero or not. *)
Lemma criarProduto_estoque_qualquer db uuid body e :
  acharPor Produto.nome (CriarProdutoDto.nome body) (produtos db) = None ->
  temId Produto.id uuid (produtos db) = false ->
  paraInt (CriarProdutoDto.estoque body) = Some e ->
  executar (criarProduto uuid body) db
  = (mkPrisma (produtos db ++ [Produto.mk uuid (CriarProdutoDto.nome body)
                                 (CriarProdutoDto.preco body) e])
       (carrinhos db) (itens db),
     Ok (RespostaProduto.mk "Produto criado com sucesso!"
           (Produto.mk uuid (CriarProdutoDto.nome body) (CriarProdutoDto.preco body) e))).
Proof.
  intros Hn Hu He. rewrite executar_criarProduto, Hn. unfold produto_create.
  rewrite He, Hu. apply acharPor_None, temId_false in Hn. now rewrite Hn.
Qed.

(** C3.  [CriarProdutoDto] declares [@Min(0)] on [estoque], and nothing
    applies the rule: [criarProduto] called with a stock of -5 returns
    ['Produto criado com sucesso!'], and the product it created, which
    [buscarProdutoPorId] then returns, has a stock of -5. *)
Theorem C3_estoque_negativo :
  validarCriarProdutoDto (CriarProdutoDto.mk "Widget" 10%Q (-5)%Q) = false
  /\ executar (criarProduto "p1" (CriarProdutoDto.mk "Widget" 10%Q (-5)%Q)) bancoVazio
     = (mkPrisma [Produto.mk "p1" "Widget" 10%Q (-5)] [] [],
        Ok (RespostaProduto.mk "Produto criado com sucesso!"
              (Produto.mk "p1" "Widget" 10%Q (-5))))
  /\ executar (buscarProdutoPorId "p1") (mkPrisma [Produto.mk "p1" "Widget" 10%Q (-5)] [] [])
     = (mkPrisma [Produto.mk "p1" "Widget" 10%Q (-5)] [] [],
        Ok (Produto.mk "p1" "Widget" 10%Q (-5)))
  /\ Produto.estoque (Produto.mk "p1" "Widget" 10%Q (-5)) < 0.
Proof.
  split; [reflexivity|]. split.
  - exact (criarProduto_estoque_qualquer bancoVazio "p1"
             (CriarProdutoDto.mk "Widget" 10%Q (-5)%Q) (-5) eq_refl eq_refl eq_refl).
  - split; [reflexivity|]. simpl. lia.
Qed.

(** ** A successful [adicionarItem] *)

(** The call returns for any number that does not exceed the stock; the
    store moves the number without its fraction. *)
Lemma adicionarItem_retorna (arredondar : Q -> number) db uc ui body p n c :
  Integro db ->
  (acharPor Carrinho.usuarioId usuarioId (carrinhos db) = None ->
   temId Carrinho.id uc (carrinhos db) = false) ->
  acharPor Produto.id (AdicionarItemDto.produtoId body) (produtos db) = Some p ->
  paraInt (AdicionarItemDto.quantidade body) = Some n ->
  (AdicionarItemDto.quantidade body <= inject_Z (Produto.estoque p))%Q ->
  int4 (Produto.estoque p + - n) = true ->
  acharPor Carrinho.usuarioId usuarioId (carrinhos (comCarrinho uc db)) = Some c ->
  match find (mesmaLinha (AdicionarItemDto.produtoId body) (Carrinho.id c)) (itens db) with
  | Some i => int4 (ItemCarrinho.quantidade i + n) = true
  | None => temId ItemCarrinho.id ui (itens db) = false
  end ->
  executar (adicionarItem arredondar uc ui body) db
  = (aposAdicionar (comCarrinho uc db) p (Carrinho.id c) ui n,
     Ok (RespostaCarrinho.mk "Item adicionado ao carrinho!"
           (formatarCarrinho arredondar
              (CarrinhoComItens.mk c
                 (carregado c (aposAdicionar (comCarrinho uc db) p (Carrinho.id c) ui n)))))).
Proof.
  intros H Hu Hp Hn Hle Hr Hc Hl.
  destruct (carrinho_pronto _ uc H Hu) as (c' & l & He & Hc' & _).
  rewrite Hc in Hc'. injection Hc' as <-.
  assert (Integro (comCarrinho uc db)) as H1.
  { pose proof (Seguro_executar _ _ _ db (Seguro_obterOuCriarCarrinho uc) H) as H1.
    now rewrite He in H1. }
  rewrite adicionarItem_passos, He, comCarrinho_produtos, Hp.
  rewrite (proj2 (number_lt_nao _ _) Hle).
  cbn [CarrinhoComItens.carrinho].
  rewrite <- (comCarrinho_produtos uc db) in Hp.
  rewrite (transacao_adicionar _ c p ui _ _ n H1 Hn Hp (acharPor_carrinho_id _ _ _ Hc H1)).
  rewrite Hr, comCarrinho_itens.
  destruct (find _ (itens db)) as [i|]; rewrite Hl; reflexivity.
Qed.

Lemma adicionarItem_sucesso (arredondar : Q -> number) db uc ui body p n c :
  Integro db ->
  (acharPor Carrinho.usuarioId usuarioId (carrinhos db) = None ->
   temId Carrinho.id uc (carrinhos db) = false) ->
  acharPor Produto.id (AdicionarItemDto.produtoId body) (produtos db) = Some p ->
  toInt4 (AdicionarItemDto.quantidade body) = Some n ->
  0 <= n <= Produto.estoque p ->
  acharPor Carrinho.usuarioId usuarioId (carrinhos (comCarrinho uc db)) = Some c ->
  match find (mesmaLinha (AdicionarItemDto.produtoId body) (Carrinho.id c)) (itens db) with
  | Some i => int4 (ItemCarrinho.quantidade i + n) = true
  | None => temId ItemCarrinho.id ui (itens db) = false
  end ->
  executar (adicionarItem arredondar uc ui body) db
  = (aposAdicionar (comCarrinho uc db) p (Carrinho.id c) ui n,
     Ok (RespostaCarrinho.mk "Item adicionado ao carrinho!"
           (formatarCarrinho arredondar
              (CarrinhoComItens.mk c
                 (carregado c (aposAdicionar (comCarrinho uc db) p (Carrinho.id c) ui n)))))).
Proof.
  intros H Hu Hp Hn Hle Hc Hl.
  apply (adicionarItem_retorna arredondar db uc ui body p n c H Hu Hp
           (paraInt_toInt4 _ _ Hn)); auto.
  - destruct (toInt4_Some _ _ Hn) as [_ Hq]. rewrite Hq, <- Zle_Qle. lia.
  - apply acharPor_Some in Hp as [Hp _]. apply (int4_estoque H) in Hp.
    apply int4_iff in Hp. apply int4_iff. lia.
Qed.

Lemma find_app {A} (f : A -> bool) l l' :
  find f (l ++ l') = match find f l with Some x => Some x | None => find f l' end.
Proof.
  induction l as [|y l IH]; simpl; [reflexivity|]. now destruct (f y).
Qed.

Lemma find_apagar_linha l i pid cid :
  NoDup (map chaveDaLinha l) ->
  find (mesmaLinha pid cid) l = Some i ->
  find (mesmaLinha pid cid) (apagar ItemCarrinho.id (ItemCarrinho.id i) l) = None.
Proof.
  intros Hnd Hi.
  destruct (find _ (apagar _ _ l)) as [j|] eqn:Hj; [|reflexivity]. exfalso.
  apply find_some in Hi as [Hi Hki]. apply find_some in Hj as [Hj Hkj].
  apply In_apagar in Hj as [Hj Hne]. apply Hne. f_equal.
  apply (NoDup_map_unico chaveDaLinha l); auto.
  apply mesmaLinha_chave in Hki, Hkj. congruence.
Qed.

(** After the update of the line of a product in a cart, that line is the
    new version. *)
Lemma find_substituir_linha l i i' pid cid :
  NoDup (map chaveDaLinha l) ->
  find (mesmaLinha pid cid) l = Some i -> mesmaLinha pid cid i' = true ->
  find (mesmaLinha pid cid) (substituir ItemCarrinho.id (ItemCarrinho.id i) i' l) = Some i'.
Proof.
  intros Hnd Hf Hi'. unfold substituir.
  rewrite find_app, (find_apagar_linha l i pid cid Hnd Hf). simpl. now rewrite Hi'.
Qed.

Lemma uma_linha l pid cid :
  NoDup (map chaveDaLinha l) -> (List.length (filter (mesmaLinha pid cid) l) <= 1)%nat.
Proof.
  induction l as [|y l IH]; simpl; intros Hnd; [lia|].
  inversion Hnd as [|? ? Hy Hnd']; subst.
  destruct (mesmaLinha pid cid y) eqn:E; [|auto].
  simpl. apply mesmaLinha_chave in E.
  destruct (filter (mesmaLinha pid cid) l) as [|z l'] eqn:Ef; [simpl; lia|].
  exfalso. apply Hy.
  assert (In z (filter (mesmaLinha pid cid) l)) as Hz by (rewrite Ef; now left).
  apply filter_In in Hz as [Hz Hk]. apply mesmaLinha_chave in Hk.
  rewrite E, <- Hk. now apply in_map.
Qed.

(** C7.  [AdicionarItemDto] declares [@Min(1)] on [quantidade], and nothing
    applies the rule: [adicionarItem] called with a quantity of -2 for a
    product that has five units returns ['Item adicionado ao carrinho!'],
    the cart gets a line of -2 units of the product, and the stock of the
    product is seven. *)
Theorem C7_linha_com_quantidade_negativa :
  integro bancoComWidget = true
  /\ validarAdicionarItemDto (AdicionarItemDto.mk "p1" (-2)%Q) = false
  /\ exists r,
       executar (adicionarItem Qred "c2" "i1" (AdicionarItemDto.mk "p1" (-2)%Q))
         bancoComWidget
       = (mkPrisma [Produto.mk "p1" "Widget" 10%Q 7] [Carrinho.mk "c1" "usuario-123"]
            [ItemCarrinho.mk "i1" (-2) "p1" "c1"],
          Ok r)
       /\ RespostaCarrinho.mensagem r = "Item adicionado ao carrinho!"
       /\ find (mesmaLinha "p1" "c1") [ItemCarrinho.mk "i1" (-2) "p1" "c1"]
          = Some (ItemCarrinho.mk "i1" (-2) "p1" "c1")
       /\ ItemCarrinho.quantidade (ItemCarrinho.mk "i1" (-2) "p1" "c1") < 1.
Proof.
  split; [reflexivity|]. split; [reflexivity|].
  eexists. split.
  - exact (adicionarItem_retorna Qred bancoComWidget "c2" "i1"
             (AdicionarItemDto.mk "p1" (-2)%Q) (Produto.mk "p1" "Widget" 10%Q 5) (-2)
             (Carrinho.mk "c1" "usuario-123")
             (proj1 (integro_iff bancoComWidget) eq_refl) (fun _ => eq_refl) eq_refl eq_refl
             ltac:(unfold Qle; simpl; lia) eq_refl eq_refl eq_refl).
  - split; [reflexivity|]. split; [reflexivity|]. simpl. lia.
Qed.

(** ** A successful [removerItem] *)

Lemma removerItem_sucesso (arredondar : Q -> number) db uc pid c i p :
  Integro db ->
  acharPor Carrinho.usuarioId usuarioId (carrinhos db) = Some c ->
  find (mesmaLinha pid (Carrinho.id c)) (itens db) = Some i ->
  acharPor Produto.id pid (produtos db) = Some p ->
  int4 (Produto.estoque p + ItemCarrinho.quantidade i) = true ->
  executar (removerItem arredondar uc pid) db
  = (aposRemover db p i,
     Ok (RespostaCarrinho.mk "Item removido do carrinho!"
           (formatarCarrinho arredondar
              (CarrinhoComItens.mk c (carregado c (aposRemover db p i)))))).
Proof.
  intros H Hc Hi Hp Hr.
  destruct (obterOuCriarCarrinho_existente _ uc _ H Hc) as [l [Hl He]].
  rewrite removerItem_passos, He. cbn [CarrinhoComItens.itens CarrinhoComItens.carrinho].
  pose proof (find_no_carrinho db _ _ pid Hl) as Hf. rewrite Hi in Hf.
  destruct (find _ l) as [ip|]; [|discriminate]. simpl in Hf. injection Hf as Hf.
  rewrite Hf.
  apply find_some in Hi as [Hin Hk]. apply andb_true_iff in Hk as [Hk1 Hk2].
  apply String.eqb_eq in Hk1, Hk2. rewrite <- Hk1 in *.
  rewrite (transacao_remover db c p i H Hin Hk2 (acharPor_carrinho_id _ _ _ Hc H) Hp).
  now rewrite Hr.
Qed.

Lemma apagar_apagar {A} (chave : A -> string) k l :
  apagar chave k (apagar chave k l) = apagar chave k l.
Proof.
  unfold apagar. induction l as [|y l IH]; simpl; [reflexivity|].
  destruct (negb (chave y =? k)%string) eqn:E; simpl; [|exact IH].
  rewrite E. now rewrite IH.
Qed.

Lemma substituir_substituir {A} (chave : A -> string) k a b l :
  chave a = k ->
  substituir chave k b (substituir chave k a l) = substituir chave k b l.
Proof.
  intros Ha. unfold substituir. rewrite apagar_app, apagar_apagar.
  unfold apagar at 2. simpl. rewrite Ha, String.eqb_refl. simpl.
  now rewrite app_nil_r.
Qed.

Lemma apagar_Permutation {A} (chave : A -> string) x l :
  NoDup (map chave l) -> In x l -> Permutation (apagar chave (chave x) l ++ [x]) l.
Proof.
  induction l as [|y l IH]; simpl; intros Hnd Hx; [contradiction|].
  inversion Hnd as [|? ? Hy Hnd']; subst.
  destruct Hx as [->|Hx].
  - rewrite String.eqb_refl. simpl.
    rewrite apagar_ausente by assumption.
    apply Permutation_sym, Permutation_cons_append.
  - destruct (String.eqb_spec (chave y) (chave x)) as [E|E].
    + exfalso. apply Hy. rewrite E. now apply in_map.
    + simpl. apply perm_skip. now apply IH.
Qed.

(** A row written back with its own key: the table holds the same rows
    but for the one written, and the written one is last. *)
Lemma substituir_mesmo {A} (chave : A -> string) x l :
  NoDup (map chave l) -> In x l -> Permutation (substituir chave (chave x) x l) l.
Proof. intros Hnd Hx. unfold substituir. now apply apagar_Permutation. Qed.

Lemma find_app_None {A} (f : A -> bool) l x :
  find f l = None -> f x = true -> find f (l ++ [x]) = Some x.
Proof.
  induction l as [|y l IH]; simpl; intros Hn Hx; [now rewrite Hx|].
  destruct (f y); [discriminate|auto].
Qed.

(** C8. Adding a product that has no line in the cart, in a quantity the
    stock covers, and then removing it: both calls succeed, the stock of the
    product is what it was before the addition, and the line is gone (the
    table of lines is back to what it was, and the table of products holds
    the rows it held). *)
Theorem C8_adicionar_e_remover (arredondar : Q -> number) db uc ui uc' body p n :
  integro db = true ->
  validarAdicionarItemDto body = true ->
  toInt4 (AdicionarItemDto.quantidade body) = Some n ->
  acharPor Produto.id (AdicionarItemDto.produtoId body) (produtos db) = Some p ->
  n <= Produto.estoque p ->
  (forall c, acharPor Carrinho.usuarioId usuarioId (carrinhos db) = Some c ->
             find (mesmaLinha (AdicionarItemDto.produtoId body) (Carrinho.id c)) (itens db)
             = None) ->
  (acharPor Carrinho.usuarioId usuarioId (carrinhos db) = None ->
   temId Carrinho.id uc (carrinhos db) = false) ->
  temId ItemCarrinho.id ui (itens db) = false ->
  exists db1 r1 db2 r2 p1,
    executar (adicionarItem arredondar uc ui body) db = (db1, Ok r1)
    /\ acharPor Produto.id (AdicionarItemDto.produtoId body) (produtos db1) = Some p1
    /\ Produto.estoque p1 = Produto.estoque p - n
    /\ executar (removerItem arredondar uc' (AdicionarItemDto.produtoId body)) db1
       = (db2, Ok r2)
    /\ acharPor Produto.id (AdicionarItemDto.produtoId body) (produtos db2) = Some p
    /\ (forall c, acharPor Carrinho.usuarioId usuarioId (carrinhos db2) = Some c ->
                  find (mesmaLinha (AdicionarItemDto.produtoId body) (Carrinho.id c))
                    (itens db2) = None)
    /\ Permutation (produtos db2) (produtos db)
    /\ (forall id, acharPor Produto.id id (produtos db2) = acharPor Produto.id id (produtos db))
    /\ itens db2 = itens db.
Proof.
  intros H Hb Hn Hp Hle Hsem Hu Hui. apply integro_iff in H.
  unfold validarAdicionarItemDto in Hb. apply andb_true_iff in Hb as [_ Hb].
  pose proof (Min_toInt4 1 _ _ Hn Hb) as Hn1.
  destruct (carrinho_pronto _ uc H Hu) as (c & l & He & Hc & _).
  set (pid := AdicionarItemDto.produtoId body) in *.
  destruct (acharPor_Some _ _ _ _ Hp) as [Hpin Hpid].
  (* the cart of the owner holds no line of the product *)
  assert (find (mesmaLinha pid (Carrinho.id c)) (itens db) = None) as Hnone.
  { destruct (acharPor Carrinho.usuarioId usuarioId (carrinhos db)) as [c0|] eqn:Hc0.
    - unfold comCarrinho in Hc. rewrite Hc0 in Hc. simpl in Hc. rewrite Hc0 in Hc.
      injection Hc as <-. now apply Hsem.
    - unfold comCarrinho in Hc. rewrite Hc0 in Hc. simpl in Hc.
      rewrite acharPor_app, Hc0 in Hc.
      change (Some (Carrinho.mk uc usuarioId) = Some c) in Hc. injection Hc as <-. simpl.
      destruct (find _ _) as [i|] eqn:Hi; [|reflexivity]. exfalso.
      apply find_some in Hi as [Hin Hk]. apply andb_true_iff in Hk as [_ Hk].
      apply String.eqb_eq in Hk. apply (fk_item_carrinho H) in Hin.
      rewrite Hk in Hin. apply temId_true in Hin. rewrite (Hu eq_refl) in Hin.
      discriminate. }
  (* the addition *)
  pose proof (adicionarItem_sucesso arredondar db uc ui body p n c H Hu Hp Hn
                (conj (Z.le_trans _ _ _ Z.le_0_1 Hn1) Hle) Hc) as Ha.
  fold pid in Ha. rewrite Hnone in Ha. specialize (Ha Hui).
  set (db1 := aposAdicionar (comCarrinho uc db) p (Carrinho.id c) ui n) in *.
  assert (Integro db1) as H1.
  { pose proof (Integro_atender arredondar db (PostCarrinhoAdicionar uc ui body) H) as H1.
    unfold atender, rota in H1. rewrite fst_executar_bind_Retorne, Ha in H1. exact H1. }
  set (p1 := comEstoque p (Produto.estoque p + - n)).
  set (novo := ItemCarrinho.mk ui n pid (Carrinho.id c)).
  assert (produtos db1 = substituir Produto.id pid p1 (produtos db)) as Hps1.
  { unfold db1, aposAdicionar. simpl. now rewrite comCarrinho_produtos, Hpid. }
  assert (itens db1 = (itens db ++ [novo])%list) as His1.
  { unfold db1, aposAdicionar. simpl. now rewrite comCarrinho_itens, Hpid, Hnone. }
  assert (acharPor Produto.id pid (produtos db1) = Some p1) as Hp1.
  { rewrite Hps1, acharPor_substituir by exact Hpid. now rewrite String.eqb_refl. }
  (* the removal *)
  assert (find (mesmaLinha pid (Carrinho.id c)) (itens db1) = Some novo) as Hf1.
  { rewrite His1. apply find_app_None; [assumption|].
    unfold mesmaLinha, novo. simpl. now rewrite !String.eqb_refl. }
  assert (int4 (Produto.estoque p1 + ItemCarrinho.quantidade novo) = true) as Hr.
  { simpl. replace (Produto.estoque p + - n + n) with (Produto.estoque p) by lia.
    now apply (int4_estoque H). }
  pose proof (removerItem_sucesso arredondar db1 uc' pid c novo p1 H1 Hc Hf1 Hp1 Hr) as Hrm.
  assert (produtos (aposRemover db1 p1 novo) = substituir Produto.id pid p (produtos db))
    as Hps2.
  { change (produtos (aposRemover db1 p1 novo))
      with (substituir Produto.id (Produto.id p)
              (comEstoque p1 (Produto.estoque p + - n + n)) (produtos db1)).
    rewrite Hps1, Hpid.
    rewrite substituir_substituir by exact Hpid.
    replace (comEstoque p1 (Produto.estoque p + - n + n)) with p; [reflexivity|].
    destruct p as [a b c0 d]. unfold comEstoque. simpl. f_equal. lia. }
  assert (itens (aposRemover db1 p1 novo) = itens db) as His2.
  { change (itens (aposRemover db1 p1 novo)) with (apagar ItemCarrinho.id ui (itens db1)).
    rewrite His1, apagar_app.
    rewrite apagar_ausente by now apply temId_false.
    unfold apagar. simpl. rewrite String.eqb_refl. simpl. apply app_nil_r. }
  exists db1. eexists. exists (aposRemover db1 p1 novo). eexists. exists p1.
  split; [exact Ha|]. split; [exact Hp1|]. split; [simpl; lia|].
  split; [exact Hrm|]. rewrite Hps2, His2.
  split; [|split; [|split; [|split; [|reflexivity]]]].
  - rewrite acharPor_substituir by exact Hpid. now rewrite String.eqb_refl.
  - intros c' Hc'. simpl in Hc'. rewrite Hc in Hc'. injection Hc' as <-. exact Hnone.
  - rewrite <- Hpid. apply substituir_mesmo; [apply H|assumption].
  - intros id. rewrite acharPor_substituir by exact Hpid.
    destruct (String.eqb_spec id pid) as [->|E]; [now rewrite Hp|reflexivity].
Qed.

(** ** Stock that is available plus stock that is reserved *)

Lemma reservadoEm_app pid l x :
  reservadoEm pid (l ++ [x])
  = reservadoEm pid l
    + (if (ItemCarrinho.produtoId x =? pid)%string then ItemCarrinho.quantidade x else 0).
Proof.
  unfold reservadoEm. induction l as [|y l IH]; simpl.
  - destruct (_ =? _)%string; lia.
  - rewrite IH. destruct (ItemCarrinho.produtoId y =? pid)%string; lia.
Qed.

Lemma reservadoEm_apagar pid l i :
  NoDup (map ItemCarrinho.id l) -> In i l ->
  reservadoEm pid (apagar ItemCarrinho.id (ItemCarrinho.id i) l)
  = reservadoEm pid l
    - (if (ItemCarrinho.produtoId i =? pid)%string then ItemCarrinho.quantidade i else 0).
Proof.
  intros Hnd Hin. unfold reservadoEm.
  induction l as [|y l IH]; simpl; [contradiction|].
  inversion Hnd as [|? ? Hy Hnd']; subst.
  destruct (String.eqb_spec (ItemCarrinho.id y) (ItemCarrinho.id i)) as [E|E]; simpl.
  - assert (y = i) as ->.
    { destruct Hin as [Hin|Hin]; [assumption|].
      exfalso. apply Hy. rewrite E. now apply in_map. }
    fold (apagar ItemCarrinho.id (ItemCarrinho.id i) l).
    rewrite apagar_ausente by assumption.
    destruct (ItemCarrinho.produtoId i =? pid)%string; lia.
  - destruct Hin as [Hin|Hin]; [congruence|].
    fold (apagar ItemCarrinho.id (ItemCarrinho.id i) l).
    rewrite (IH Hnd' Hin).
    destruct (ItemCarrinho.produtoId y =? pid)%string; lia.
Qed.

Lemma reservadoEm_substituir pid l i i' :
  NoDup (map ItemCarrinho.id l) -> In i l ->
  ItemCarrinho.produtoId i' = ItemCarrinho.produtoId i ->
  reservadoEm pid (substituir ItemCarrinho.id (ItemCarrinho.id i) i' l)
  = reservadoEm pid l
    + (if (ItemCarrinho.produtoId i =? pid)%string
       then ItemCarrinho.quantidade i' - ItemCarrinho.quantidade i else 0).
Proof.
  intros Hnd Hin Hp. unfold substituir.
  rewrite reservadoEm_app, reservadoEm_apagar by assumption.
  rewrite Hp. destruct (ItemCarrinho.produtoId i =? pid)%string; lia.
Qed.

Lemma reservadoEm_sem_referencia pid l :
  ~ In pid (map ItemCarrinho.produtoId l) -> reservadoEm pid l = 0.
Proof.
  unfold reservadoEm. induction l as [|y l IH]; simpl; intros H; [reflexivity|].
  destruct (String.eqb_spec (ItemCarrinho.produtoId y) pid) as [E|E]; [tauto|].
  apply IH. tauto.
Qed.


(** One request that does not set the stock of [pid] by hand leaves
    available plus reserved stock of [pid] as it was. *)
Lemma Efeito_conserva r db db' pid p' :
  Integro db -> Efeito r db db' -> naoRedefine pid r = true ->
  acharPor Produto.id pid (produtos db') = Some p' ->
  exists p, acharPor Produto.id pid (produtos db) = Some p
            /\ Produto.estoque p' + reservado pid db' = Produto.estoque p + reservado pid db.
Proof.
  intros H He Hr Hp'. unfold reservado.
  destruct He as [r db db' E1 E2|uuid body db e He Hu|id body db atual e Ha He|id db Hfk
                 |uc ui body db c p n Hn Hp Hle|uc pid0 db p i Hin Hpid Hp];
    unfold aposAdicionar, aposRemover in *; simpl in *;
    rewrite ?comCarrinho_produtos, ?comCarrinho_itens in *.
  - rewrite E1 in Hp'. rewrite E2. eauto.
  - rewrite acharPor_app in Hp'.
    destruct (acharPor Produto.id pid (produtos db)) as [p|]; [injection Hp' as <-; eauto|].
    unfold acharPor in Hp'. simpl in Hp'.
    apply negb_true_iff in Hr. rewrite Hr in Hp'. discriminate.
  - rewrite acharPor_substituir in Hp' by reflexivity.
    destruct (String.eqb_spec pid id) as [->|E]; [|eauto].
    injection Hp' as <-. exists atual. split; [exact Ha|]. simpl.
    rewrite String.eqb_refl in Hr. simpl in Hr.
    destruct (AtualizarProdutoDto.estoque body); [discriminate|].
    simpl in He. injection He as <-. reflexivity.
  - rewrite acharPor_apagar in Hp'. destruct (pid =? id)%string; [discriminate|eauto].
  - destruct (acharPor_Some _ _ _ _ Hp) as [Hpin Hpid].
    rewrite acharPor_substituir in Hp' by reflexivity.
    assert (reservadoEm pid
              (match find (mesmaLinha (Produto.id p) (Carrinho.id c)) (itens db) with
               | Some i => substituir ItemCarrinho.id (ItemCarrinho.id i)
                             (comQuantidade i (ItemCarrinho.quantidade i + n)) (itens db)
               | None => (itens db ++ [ItemCarrinho.mk ui n (Produto.id p) (Carrinho.id c)])%list
               end)
            = reservadoEm pid (itens db)
              + (if (Produto.id p =? pid)%string then n else 0)) as Hres.
    { destruct (find _ _) as [i|] eqn:Hi.
      - apply find_some in Hi as [Hi Hk]. apply andb_true_iff in Hk as [Hk _].
        apply String.eqb_eq in Hk.
        rewrite reservadoEm_substituir; [|apply H|assumption|reflexivity].
        simpl. rewrite Hk. destruct (Produto.id p =? pid)%string; lia.
      - now rewrite reservadoEm_app. }
    rewrite Hres. rewrite <- Hpid in Hp.
    destruct (String.eqb_spec pid (Produto.id p)) as [->|E].
    + injection Hp' as <-.
      exists p. split; [exact Hp|]. simpl.
      rewrite String.eqb_refl. lia.
    + exists p'. split; [assumption|].
      destruct (String.eqb_spec (Produto.id p) pid); [congruence|lia].
  - destruct (acharPor_Some _ _ _ _ Hp) as [Hpin Hpid'].
    rewrite acharPor_substituir in Hp' by reflexivity.
    rewrite reservadoEm_apagar; [|apply H|assumption].
    rewrite <- Hpid' in Hp. rewrite Hpid, <- Hpid'.
    destruct (String.eqb_spec pid (Produto.id p)) as [->|E].
    + injection Hp' as <-.
      exists p. split; [exact Hp|]. simpl.
      rewrite String.eqb_refl. lia.
    + exists p'. split; [assumption|].
      destruct (String.eqb_spec (Produto.id p) pid); [congruence|lia].
Qed.

Lemma conserva_atenderTodas arredondar rs db pid p' :
  Integro db -> forallb (naoRedefine pid) rs = true ->
  acharPor Produto.id pid (produtos (atenderTodas arredondar db rs)) = Some p' ->
  exists p, acharPor Produto.id pid (produtos db) = Some p
            /\ Produto.estoque p' + reservado pid (atenderTodas arredondar db rs)
               = Produto.estoque p + reservado pid db.
Proof.
  unfold atenderTodas. revert db.
  induction rs as [|r rs IH]; intros db H Hr Hp'; simpl in *; [eauto|].
  apply andb_true_iff in Hr as [Hr Hrs].
  destruct (IH _ (Integro_atender arredondar db r H) Hrs Hp') as (p1 & Hp1 & E1).
  destruct (Efeito_conserva r db _ pid p1 H (atender_Efeito arredondar db r H) Hr Hp1)
    as (p & Hp & E).
  exists p. split; [assumption|lia].
Qed.

(** C1, counterexample.  A product created with 5 units, 3 of them added to
    the cart, then updated with [estoque: 10]: 10 are available and 3
    reserved, 13 in all and not 5. *)
Lemma C1_contraexemplo : ~ ConservacaoDoEstoque.
Proof.
  intros H.
  specialize (H Qred bancoVazio "p1" (CriarProdutoDto.mk "Widget" 10%Q 5%Q) 5
                [PostCarrinhoAdicionar "c1" "i1" (AdicionarItemDto.mk "p1" 3%Q);
                 PutProdutosId "p1" (AtualizarProdutoDto.mk None None (Some 10%Q))]
                (Produto.mk "p1" "Widget" 10%Q 10)
                eq_refl eq_refl eq_refl eq_refl eq_refl eq_refl).
  vm_compute in H. discriminate H.
Qed.

(** C1, amended.  After the creation of a product and any sequence of
    requests served one after the other, none of which sets its stock by
    hand (no update that supplies [estoque] for it, no creation under its
    identifier), what is available plus what cart lines reserve is the
    stock the product was created with. *)
Theorem C1_conservacao_do_estoque (arredondar : Q -> number) db0 uuid body e rs p :
  integro db0 = true ->
  acharPor Produto.id uuid (produtos db0) = None ->
  acharPor Produto.nome (CriarProdutoDto.nome body) (produtos db0) = None ->
  paraInt (CriarProdutoDto.estoque body) = Some e ->
  forallb (naoRedefine uuid) rs = true ->
  acharPor Produto.id uuid
    (produtos (atenderTodas arredondar db0 (PostProdutos uuid body :: rs))) = Some p ->
  Produto.estoque p
  + reservado uuid (atenderTodas arredondar db0 (PostProdutos uuid body :: rs)) = e.
Proof.
  intros H Hid Hnome He Hrs Hp. apply integro_iff in H.
  change (atenderTodas arredondar db0 (PostProdutos uuid body :: rs))
    with (atenderTodas arredondar (atender arredondar db0 (PostProdutos uuid body)) rs) in *.
  set (db1 := atender arredondar db0 (PostProdutos uuid body)) in *.
  assert (db1 = mkPrisma (produtos db0 ++ [Produto.mk uuid (CriarProdutoDto.nome body)
                                             (CriarProdutoDto.preco body) e])
                         (carrinhos db0) (itens db0)) as Hdb1.
  { unfold db1, atender, rota. rewrite fst_executar_bind_Retorne, executar_criarProduto.
    rewrite Hnome. unfold produto_create. rewrite He.
    apply acharPor_None, temId_false in Hid, Hnome. now rewrite Hid, Hnome. }
  assert (Integro db1) as H1 by now apply Integro_atender.
  destruct (conserva_atenderTodas arredondar rs db1 uuid p H1 Hrs Hp) as (p1 & Hp1 & E).
  rewrite E. rewrite Hdb1 in Hp1. simpl in Hp1.
  rewrite acharPor_app, Hid in Hp1. unfold acharPor in Hp1. simpl in Hp1.
  rewrite String.eqb_refl in Hp1. injection Hp1 as <-. simpl.
  unfold reservado. rewrite Hdb1. simpl.
  rewrite reservadoEm_sem_referencia; [lia|].
  intros Hin. apply in_map_iff in Hin as [i [Hi Hin]].
  apply (fk_item_produto H) in Hin. rewrite Hi in Hin.
  now apply acharPor_None in Hid.
Qed.

(** ** Deleting a product *)

(** C5, counterexample.  The product exists and a line of the cart points to
    it: [removerProduto] does not remove it.  The foreign key of the line
    refuses the delete, the call ends with the error of the store, and the
    database is what it was. *)
Lemma C5_contraexemplo :
  integro bancoComLinha = true
  /\ acharPor Produto.id "p1" (produtos bancoComLinha) = Some (Produto.mk "p1" "Widget" 10%Q 2)
  /\ executar (removerProduto "p1") bancoComLinha
     = (bancoComLinha, Lancou (PrismaClientError P2003))
  /\ ~ (exists db', executar (removerProduto "p1") bancoComLinha = (db', Ok tt)
                    /\ acharPor Produto.id "p1" (produtos db') = None).
Proof.
  split; [reflexivity|]. split; [reflexivity|]. split; [reflexivity|].
  intros [db' [H _]]. vm_compute in H. discriminate H.
Qed.

(** C5, amended.  [removerProduto] throws [NotFoundException] when the
    product is absent; it removes the product, and nothing else, when no
    line of any cart points to it; and when a line points to it the foreign
    key refuses the delete and products and lines stay as they were. *)
Theorem C5_remover_produto db id :
  match acharPor Produto.id id (produtos db) with
  | None =>
      executar (removerProduto id) db
      = (db, Lancou (NotFoundException ("Produto com ID " ++ id ++ " não encontrado.")))
  | Some _ =>
      if temId ItemCarrinho.produtoId id (itens db)
      then executar (removerProduto id) db = (db, Lancou (PrismaClientError P2003))
      else
        let db' := mkPrisma (apagar Produto.id id (produtos db)) (carrinhos db) (itens db) in
        executar (removerProduto id) db = (db', Ok tt)
        /\ acharPor Produto.id id (produtos db') = None
        /\ (forall k, k <> id ->
                      acharPor Produto.id k (produtos db') = acharPor Produto.id k (produtos db))
  end.
Proof.
  rewrite executar_removerProduto. unfold produto_delete.
  destruct (acharPor Produto.id id (produtos db)) as [p|] eqn:Hp; [|reflexivity].
  destruct (temId ItemCarrinho.produtoId id (itens db)); [reflexivity|].
  simpl. split; [reflexivity|]. split.
  - rewrite acharPor_apagar. now rewrite String.eqb_refl.
  - intros k Hk. rewrite acharPor_apagar.
    now destruct (String.eqb_spec k id).
Qed.

(** ** Updating a product *)

(** What [produto_update] writes when it writes. *)
Lemma produto_update_escreve db id body atual e :
  acharPor Produto.id id (produtos db) = Some atual ->
  intOpcional (AtualizarProdutoDto.estoque body) = Some e ->
  nomeDeOutro id (campo (AtualizarProdutoDto.nome body) (Produto.nome atual)) (produtos db)
  = false ->
  produto_update id body db
  = (mkPrisma
       (substituir Produto.id id
          (Produto.mk id (campo (AtualizarProdutoDto.nome body) (Produto.nome atual))
             (campo (AtualizarProdutoDto.preco body) (Produto.preco atual))
             (campo e (Produto.estoque atual)))
          (produtos db))
       (carrinhos db) (itens db),
     Ok (Produto.mk id (campo (AtualizarProdutoDto.nome body) (Produto.nome atual))
           (campo (AtualizarProdutoDto.preco body) (Produto.preco atual))
           (campo e (Produto.estoque atual)))).
Proof. intros Ha He Hn. unfold produto_update. now rewrite He, Ha, Hn. Qed.

(** C4.  [AtualizarProdutoDto] declares the rules of [CriarProdutoDto] on
    the fields it is given, and nothing applies them: [atualizarProduto]
    called with [estoque: -1] returns ['Produto atualizado!'] and the
    product has a stock of -1; called with an empty [nome], it returns and
    the product has the empty name. *)
Theorem C4_atualizar_sem_validar :
  integro bancoComWidget = true
  /\ validarAtualizarProdutoDto (AtualizarProdutoDto.mk None None (Some (-1)%Q)) = false
  /\ executar (atualizarProduto "p1" (AtualizarProdutoDto.mk None None (Some (-1)%Q)))
       bancoComWidget
     = (mkPrisma [Produto.mk "p1" "Widget" 10%Q (-1)] [Carrinho.mk "c1" "usuario-123"] [],
        Ok (RespostaProduto.mk "Produto atualizado!" (Produto.mk "p1" "Widget" 10%Q (-1))))
  /\ validarAtualizarProdutoDto (AtualizarProdutoDto.mk (Some EmptyString) None None) = false
  /\ executar (atualizarProduto "p1" (AtualizarProdutoDto.mk (Some EmptyString) None None))
       bancoComWidget
     = (mkPrisma [Produto.mk "p1" EmptyString 10%Q 5] [Carrinho.mk "c1" "usuario-123"] [],
        Ok (RespostaProduto.mk "Produto atualizado!" (Produto.mk "p1" EmptyString 10%Q 5))).
Proof.
  split; [reflexivity|]. split; [reflexivity|]. split.
  - rewrite executar_atualizarProduto.
    change (acharPor Produto.id "p1" (produtos bancoComWidget))
      with (Some (Produto.mk "p1" "Widget" 10%Q 5)).
    change (Object_keys_length (AtualizarProdutoDto.mk None None (Some (-1)%Q)) =? 0)%nat
      with false.
    now rewrite (produto_update_escreve bancoComWidget "p1"
                   (AtualizarProdutoDto.mk None None (Some (-1)%Q))
                   (Produto.mk "p1" "Widget" 10%Q 5) (Some (-1)) eq_refl eq_refl eq_refl).
  - split; [reflexivity|].
    rewrite executar_atualizarProduto.
    change (acharPor Produto.id "p1" (produtos bancoComWidget))
      with (Some (Produto.mk "p1" "Widget" 10%Q 5)).
    change (Object_keys_length (AtualizarProdutoDto.mk (Some EmptyString) None None) =? 0)%nat
      with false.
    now rewrite (produto_update_escreve bancoComWidget "p1"
                   (AtualizarProdutoDto.mk (Some EmptyString) None None)
                   (Produto.mk "p1" "Widget" 10%Q 5) None eq_refl eq_refl eq_refl).
Qed.

(** ** The view of the cart *)

Lemma formatarCarrinho_total arredondar c :
  CarrinhoFormatado.total (formatarCarrinho arredondar c)
  = fold_left (fun acc l => number_add arredondar acc (ItemFormatado.totalItem l))
      (CarrinhoFormatado.itens (formatarCarrinho arredondar c)) 0%Q.
Proof.
  unfold formatarCarrinho. simpl. generalize 0%Q.
  induction (CarrinhoComItens.itens c) as [|i l IH]; intros q; simpl; [reflexivity|].
  apply IH.
Qed.

(** The lines [formatarCarrinho] makes of the loaded lines are the lines
    of the specification. *)
Lemma linhas_formatadas arredondar ps ls l :
  comProdutos ps ls = Some l ->
  map (fun i =>
         ItemFormatado.mk
           (ItemCarrinho.produtoId (ItemComProduto.item i))
           (Produto.nome (ItemComProduto.produto i))
           (ItemCarrinho.quantidade (ItemComProduto.item i))
           (Produto.preco (ItemComProduto.produto i))
           (number_mul arredondar (ofInt (ItemCarrinho.quantidade (ItemComProduto.item i)))
              (Produto.preco (ItemComProduto.produto i)))) l
  = flat_map (linhaEsperada arredondar ps) ls.
Proof.
  revert l. induction ls as [|i ls IH]; simpl; intros l H.
  - now injection H as <-.
  - unfold linhaEsperada at 1. unfold acharPor in H.
    destruct (find _ ps) as [p|]; [|discriminate].
    destruct (comProdutos ps ls) as [r|]; [|discriminate].
    injection H as <-. simpl. now rewrite (IH r eq_refl).
Qed.

Lemma formatarCarrinho_visaoEsperada arredondar db c :
  Integro db ->
  formatarCarrinho arredondar (CarrinhoComItens.mk c (carregado c db))
  = visaoEsperada arredondar db c.
Proof.
  intros H. destruct (incluir_Integro db c H) as [l [Hl _]].
  unfold carregado. rewrite Hl.
  pose proof (formatarCarrinho_total arredondar (CarrinhoComItens.mk c l)) as Ht.
  pose proof (linhas_formatadas arredondar _ _ _ Hl) as Hm.
  unfold formatarCarrinho in *. cbn [CarrinhoComItens.itens CarrinhoComItens.carrinho
    CarrinhoFormatado.total CarrinhoFormatado.itens] in *.
  unfold visaoEsperada. unfold itensDe in Hm. rewrite <- Hm. now rewrite Ht.
Qed.

(** C9.  [verCarrinho] returns the view of the specification: the lines of
    the cart of the owner, each with the product id, the name and the
    price the product has when the call is made, the quantity of the line
    and quantity times price as line total, and the sum of the line totals
    as total.  Every line of the cart is in the view, and nothing is
    written. *)
Theorem C9_visao_do_carrinho (arredondar : Q -> number) db uc c :
  integro db = true ->
  acharPor Carrinho.usuarioId usuarioId (carrinhos db) = Some c ->
  executar (verCarrinho arredondar uc) db = (db, Ok (visaoEsperada arredondar db c))
  /\ map (fun l => (ItemFormatado.produtoId l, ItemFormatado.quantidade l))
       (CarrinhoFormatado.itens (visaoEsperada arredondar db c))
     = map (fun i => (ItemCarrinho.produtoId i, ItemCarrinho.quantidade i))
         (filter (fun i => (ItemCarrinho.carrinhoId i =? Carrinho.id c)%string) (itens db)).
Proof.
  intros H Hc. apply integro_iff in H. split.
  - destruct (obterOuCriarCarrinho_existente _ uc _ H Hc) as [l [Hl He]].
    unfold verCarrinho. rewrite executar_bind, He. cbn [executar].
    rewrite <- (formatarCarrinho_visaoEsperada arredondar db c H).
    unfold carregado. now rewrite Hl.
  - unfold visaoEsperada. cbn [CarrinhoFormatado.itens].
    assert (forall i, In i (filter (fun i => (ItemCarrinho.carrinhoId i =? Carrinho.id c)%string)
                              (itens db)) ->
                      In (ItemCarrinho.produtoId i) (map Produto.id (produtos db))) as Hfk.
    { intros i Hi. apply filter_In in Hi as [Hi _]. now apply (fk_item_produto H). }
    induction (filter _ (itens db)) as [|i ls IH]; simpl; [reflexivity|].
    rewrite map_app, IH by (intros j Hj; apply Hfk; now right).
    destruct (acharPor_existe Produto.id _ _ (Hfk i (or_introl eq_refl))) as [p Hp].
    unfold linhaEsperada. unfold acharPor in Hp. now rewrite Hp.
Qed.

(** ** Two calls of [adicionarItem] served at the same time *)

(** Stepping a method alone until it ends is running it. *)
Lemma passos_executar A (t : Tarefa A) db :
  exists n, fst (passos n t db) = fst (executar t db)
            /\ desfecho (snd (passos n t db)) = Some (snd (executar t db)).
Proof.
  revert db. induction t as [a|e|B c k IH]; intros db.
  - exists O. split; reflexivity.
  - exists O. split; reflexivity.
  - simpl. destruct (c db) as [db' [b|e]] eqn:Hc.
    + destruct (IH b db') as [n [H1 H2]]. exists (S n). simpl. now rewrite Hc.
    + exists 1%nat. simpl. rewrite Hc. split; reflexivity.
Qed.

(** The constraints of the schema hold however two requests take turns. *)
Lemma Integro_intercalar A B agenda (t1 : Tarefa A) (t2 : Tarefa B) db :
  Seguro Integro t1 -> Seguro Integro t2 -> Integro db ->
  Integro (fst (intercalar agenda t1 t2 db)).
Proof.
  revert t1 t2 db. induction agenda as [|[|] agenda IH]; intros t1 t2 db H1 H2 H; simpl.
  - exact H.
  - destruct (Seguro_passo Integro A t1 db H1 H) as [Hdb Ht].
    destruct (passo t1 db) as [db' t1']. now apply IH.
  - destruct (Seguro_passo Integro B t2 db H2 H) as [Hdb Ht].
    destruct (passo t2 db) as [db' t2']. now apply IH.
Qed.

Lemma carrinho_findUnique_ok db c :
  Integro db ->
  acharPor Carrinho.usuarioId usuarioId (carrinhos db) = Some c ->
  carrinho_findUnique usuarioId db = (db, Ok (Some (CarrinhoComItens.mk c (carregado c db)))).
Proof.
  intros H Hc. unfold carrinho_findUnique, consulta_bind. rewrite Hc.
  now rewrite (incluir_ok db c H).
Qed.

(** The race in general: a product with stock [e], the cart of the owner
    without a line for it, and two calls for [n] units each with
    [n <= e < 2 * n], taking turns at their awaits.  Both return and the
    stock ends below zero. *)
Lemma adicionarItem_intercalados (arredondar : Q -> number) db c p body n uiA uiB ucA ucB :
  integro db = true ->
  acharPor Carrinho.usuarioId usuarioId (carrinhos db) = Some c ->
  acharPor Produto.id (AdicionarItemDto.produtoId body) (produtos db) = Some p ->
  toInt4 (AdicionarItemDto.quantidade body) = Some n ->
  1 <= n <= Produto.estoque p ->
  Produto.estoque p < 2 * n ->
  find (mesmaLinha (AdicionarItemDto.produtoId body) (Carrinho.id c)) (itens db) = None ->
  temId ItemCarrinho.id uiA (itens db) = false ->
  int4 (n + n) = true ->
  exists db' rA rB p',
    intercalar [true; false; true; false; true; false]
      (adicionarItem arredondar ucA uiA body)
      (adicionarItem arredondar ucB uiB body) db
    = (db', (Retorne rA, Retorne rB))
    /\ acharPor Produto.id (AdicionarItemDto.produtoId body) (produtos db') = Some p'
    /\ Produto.estoque p' = Produto.estoque p - 2 * n
    /\ Produto.estoque p' < 0.
Proof.
  intros H Hc Hp Hn Hle Hlt Hsem HuA Hr. apply integro_iff in H.
  set (pid := AdicionarItemDto.produtoId body) in *.
  destruct (acharPor_Some _ _ _ _ Hp) as [Hpin Hpid].
  pose proof (acharPor_carrinho_id _ _ _ Hc H) as Hcid.
  unfold adicionarItem, obterOuCriarCarrinho.
  cbn [intercalar tarefa_bind await passo].
  rewrite (carrinho_findUnique_ok db c H Hc).
  cbn [intercalar tarefa_bind await passo].
  rewrite (carrinho_findUnique_ok db c H Hc).
  cbn [intercalar tarefa_bind await passo].
  unfold produto_findUnique_id. fold pid. rewrite Hp.
  cbn [intercalar tarefa_bind await passo CarrinhoComItens.carrinho].
  rewrite (number_lt_ofInt _ _ _ Hn).
  assert ((Produto.estoque p <? n) = false) as -> by (apply Z.ltb_ge; lia).
  cbn [intercalar tarefa_bind await passo].
  rewrite (transacao_adicionar db c p uiA pid _ n H (paraInt_toInt4 _ _ Hn) Hp Hcid).
  assert (int4 (Produto.estoque p + - n) = true) as Hr1.
  { pose proof (int4_estoque H p Hpin) as Hi. apply int4_iff in Hi. apply int4_iff. lia. }
  rewrite Hr1, Hsem, HuA.
  cbn [intercalar tarefa_bind await passo].
  set (dbA := aposAdicionar db p (Carrinho.id c) uiA n).
  set (pA := comEstoque p (Produto.estoque p + - n)).
  set (novo := ItemCarrinho.mk uiA n pid (Carrinho.id c)).
  assert (Integro dbA) as HA.
  { pose proof (Integro_atender arredondar db (PostCarrinhoAdicionar ucA uiA body) H) as HA.
    unfold atender, rota in HA.
    rewrite fst_executar_bind_Retorne in HA.
    rewrite (adicionarItem_sucesso arredondar db ucA uiA body p n c) in HA; auto.
    - unfold comCarrinho in HA. now rewrite Hc in HA.
    - intros E. congruence.
    - lia.
    - unfold comCarrinho. now rewrite Hc.
    - fold pid. now rewrite Hsem. }
  assert (produtos dbA = substituir Produto.id pid pA (produtos db)) as HpsA.
  { unfold dbA, aposAdicionar. simpl. now rewrite Hpid. }
  assert (itens dbA = (itens db ++ [novo])%list) as HisA.
  { unfold dbA, aposAdicionar. simpl. now rewrite Hpid, Hsem. }
  assert (acharPor Produto.id pid (produtos dbA) = Some pA) as HpA.
  { rewrite HpsA, acharPor_substituir by exact Hpid. now rewrite String.eqb_refl. }
  rewrite (transacao_adicionar dbA c pA uiB pid _ n HA (paraInt_toInt4 _ _ Hn) HpA Hcid).
  assert (int4 (Produto.estoque pA + - n) = true) as Hr2.
  { pose proof (int4_estoque H p Hpin) as Hi. apply int4_iff in Hi. apply int4_iff.
    unfold pA. simpl. lia. }
  assert (find (mesmaLinha pid (Carrinho.id c)) (itens dbA) = Some novo) as HfA.
  { rewrite HisA. apply find_app_None; [assumption|].
    unfold mesmaLinha, novo. simpl. now rewrite !String.eqb_refl. }
  rewrite Hr2, HfA. change (ItemCarrinho.quantidade novo) with n. rewrite Hr.
  do 3 eexists. exists (comEstoque pA (Produto.estoque pA + - n)).
  split; [reflexivity|].
  split; [|split; unfold pA, comEstoque; cbn [Produto.estoque]; lia].
  unfold aposAdicionar. cbn [produtos]. change (Produto.id pA) with (Produto.id p).
  rewrite Hpid, HpsA, substituir_substituir by exact Hpid.
  rewrite acharPor_substituir by exact Hpid. now rewrite String.eqb_refl.
Qed.

(** Served one after the other, the same two calls: the first returns, the
    second is refused for insufficient stock, and the stock is [e - n]. *)
Lemma adicionarItem_em_serie (arredondar : Q -> number) db c p body n uiA uiB ucA ucB :
  integro db = true ->
  acharPor Carrinho.usuarioId usuarioId (carrinhos db) = Some c ->
  acharPor Produto.id (AdicionarItemDto.produtoId body) (produtos db) = Some p ->
  toInt4 (AdicionarItemDto.quantidade body) = Some n ->
  1 <= n <= Produto.estoque p ->
  Produto.estoque p < 2 * n ->
  find (mesmaLinha (AdicionarItemDto.produtoId body) (Carrinho.id c)) (itens db) = None ->
  temId ItemCarrinho.id uiA (itens db) = false ->
  exists db1 rA m,
    executar (adicionarItem arredondar ucA uiA body) db = (db1, Ok rA)
    /\ executar (adicionarItem arredondar ucB uiB body) db1
       = (db1, Lancou (BadRequestException m))
    /\ acharPor Produto.id (AdicionarItemDto.produtoId body) (produtos db1)
       = Some (comEstoque p (Produto.estoque p - n)).
Proof.
  intros H Hc Hp Hn Hle Hlt Hsem HuA. apply integro_iff in H.
  set (pid := AdicionarItemDto.produtoId body) in *.
  destruct (acharPor_Some _ _ _ _ Hp) as [Hpin Hpid].
  assert (comCarrinho ucA db = db) as Hcc by (unfold comCarrinho; now rewrite Hc).
  pose proof (adicionarItem_sucesso arredondar db ucA uiA body p n c H) as Ha.
  fold pid in Ha. rewrite Hcc, Hsem in Ha.
  specialize (Ha (fun E => ltac:(congruence)) Hp Hn ltac:(lia) Hc HuA).
  set (db1 := aposAdicionar db p (Carrinho.id c) uiA n) in *.
  assert (Integro db1) as H1.
  { pose proof (Integro_atender arredondar db (PostCarrinhoAdicionar ucA uiA body) H) as H1.
    unfold atender, rota in H1. now rewrite fst_executar_bind_Retorne, Ha in H1. }
  assert (acharPor Produto.id pid (produtos db1)
          = Some (comEstoque p (Produto.estoque p + - n))) as Hp1.
  { unfold db1, aposAdicionar. cbn [produtos].
    rewrite Hpid, acharPor_substituir by exact Hpid. now rewrite String.eqb_refl. }
  assert (acharPor Carrinho.usuarioId usuarioId (carrinhos db1) = Some c) as Hc1 by exact Hc.
  pose proof (adicionarItem_insuficiente arredondar db1 ucB uiB body _ H1
                (fun E => ltac:(congruence)) Hp1) as Hb.
  assert (comCarrinho ucB db1 = db1) as Hcc1 by (unfold comCarrinho; now rewrite Hc1).
  rewrite Hcc1 in Hb.
  exists db1. do 2 eexists. split; [exact Ha|]. split.
  - apply Hb. cbn [comEstoque Produto.estoque].
    destruct (toInt4_Some _ _ Hn) as [_ Hq]. rewrite Hq. rewrite <- Zlt_Qlt. lia.
  - now replace (Produto.estoque p - n) with (Produto.estoque p + - n) by lia.
Qed.

(** C2.  Two calls of [adicionarItem] for three units each of a product that
    has five, taking turns at their awaits: both read the stock before either
    writes, both pass the check, both transactions commit.  Both calls
    return, the line holds six units and the stock is minus one. *)
Theorem C2_dois_adicionarItem_intercalados :
  integro bancoComWidget = true
  /\ validarAdicionarItemDto tresWidgets = true
  /\ exists db rA rB,
       intercalar [true; false; true; false; true; false]
         (adicionarItem Qred "c2" "i1" tresWidgets)
         (adicionarItem Qred "c3" "i2" tresWidgets) bancoComWidget
       = (db, (Retorne rA, Retorne rB))
       /\ produtos db = [Produto.mk "p1" "Widget" 10%Q (-1)]
       /\ itens db = [ItemCarrinho.mk "i1" 6 "p1" "c1"].
Proof.
  split; [reflexivity|]. split; [reflexivity|].
  do 3 eexists. split; [vm_compute; reflexivity|]. split; reflexivity.
Qed.

(** Served one after the other, the same two calls: the first returns, the
    second throws for insufficient stock, and the stock is two. *)
Lemma dois_adicionarItem_em_serie :
  exists db1 rA m,
    executar (adicionarItem Qred "c2" "i1" tresWidgets) bancoComWidget = (db1, Ok rA)
    /\ executar (adicionarItem Qred "c3" "i2" tresWidgets) db1
       = (db1, Lancou (BadRequestException m))
    /\ produtos db1 = [Produto.mk "p1" "Widget" 10%Q 2].
Proof.
  do 3 eexists. split; [vm_compute; reflexivity|]. split; [vm_compute; reflexivity|].
  reflexivity.
Qed.

(** ** Scenarios of the specification, run *)

(** Scenario A: the Widget is created with 5 units at 10.00 and 3 go to the
    cart: the total of the cart is 30 and the stock 2.  Scenario B: 3 more
    are refused and the stock stays 2. *)
Example cenario_A_e_B :
  let db0 := atender Qred bancoVazio (PostProdutos "p1" (CriarProdutoDto.mk "Widget" 10%Q 5%Q)) in
  exists db1 r,
    executar (adicionarItem Qred "c1" "i1" tresWidgets) db0 = (db1, Ok r)
    /\ CarrinhoFormatado.total (RespostaCarrinho.carrinho r) = 30%Q
    /\ produtos db1 = [Produto.mk "p1" "Widget" 10%Q 2]
    /\ executar (adicionarItem Qred "c2" "i2" tresWidgets) db1
       = (db1, Lancou (BadRequestException
                         ("Estoque insuficiente para " ++ aspas ++ "Widget" ++ aspas
                          ++ ". Disponível: 2."))).
Proof.
  do 2 eexists. split; [vm_compute; reflexivity|].
  split; [reflexivity|]. split; [reflexivity|]. vm_compute. reflexivity.
Qed.

(** Scenario C: a second product named Widget is refused with a conflict.
    Scenario D: an update without fields is a bad request.  Scenario F:
    removing a product that is not in the cart is not found. *)
Example cenarios_C_D_F :
  snd (executar (criarProduto "p2" (CriarProdutoDto.mk "Widget" 1%Q 1%Q)) bancoComWidget)
  = Lancou (ConflictException "Já existe um produto com este nome.")
  /\ snd (executar (atualizarProduto "p1" (AtualizarProdutoDto.mk None None None))
            bancoComWidget)
     = Lancou (BadRequestException "Pelo menos um campo deve ser fornecido para atualização.")
  /\ snd (executar (removerItem Qred "c2" "p1") bancoComWidget)
     = Lancou (NotFoundException "Produto com ID p1 não está no carrinho.").
Proof. repeat split. Qed.

(** ** The theorems at concrete inputs *)

(** C1 at: create the Widget with 5 units, add 3 to the cart, change its
    price, view the cart. *)
Lemma C1_conservacao_do_estoque_witness :
  integro bancoVazio = true
  /\ acharPor Produto.id "p1" (produtos bancoVazio) = None
  /\ acharPor Produto.nome "Widget" (produtos bancoVazio) = None
  /\ paraInt 5%Q = Some 5
  /\ forallb (naoRedefine "p1")
       [PostCarrinhoAdicionar "c1" "i1" tresWidgets;
        PutProdutosId "p1" (AtualizarProdutoDto.mk None (Some 12%Q) None);
        GetCarrinho "c9"] = true
  /\ 2 + reservado "p1"
         (atenderTodas Qred bancoVazio
            [PostProdutos "p1" widget;
             PostCarrinhoAdicionar "c1" "i1" tresWidgets;
             PutProdutosId "p1" (AtualizarProdutoDto.mk None (Some 12%Q) None);
             GetCarrinho "c9"]) = 5.
Proof.
  repeat (split; [reflexivity|]).
  exact (C1_conservacao_do_estoque Qred bancoVazio "p1" widget 5
           [PostCarrinhoAdicionar "c1" "i1" tresWidgets;
            PutProdutosId "p1" (AtualizarProdutoDto.mk None (Some 12%Q) None);
            GetCarrinho "c9"]
           (Produto.mk "p1" "Widget" 12%Q 2)
           eq_refl eq_refl eq_refl eq_refl eq_refl eq_refl).
Defined.

(** C6 at: seven Widgets asked for, five in stock. *)
Lemma C6_estoque_insuficiente_witness :
  integro bancoComWidget = true
  /\ (inject_Z 5 < 7)%Q
  /\ exists db' mensagem,
       executar (adicionarItem Qred "c2" "i1" (AdicionarItemDto.mk "p1" 7%Q)) bancoComWidget
       = (db', Lancou (BadRequestException mensagem))
       /\ contem "Widget" mensagem
       /\ contem "5" mensagem
       /\ produtos db' = produtos bancoComWidget
       /\ itens db' = itens bancoComWidget.
Proof.
  split; [reflexivity|]. split; [reflexivity|].
  destruct (C6_estoque_insuficiente Qred bancoComWidget "c2" "i1"
              (AdicionarItemDto.mk "p1" 7%Q) (Produto.mk "p1" "Widget" 10%Q 5)
              eq_refl (fun _ => eq_refl) eq_refl eq_refl)
    as (db' & m & H1 & _ & H2 & H3 & H4 & H5).
  exists db', m. repeat split; assumption.
Defined.

(** C8 at: three Widgets added to the empty cart, then removed. *)
Lemma C8_adicionar_e_remover_witness :
  integro bancoComWidget = true
  /\ validarAdicionarItemDto tresWidgets = true
  /\ toInt4 3%Q = Some 3
  /\ 3 <= 5
  /\ temId ItemCarrinho.id "i1" (itens bancoComWidget) = false
  /\ exists db1 r1 db2 r2,
       executar (adicionarItem Qred "c2" "i1" tresWidgets) bancoComWidget = (db1, Ok r1)
       /\ executar (removerItem Qred "c3" "p1") db1 = (db2, Ok r2)
       /\ acharPor Produto.id "p1" (produtos db2) = Some (Produto.mk "p1" "Widget" 10%Q 5)
       /\ itens db2 = [].
Proof.
  split; [reflexivity|]. split; [reflexivity|]. split; [reflexivity|].
  split; [lia|]. split; [reflexivity|].
  destruct (C8_adicionar_e_remover Qred bancoComWidget "c2" "i1" "c3" tresWidgets
              (Produto.mk "p1" "Widget" 10%Q 5) 3
              eq_refl eq_refl eq_refl eq_refl ltac:(simpl; lia)
              (fun _ _ => eq_refl) (fun _ => eq_refl) eq_refl)
    as (db1 & r1 & db2 & r2 & p1 & H1 & _ & _ & H2 & H3 & _ & _ & _ & H4).
  exists db1, r1, db2, r2. repeat split; assumption.
Defined.

(** C9 at: the cart with three Widgets at 10 each; the line total and the
    total are 30. *)
Lemma C9_visao_do_carrinho_witness :
  integro bancoComLinha = true
  /\ acharPor Carrinho.usuarioId usuarioId (carrinhos bancoComLinha)
     = Some (Carrinho.mk "c1" "usuario-123")
  /\ executar (verCarrinho Qred "c2") bancoComLinha
     = (bancoComLinha,
        Ok (CarrinhoFormatado.mk "c1" "usuario-123"
              [ItemFormatado.mk "p1" "Widget" 3 10%Q 30%Q] 30%Q)).
Proof.
  split; [reflexivity|]. split; [reflexivity|].
  exact (proj1 (C9_visao_do_carrinho Qred bancoComLinha "c2" (Carrinho.mk "c1" "usuario-123")
                  eq_refl eq_refl)).
Defined.

(** C10 at: no cart yet, and an unknown product is asked for. *)
Lemma C10_carrinho_criado_apesar_da_falha_witness :
  integro bancoVazio = true
  /\ acharPor Carrinho.usuarioId usuarioId (carrinhos bancoVazio) = None
  /\ temId Carrinho.id "c1" (carrinhos bancoVazio) = false
  /\ exists db' m,
       executar (adicionarItem Qred "c1" "i1" tresWidgets) bancoVazio
       = (db', Lancou (NotFoundException m))
       /\ carrinhos db' = [Carrinho.mk "c1" "usuario-123"]
       /\ itensDe "c1" db' = [].
Proof.
  split; [reflexivity|]. split; [reflexivity|]. split; [reflexivity|].
  destruct (C10_carrinho_criado_apesar_da_falha Qred bancoVazio "c1" "i1" tresWidgets
              eq_refl eq_refl eq_refl I)
    as (db' & e & H1 & [m ->] & H2 & _ & H3 & _).
  exists db', m. repeat split; assumption.
Defined.

(** * More of the controller *)

(** ** The catalogue: create, list, get, delete *)

Lemma prisma_eta db : mkPrisma (produtos db) (carrinhos db) (itens db) = db.
Proof. now destruct db. Qed.

Lemma contem_id_nao_encontrado id :
  contem id ("Produto com ID " ++ id ++ " não encontrado.").
Proof. apply contem_prefixo. apply contem_inicio. Qed.

(** [criarProduto] with a name a product already has throws
    [ConflictException], whatever the rest of the body, and writes
    nothing. *)
Lemma criarProduto_nome_repetido db uuid body p :
  acharPor Produto.nome (CriarProdutoDto.nome body) (produtos db) = Some p ->
  executar (criarProduto uuid body) db
  = (db, Lancou (ConflictException "Já existe um produto com este nome.")).
Proof.
  intros H. rewrite executar_criarProduto. now rewrite H.
Qed.

(** X1.  [criarProduto] with a free name and a fresh identifier returns
    the new product, with the stock the store wrote; the product is then
    what [buscarProdutoPorId] returns for its identifier, and [listarTodos]
    lists it with the products that were there; carts and lines are not
    touched.  Creating the same name once more is a conflict, and it
    is the lookup of the method that decides it: the call is over, with
    [ConflictException], after its first await, before any create. *)
Theorem X1_criarProduto_e_consultas db uuid body e :
  acharPor Produto.nome (CriarProdutoDto.nome body) (produtos db) = None ->
  temId Produto.id uuid (produtos db) = false ->
  paraInt (CriarProdutoDto.estoque body) = Some e ->
  exists db',
    let p := Produto.mk uuid (CriarProdutoDto.nome body) (CriarProdutoDto.preco body) e in
    executar (criarProduto uuid body) db
    = (db', Ok (RespostaProduto.mk "Produto criado com sucesso!" p))
    /\ carrinhos db' = carrinhos db /\ itens db' = itens db
    /\ executar (buscarProdutoPorId uuid) db' = (db', Ok p)
    /\ (exists l, executar listarTodos db' = (db', Ok l)
                  /\ Permutation l (p :: produtos db))
    /\ (forall uuid',
          passo (criarProduto uuid' body) db'
          = (db', Lance (ConflictException "Já existe um produto com este nome."))
          /\ executar (criarProduto uuid' body) db'
             = (db', Lancou (ConflictException "Já existe um produto com este nome."))).
Proof.
  intros Hn Hu He.
  exists (mkPrisma (produtos db ++ [Produto.mk uuid (CriarProdutoDto.nome body)
                                     (CriarProdutoDto.preco body) e])
                   (carrinhos db) (itens db)).
  cbv zeta. split; [exact (criarProduto_estoque_qualquer db uuid body e Hn Hu He)|].
  split; [reflexivity|]. split; [reflexivity|]. split; [|split].
  - rewrite executar_buscarProdutoPorId. cbn [produtos]. rewrite acharPor_app.
    assert (acharPor Produto.id uuid (produtos db) = None) as ->.
    { apply acharPor_None. now apply temId_false. }
    unfold acharPor. simpl. now rewrite String.eqb_refl.
  - eexists. split; [reflexivity|]. cbn [produtos].
    apply Permutation_sym, Permutation_cons_append.
  - intros uuid'.
    assert (acharPor Produto.nome (CriarProdutoDto.nome body)
              (produtos db ++ [Produto.mk uuid (CriarProdutoDto.nome body)
                                 (CriarProdutoDto.preco body) e])
            = Some (Produto.mk uuid (CriarProdutoDto.nome body)
                      (CriarProdutoDto.preco body) e)) as Hja.
    { rewrite acharPor_app, Hn. unfold acharPor. simpl. now rewrite String.eqb_refl. }
    split.
    + unfold criarProduto, produto_findUnique_nome.
      cbn [tarefa_bind await passo produtos]. now rewrite Hja.
    + rewrite executar_criarProduto. cbn [produtos]. now rewrite Hja.
Qed.

(** X2.  In a consistent database, creating a product and deleting it at
    once gives the database back as it was, and the identifier is then not
    found. *)
Theorem X2_criar_e_remover_produto db uuid body e :
  integro db = true ->
  acharPor Produto.nome (CriarProdutoDto.nome body) (produtos db) = None ->
  temId Produto.id uuid (produtos db) = false ->
  toInt4 (CriarProdutoDto.estoque body) = Some e ->
  exists db1 r m,
    executar (criarProduto uuid body) db = (db1, Ok r)
    /\ executar (removerProduto uuid) db1 = (db, Ok tt)
    /\ executar (buscarProdutoPorId uuid) db = (db, Lancou (NotFoundException m)).
Proof.
  intros H Hn Hu He. apply integro_iff in H.
  assert (acharPor Produto.id uuid (produtos db) = None) as Hid.
  { apply acharPor_None. now apply temId_false. }
  do 3 eexists. split; [|split].
  - exact (criarProduto_estoque_qualquer db uuid body e Hn Hu (paraInt_toInt4 _ _ He)).
  - rewrite executar_removerProduto. unfold produto_delete.
    cbn [produtos itens carrinhos].
    assert (acharPor Produto.id uuid
              (produtos db ++ [Produto.mk uuid (CriarProdutoDto.nome body)
                                 (CriarProdutoDto.preco body) e])
            = Some (Produto.mk uuid (CriarProdutoDto.nome body)
                      (CriarProdutoDto.preco body) e)) as ->.
    { rewrite acharPor_app, Hid. unfold acharPor. simpl. now rewrite String.eqb_refl. }
    assert (temId ItemCarrinho.produtoId uuid (itens db) = false) as ->.
    { apply temId_false. intros Hin. apply in_map_iff in Hin as [i [Hi Hin]].
      apply (fk_item_produto H) in Hin. rewrite Hi in Hin.
      now apply temId_false in Hu. }
    rewrite apagar_app, apagar_ausente by now apply temId_false.
    unfold apagar. simpl. rewrite String.eqb_refl. simpl.
    now rewrite app_nil_r, prisma_eta.
  - rewrite executar_buscarProdutoPorId. now rewrite Hid.
Qed.

(** ** The cart: calls that find nothing *)

Lemma contem_id_fora_do_carrinho id :
  contem id ("Produto com ID " ++ id ++ " não está no carrinho.").
Proof. apply contem_prefixo. apply contem_inicio. Qed.

(** The cart [obterOuCriarCarrinho] hands over has no line of [pid] when the
    cart the owner had, if any, has none. *)
Lemma sem_linha_no_carrinho db uc pid c :
  Integro db ->
  (acharPor Carrinho.usuarioId usuarioId (carrinhos db) = None ->
   temId Carrinho.id uc (carrinhos db) = false) ->
  acharPor Carrinho.usuarioId usuarioId (carrinhos (comCarrinho uc db)) = Some c ->
  (forall c0, acharPor Carrinho.usuarioId usuarioId (carrinhos db) = Some c0 ->
              find (mesmaLinha pid (Carrinho.id c0)) (itens db) = None) ->
  find (mesmaLinha pid (Carrinho.id c)) (itens db) = None.
Proof.
  intros H Hu Hc Hsem. unfold comCarrinho in Hc.
  destruct (acharPor Carrinho.usuarioId usuarioId (carrinhos db)) as [c0|] eqn:Hc0.
  - rewrite Hc0 in Hc. injection Hc as <-. now apply Hsem.
  - cbn [carrinhos] in Hc. rewrite acharPor_app, Hc0 in Hc.
    change (Some (Carrinho.mk uc usuarioId) = Some c) in Hc. injection Hc as <-.
    cbn [Carrinho.id].
    destruct (find _ _) as [i|] eqn:Hi; [|reflexivity]. exfalso.
    apply find_some in Hi as [Hin Hk]. apply andb_true_iff in Hk as [_ Hk].
    apply String.eqb_eq in Hk. apply (fk_item_carrinho H) in Hin.
    rewrite Hk in Hin. apply temId_true in Hin. rewrite (Hu eq_refl) in Hin.
    discriminate.
Qed.

Lemma adicionarItem_desconhecido (arredondar : Q -> number) db uc ui body :
  Integro db ->
  (acharPor Carrinho.usuarioId usuarioId (carrinhos db) = None ->
   temId Carrinho.id uc (carrinhos db) = false) ->
  acharPor Produto.id (AdicionarItemDto.produtoId body) (produtos db) = None ->
  executar (adicionarItem arredondar uc ui body) db
  = (comCarrinho uc db,
     Lancou (NotFoundException
               ("Produto com ID " ++ AdicionarItemDto.produtoId body ++ " não encontrado."))).
Proof.
  intros H Hu Hp.
  destruct (carrinho_pronto _ uc H Hu) as (c & l & He & _ & _).
  now rewrite adicionarItem_passos, He, comCarrinho_produtos, Hp.
Qed.

Lemma removerItem_ausente (arredondar : Q -> number) db uc pid :
  Integro db ->
  (acharPor Carrinho.usuarioId usuarioId (carrinhos db) = None ->
   temId Carrinho.id uc (carrinhos db) = false) ->
  (forall c, acharPor Carrinho.usuarioId usuarioId (carrinhos db) = Some c ->
             find (mesmaLinha pid (Carrinho.id c)) (itens db) = None) ->
  executar (removerItem arredondar uc pid) db
  = (comCarrinho uc db,
     Lancou (NotFoundException ("Produto com ID " ++ pid ++ " não está no carrinho."))).
Proof.
  intros H Hu Hsem.
  destruct (carrinho_pronto _ uc H Hu) as (c & l & He & Hc & Hl).
  pose proof (sem_linha_no_carrinho db uc pid c H Hu Hc Hsem) as Hnone.
  rewrite removerItem_passos, He. cbn [CarrinhoComItens.itens].
  pose proof (find_no_carrinho db _ _ pid Hl) as Hf. rewrite Hnone in Hf.
  destruct (find _ l) as [ip|]; [discriminate|reflexivity].
Qed.

(** X4.  [adicionarItem] for a product identifier that no product has throws
    [NotFoundException] with the identifier in the message; products and
    lines stay as they were, whether the owner had a cart or not. *)
Theorem X4_adicionarItem_produto_desconhecido (arredondar : Q -> number) db uc ui body :
  integro db = true ->
  (acharPor Carrinho.usuarioId usuarioId (carrinhos db) = None ->
   temId Carrinho.id uc (carrinhos db) = false) ->
  acharPor Produto.id (AdicionarItemDto.produtoId body) (produtos db) = None ->
  exists db' m,
    executar (adicionarItem arredondar uc ui body) db = (db', Lancou (NotFoundException m))
    /\ contem (AdicionarItemDto.produtoId body) m
    /\ produtos db' = produtos db /\ itens db' = itens db.
Proof.
  intros H Hu Hp. apply integro_iff in H.
  exists (comCarrinho uc db). eexists.
  split; [exact (adicionarItem_desconhecido arredondar db uc ui body H Hu Hp)|].
  split; [apply contem_id_nao_encontrado|].
  split; [apply comCarrinho_produtos|apply comCarrinho_itens].
Qed.

(** X5.  [removerItem] for a product that has no line in the cart of the
    owner (or when the owner has no cart yet) throws [NotFoundException] with
    the identifier in the message and leaves products and lines as they
    were: a removal never succeeds silently. *)
Theorem X5_removerItem_fora_do_carrinho (arredondar : Q -> number) db uc pid :
  integro db = true ->
  (acharPor Carrinho.usuarioId usuarioId (carrinhos db) = None ->
   temId Carrinho.id uc (carrinhos db) = false) ->
  (forall c, acharPor Carrinho.usuarioId usuarioId (carrinhos db) = Some c ->
             find (mesmaLinha pid (Carrinho.id c)) (itens db) = None) ->
  exists db' m,
    executar (removerItem arredondar uc pid) db = (db', Lancou (NotFoundException m))
    /\ contem pid m
    /\ produtos db' = produtos db /\ itens db' = itens db.
Proof.
  intros H Hu Hsem. apply integro_iff in H.
  exists (comCarrinho uc db). eexists.
  split; [exact (removerItem_ausente arredondar db uc pid H Hu Hsem)|].
  split; [apply contem_id_fora_do_carrinho|].
  split; [apply comCarrinho_produtos|apply comCarrinho_itens].
Qed.

(** ** The cart: removing a line *)


(** X6.  [removerItem] for a product that has a line in the cart of the
    owner, whatever the quantity of the line: it returns, the whole quantity
    goes back to the stock of the product, the line is deleted and no other
    line is; a second [removerItem] for the same product throws
    [NotFoundException]. *)
Theorem X6_removerItem_devolve_tudo (arredondar : Q -> number) db uc uc' pid c i p :
  integro db = true ->
  acharPor Carrinho.usuarioId usuarioId (carrinhos db) = Some c ->
  find (mesmaLinha pid (Carrinho.id c)) (itens db) = Some i ->
  acharPor Produto.id pid (produtos db) = Some p ->
  int4 (Produto.estoque p + ItemCarrinho.quantidade i) = true ->
  exists db1 r m,
    executar (removerItem arredondar uc pid) db = (db1, Ok r)
    /\ acharPor Produto.id pid (produtos db1)
       = Some (comEstoque p (Produto.estoque p + ItemCarrinho.quantidade i))
    /\ itens db1 = apagar ItemCarrinho.id (ItemCarrinho.id i) (itens db)
    /\ (forall j, In j (itens db) -> j <> i -> In j (itens db1))
    /\ find (mesmaLinha pid (Carrinho.id c)) (itens db1) = None
    /\ executar (removerItem arredondar uc' pid) db1
       = (db1, Lancou (NotFoundException m)).
Proof.
  intros H Hc Hi Hp Hr. apply integro_iff in H.
  pose proof (removerItem_sucesso arredondar db uc pid c i p H Hc Hi Hp Hr) as Hrm.
  set (db1 := aposRemover db p i) in *.
  assert (Integro db1) as H1.
  { pose proof (Integro_atender arredondar db (DeleteCarrinhoRemover uc pid) H) as H1.
    unfold atender, rota in H1. now rewrite fst_executar_bind_Retorne, Hrm in H1. }
  destruct (acharPor_Some _ _ _ _ Hp) as [Hpin Hpid].
  assert (find (mesmaLinha pid (Carrinho.id c)) (itens db1) = None) as Hnone.
  { apply find_apagar_linha; [apply H|assumption]. }
  assert (acharPor Carrinho.usuarioId usuarioId (carrinhos db1) = Some c) as Hc1 by exact Hc.
  exists db1. do 2 eexists. split; [exact Hrm|]. split; [|split; [|split; [|split]]].
  - unfold db1, aposRemover. cbn [produtos].
    rewrite Hpid, acharPor_substituir by exact Hpid. now rewrite String.eqb_refl.
  - reflexivity.
  - intros j Hj Hne. unfold db1, aposRemover. cbn [itens].
    apply In_apagar. split; [assumption|]. intros E. apply Hne.
    apply find_some in Hi as [Hi _].
    apply (NoDup_map_unico ItemCarrinho.id (itens db)); auto. apply H.
  - exact Hnone.
  - pose proof (removerItem_ausente arredondar db1 uc' pid H1
                  (fun E => ltac:(congruence))) as Hb.
    assert (comCarrinho uc' db1 = db1) as Hcc by (unfold comCarrinho; now rewrite Hc1).
    rewrite Hcc in Hb. apply Hb.
    intros c0 Hc0. rewrite Hc1 in Hc0. injection Hc0 as <-. exact Hnone.
Qed.

(** ** What a request leaves alone *)

Lemma Quadro_consulta_ret ps ls A (a : A) : Preserva (Quadro ps ls) (consulta_ret a).
Proof. intros db H. exact H. Qed.

Lemma Quadro_carrinho_findUnique ps ls u : Preserva (Quadro ps ls) (carrinho_findUnique u).
Proof.
  intros db H. unfold carrinho_findUnique.
  destruct (acharPor _ _ _) as [c|]; [|exact H].
  unfold consulta_bind, incluir. now destruct (comProdutos _ _).
Qed.

Lemma Quadro_carrinho_create ps ls uuid u : Preserva (Quadro ps ls) (carrinho_create uuid u).
Proof.
  intros db H. unfold carrinho_create.
  destruct (_ || _); [exact H|]. rewrite fst_incluir. exact H.
Qed.

Lemma Quadro_obterOuCriarCarrinho uc db :
  Quadro (produtos db) (itens db) (fst (executar (obterOuCriarCarrinho uc) db)).
Proof.
  apply Seguro_executar; [|split; reflexivity].
  unfold obterOuCriarCarrinho.
  apply Seguro_bind; [apply Seguro_await, Quadro_carrinho_findUnique|].
  intros [c|]; [apply Seguro_Retorne|].
  apply Seguro_bind; [apply Seguro_await, Quadro_carrinho_create|].
  intros c. apply Seguro_Retorne.
Qed.

Lemma transaction_Lancou A (c : Consulta A) db db' e :
  transaction c db = (db', Lancou e) -> db' = db.
Proof.
  unfold transaction. destruct (c db) as [d [a|e']]; intros [=]; subst; reflexivity.
Qed.

Lemma snd_executar_bind_Retorne A B (t : Tarefa A) (g : A -> B) db e :
  snd (executar (tarefa_bind t (fun x => Retorne (g x))) db) = Lancou e ->
  snd (executar t db) = Lancou e.
Proof.
  rewrite executar_bind. destruct (executar t db) as [db' [a|e']]; simpl; intros H;
    [discriminate H|now injection H as ->].
Qed.

Lemma adicionarItem_Lancou arredondar uc ui body db e :
  snd (executar (adicionarItem arredondar uc ui body) db) = Lancou e ->
  Quadro (produtos db) (itens db) (fst (executar (adicionarItem arredondar uc ui body) db)).
Proof.
  rewrite adicionarItem_passos. pose proof (Quadro_obterOuCriarCarrinho uc db) as Hq.
  destruct (executar (obterOuCriarCarrinho uc) db) as [db1 [c|e1]]; [|intros _; exact Hq].
  destruct (acharPor _ _ _) as [p|]; [|intros _; exact Hq].
  destruct (number_lt _ _); [intros _; exact Hq|].
  destruct (transaction _ db1) as [db2 [r|e2]] eqn:Ht; simpl; [discriminate|].
  intros _. apply transaction_Lancou in Ht. now subst.
Qed.

Lemma removerItem_Lancou arredondar uc pid db e :
  snd (executar (removerItem arredondar uc pid) db) = Lancou e ->
  Quadro (produtos db) (itens db) (fst (executar (removerItem arredondar uc pid) db)).
Proof.
  rewrite removerItem_passos. pose proof (Quadro_obterOuCriarCarrinho uc db) as Hq.
  destruct (executar (obterOuCriarCarrinho uc) db) as [db1 [c|e1]]; [|intros _; exact Hq].
  destruct (find _ _) as [i|]; [|intros _; exact Hq].
  destruct (transaction _ db1) as [db2 [r|e2]] eqn:Ht; simpl; [discriminate|].
  intros _. apply transaction_Lancou in Ht. now subst.
Qed.

(** X7.  A request that ends with an exception, whichever the route and the
    exception, has written nothing to the products and nothing to the lines
    of the carts: of the two writes of a transaction either both are made or
    none. *)
Theorem X7_excecao_nao_escreve (arredondar : Q -> number) db r e :
  snd (executar (rota arredondar r) db) = Lancou e ->
  produtos (atender arredondar db r) = produtos db
  /\ itens (atender arredondar db r) = itens db.
Proof.
  unfold atender.
  destruct r as [uuid body| |id|id body|id|uc ui body|uc|uc pid]; unfold rota; intros He;
    apply snd_executar_bind_Retorne in He;
    rewrite ?(fst_executar_bind_Retorne _ _ _ (fun _ => RVazio)), ?fst_executar_bind_Retorne.
  - rewrite executar_criarProduto in *.
    destruct (acharPor _ _ _); [split; reflexivity|].
    unfold produto_create in *.
    destruct (paraInt _); [|split; reflexivity].
    destruct (_ || _); [split; reflexivity|discriminate].
  - discriminate.
  - rewrite executar_buscarProdutoPorId. destruct (acharPor _ _ _); split; reflexivity.
  - rewrite executar_atualizarProduto in *.
    destruct (acharPor _ _ _) as [atual|] eqn:Ha; [|split; reflexivity].
    destruct (_ =? _)%nat; [split; reflexivity|].
    unfold produto_update in *. rewrite Ha in *.
    destruct (intOpcional _); [|split; reflexivity].
    destruct (nomeDeOutro _ _ _); [split; reflexivity|discriminate].
  - rewrite executar_removerProduto in *.
    destruct (acharPor _ _ _) as [atual|] eqn:Ha; [|split; reflexivity].
    unfold produto_delete in *. rewrite Ha in *.
    destruct (temId _ _ _); [split; reflexivity|discriminate].
  - exact (adicionarItem_Lancou arredondar uc ui body db e He).
  - unfold verCarrinho. rewrite fst_executar_bind_Retorne.
    exact (Quadro_obterOuCriarCarrinho uc db).
  - exact (removerItem_Lancou arredondar uc pid db e He).
Qed.

(** X8.  The routes under [/produtos] (create, list, get, update, delete)
    never touch the carts or their lines, whatever the body and whether they
    return or throw. *)
Theorem X8_produtos_nao_tocam_carrinho (arredondar : Q -> number) db r :
  rotaDeProdutos r = true ->
  carrinhos (atender arredondar db r) = carrinhos db
  /\ itens (atender arredondar db r) = itens db.
Proof.
  unfold atender.
  destruct r as [uuid body| |id|id body|id|uc ui body|uc|uc pid]; try discriminate;
    intros _; unfold rota;
    rewrite ?(fst_executar_bind_Retorne _ _ _ (fun _ => RVazio)), ?fst_executar_bind_Retorne.
  - rewrite executar_criarProduto.
    destruct (acharPor _ _ _); [split; reflexivity|].
    unfold produto_create.
    destruct (paraInt _); [|split; reflexivity].
    destruct (_ || _); split; reflexivity.
  - split; reflexivity.
  - rewrite executar_buscarProdutoPorId. destruct (acharPor _ _ _); split; reflexivity.
  - rewrite executar_atualizarProduto.
    destruct (acharPor _ _ _) as [atual|] eqn:Ha; [|split; reflexivity].
    destruct (_ =? _)%nat; [split; reflexivity|].
    unfold produto_update. rewrite Ha.
    destruct (intOpcional _); [|split; reflexivity].
    destruct (nomeDeOutro _ _ _); split; reflexivity.
  - rewrite executar_removerProduto.
    destruct (acharPor _ _ _) as [atual|] eqn:Ha; [|split; reflexivity].
    unfold produto_delete. rewrite Ha.
    destruct (temId _ _ _); split; reflexivity.
Qed.

Lemma filter_apagar_fora (f : ItemCarrinho.t -> bool) l i :
  NoDup (map ItemCarrinho.id l) -> In i l -> f i = false ->
  filter f (apagar ItemCarrinho.id (ItemCarrinho.id i) l) = filter f l.
Proof.
  intros Hnd Hin Hi. unfold apagar.
  induction l as [|y l IH]; simpl; [reflexivity|].
  inversion Hnd as [|? ? Hy Hnd']; subst.
  destruct (String.eqb_spec (ItemCarrinho.id y) (ItemCarrinho.id i)) as [E|E]; simpl.
  - assert (y = i) as ->.
    { destruct Hin as [Hin|Hin]; [assumption|].
      exfalso. apply Hy. rewrite E. now apply in_map. }
    rewrite Hi. fold (apagar ItemCarrinho.id (ItemCarrinho.id i) l).
    now rewrite apagar_ausente.
  - destruct Hin as [Hin|Hin]; [congruence|].
    rewrite (IH Hnd' Hin). reflexivity.
Qed.

Lemma filter_substituir_fora (f : ItemCarrinho.t -> bool) l i i' :
  NoDup (map ItemCarrinho.id l) -> In i l -> f i = false -> f i' = false ->
  filter f (substituir ItemCarrinho.id (ItemCarrinho.id i) i' l) = filter f l.
Proof.
  intros Hnd Hin Hi Hi'. unfold substituir. rewrite filter_app. simpl. rewrite Hi'.
  rewrite app_nil_r. now apply filter_apagar_fora.
Qed.

(** X9.  In a consistent database the routes of the cart change nothing of
    a product but its stock: under every identifier the table of products
    holds, after the request, a product of the same name and price as
    before, or none as before. *)
Theorem X9_carrinho_so_muda_estoque (arredondar : Q -> number) db r id :
  integro db = true ->
  rotaDeProdutos r = false ->
  option_map fichaDoProduto (acharPor Produto.id id (produtos (atender arredondar db r)))
  = option_map fichaDoProduto (acharPor Produto.id id (produtos db)).
Proof.
  intros H Hr. apply integro_iff in H.
  pose proof (atender_Efeito arredondar db r H) as He.
  destruct r as [uuid body| |id0|id0 body|id0|uc ui body|uc|uc pid]; try discriminate;
    inversion He as [r0 d d' E1 E2|?|?|?|uc0 ui0 b0 d c p n Hn Hp Hle|uc0 pid0 d p i Hi Hpid Hp];
    subst.
  - now rewrite E1.
  - cbn [aposAdicionar produtos]. rewrite comCarrinho_produtos.
    destruct (acharPor_Some _ _ _ _ Hp) as [Hpin Hpid].
    rewrite acharPor_substituir by reflexivity.
    destruct (String.eqb_spec id (Produto.id p)) as [->|E]; [|reflexivity].
    rewrite Hpid, Hp. reflexivity.
  - now rewrite E1.
  - now rewrite E1.
  - cbn [aposRemover produtos]. rewrite comCarrinho_produtos.
    destruct (acharPor_Some _ _ _ _ Hp) as [Hpin Hpid'].
    rewrite acharPor_substituir by reflexivity.
    destruct (String.eqb_spec id (Produto.id p)) as [->|E]; [|reflexivity].
    rewrite Hpid', Hp. reflexivity.
Qed.

(** X10.  In a consistent database a route of the cart that names a product
    leaves every other product as it was: its row, stock included, and its
    lines in all carts. *)
Theorem X10_carrinho_nao_toca_outro_produto (arredondar : Q -> number) db r pid :
  integro db = true ->
  outroProduto pid r = true ->
  acharPor Produto.id pid (produtos (atender arredondar db r))
  = acharPor Produto.id pid (produtos db)
  /\ linhasDe pid (atender arredondar db r) = linhasDe pid db.
Proof.
  intros H Hr. apply integro_iff in H.
  pose proof (atender_Efeito arredondar db r H) as He. unfold linhasDe.
  destruct r as [uuid body| |id|id body|id|uc ui body|uc|uc pid0]; try discriminate;
    cbn [outroProduto] in Hr; try apply negb_true_iff in Hr; try apply String.eqb_neq in Hr;
    inversion He as [r0 d d' E1 E2|?|?|?|uc0 ui0 b0 d c p n Hn Hp Hle|uc0 pid1 d p i Hi Hpid Hp];
    subst.
  - now rewrite E1, E2.
  - cbn [aposAdicionar produtos itens].
    rewrite comCarrinho_produtos, comCarrinho_itens.
    destruct (acharPor_Some _ _ _ _ Hp) as [Hpin Hpid]. split.
    + rewrite acharPor_substituir by reflexivity.
      destruct (String.eqb_spec pid (Produto.id p)); [congruence|reflexivity].
    + destruct (find _ (itens db)) as [i|] eqn:Hi.
      * apply find_some in Hi as [Hi Hk]. apply andb_true_iff in Hk as [Hk _].
        apply String.eqb_eq in Hk.
        apply filter_substituir_fora; [apply H|assumption| |];
          cbn [comQuantidade ItemCarrinho.produtoId]; apply String.eqb_neq; congruence.
      * rewrite filter_app. cbn [filter ItemCarrinho.produtoId].
        destruct (String.eqb_spec (Produto.id p) pid); [congruence|apply app_nil_r].
  - now rewrite E1, E2.
  - now rewrite E1, E2.
  - cbn [aposRemover produtos itens].
    rewrite comCarrinho_produtos, comCarrinho_itens.
    destruct (acharPor_Some _ _ _ _ Hp) as [Hpin Hpid']. split.
    + rewrite acharPor_substituir by reflexivity.
      destruct (String.eqb_spec pid (Produto.id p)); [congruence|reflexivity].
    + apply filter_apagar_fora; [apply H|assumption|].
      apply String.eqb_neq. congruence.
Qed.

(** ** Invariants of every sequence and every interleaving *)

(** X11.  Whatever the requests and their bodies, valid or not, served one
    after the other from a consistent database, the database stays
    consistent: no two products share a name or an identifier, the owner has
    at most one cart, a product has at most one line in a cart, and every
    line points to a product and a cart that exist. *)
Theorem X11_consistencia_em_serie (arredondar : Q -> number) db rs :
  integro db = true ->
  let db' := atenderTodas arredondar db rs in
  integro db' = true
  /\ NoDup (map Produto.nome (produtos db'))
  /\ NoDup (map Carrinho.usuarioId (carrinhos db'))
  /\ (forall i, In i (itens db') ->
                (exists p, acharPor Produto.id (ItemCarrinho.produtoId i) (produtos db')
                           = Some p)
                /\ (exists c, acharPor Carrinho.id (ItemCarrinho.carrinhoId i) (carrinhos db')
                              = Some c)).
Proof.
  intros H db'. apply integro_iff in H.
  pose proof (Integro_atenderTodas arredondar rs db H) as H'. fold db' in H'.
  split; [now apply integro_iff|]. split; [apply H'|]. split; [apply H'|].
  intros i Hi. split; apply acharPor_existe.
  - now apply (fk_item_produto H').
  - now apply (fk_item_carrinho H').
Qed.

(** X12.  The same holds when two requests are served at the same time,
    whichever the two requests and however they take turns at their awaits:
    the database stays consistent (while the stock can go below zero). *)
Theorem X12_consistencia_intercalada (arredondar : Q -> number) db agenda r1 r2 :
  integro db = true ->
  integro (fst (intercalar agenda (rota arredondar r1) (rota arredondar r2) db)) = true.
Proof.
  intros H. apply integro_iff in H. apply integro_iff.
  apply Integro_intercalar; auto using Seguro_rota.
Qed.

Lemma Seguro_intercalar (P : Prisma -> Prop) A B agenda (t1 : Tarefa A) (t2 : Tarefa B) db :
  Seguro P t1 -> Seguro P t2 -> P db -> P (fst (intercalar agenda t1 t2 db)).
Proof.
  revert t1 t2 db. induction agenda as [|[|] agenda IH]; intros t1 t2 db H1 H2 H; simpl.
  - exact H.
  - destruct (Seguro_passo P A t1 db H1 H) as [Hdb Ht].
    destruct (passo t1 db) as [db' t1']. now apply IH.
  - destruct (Seguro_passo P B t2 db H2 H) as [Hdb Ht].
    destruct (passo t2 db) as [db' t2']. now apply IH.
Qed.

Ltac casos :=
  repeat match goal with
         | |- context [match ?x with _ => _ end] => destruct x
         end.

Lemma Mesmos_produto_create cs uuid data : Preserva (MesmosCarrinhos cs) (produto_create uuid data).
Proof. intros db H. unfold produto_create, consulta_erro. casos; exact H. Qed.

Lemma Mesmos_produto_update cs id data : Preserva (MesmosCarrinhos cs) (produto_update id data).
Proof. intros db H. unfold produto_update, consulta_erro. casos; exact H. Qed.

Lemma Mesmos_produto_update_estoque cs id op :
  Preserva (MesmosCarrinhos cs) (produto_update_estoque id op).
Proof. intros db H. unfold produto_update_estoque, consulta_erro. casos; exact H. Qed.

Lemma Mesmos_produto_delete cs id : Preserva (MesmosCarrinhos cs) (produto_delete id).
Proof. intros db H. unfold produto_delete, consulta_erro. casos; exact H. Qed.

Lemma Mesmos_leitura cs A (f : Prisma -> A) :
  Preserva (MesmosCarrinhos cs) (fun db => (db, Ok (f db))).
Proof. intros db H. exact H. Qed.

Lemma Mesmos_carrinho_findUnique cs u : Preserva (MesmosCarrinhos cs) (carrinho_findUnique u).
Proof.
  intros db H. unfold carrinho_findUnique.
  destruct (acharPor _ _ _) as [c|]; [|exact H].
  unfold consulta_bind, incluir. now destruct (comProdutos _ _).
Qed.

Lemma Mesmos_carrinho_create cs c uuid :
  acharPor Carrinho.usuarioId usuarioId cs = Some c ->
  Preserva (MesmosCarrinhos cs) (carrinho_create uuid usuarioId).
Proof.
  intros Hc db H. unfold carrinho_create. unfold MesmosCarrinhos in H. rewrite H.
  assert (temId Carrinho.usuarioId usuarioId cs = true) as ->.
  { apply temId_true. apply acharPor_Some in Hc as [Hin <-]. now apply in_map. }
  rewrite orb_true_r. exact H.
Qed.

Lemma Mesmos_carrinho_update_upsert cs id uuid p q :
  Preserva (MesmosCarrinhos cs) (carrinho_update_upsert id uuid p q).
Proof.
  intros db H. unfold carrinho_update_upsert, consulta_erro.
  casos; rewrite ?fst_incluir; exact H.
Qed.

Lemma Mesmos_carrinho_update_delete cs id itemId :
  Preserva (MesmosCarrinhos cs) (carrinho_update_delete id itemId).
Proof.
  intros db H. unfold carrinho_update_delete, consulta_erro.
  casos; rewrite ?fst_incluir; exact H.
Qed.

Lemma Seguro_rota_carrinhos arredondar cs c r :
  acharPor Carrinho.usuarioId usuarioId cs = Some c ->
  Seguro (MesmosCarrinhos cs) (rota arredondar r).
Proof.
  intros Hc.
  pose proof (Mesmos_carrinho_create cs c) as Hcreate. specialize (Hcreate).
  assert (forall uc, Seguro (MesmosCarrinhos cs) (obterOuCriarCarrinho uc)) as Hobter.
  { intros uc. unfold obterOuCriarCarrinho.
    apply Seguro_bind; [apply Seguro_await, Mesmos_carrinho_findUnique|].
    intros [c0|]; [apply Seguro_Retorne|].
    apply Seguro_bind; [apply Seguro_await; now apply Hcreate|].
    intros c0. apply Seguro_Retorne. }
  assert (forall id, Seguro (MesmosCarrinhos cs) (buscarProdutoPorId id)) as Hbuscar.
  { intros id. unfold buscarProdutoPorId.
    apply Seguro_bind; [apply Seguro_await; intros db H; exact H|].
    intros [p|]; constructor. }
  destruct r as [uuid body| |id|id body|id|uc ui body|uc|uc pid]; unfold rota;
    apply Seguro_bind; try (intros; apply Seguro_Retorne).
  - unfold criarProduto.
    apply Seguro_bind; [apply Seguro_await; intros db H; exact H|].
    intros [p|]; [apply Seguro_Lance|].
    apply Seguro_bind; [apply Seguro_await, Mesmos_produto_create|].
    intros; apply Seguro_Retorne.
  - apply Seguro_await. intros db H. exact H.
  - apply Hbuscar.
  - unfold atualizarProduto. apply Seguro_bind; [apply Hbuscar|]. intros _.
    destruct (_ =? _)%nat; [apply Seguro_Lance|].
    apply Seguro_bind; [apply Seguro_await, Mesmos_produto_update|].
    intros; apply Seguro_Retorne.
  - unfold removerProduto. apply Seguro_bind; [apply Hbuscar|]. intros _.
    apply Seguro_bind; [apply Seguro_await, Mesmos_produto_delete|].
    intros; apply Seguro_Retorne.
  - unfold adicionarItem. apply Seguro_bind; [apply Hobter|]. intros carrinho.
    apply Seguro_bind; [apply Seguro_await; intros db H; exact H|].
    intros [p|]; [|apply Seguro_Lance].
    destruct (number_lt _ _); [apply Seguro_Lance|].
    apply Seguro_bind; [|intros; apply Seguro_Retorne].
    apply Seguro_await, Preserva_transaction, Preserva_bind;
      [apply Mesmos_produto_update_estoque|].
    intros p'. apply Preserva_bind; [apply Mesmos_carrinho_update_upsert|].
    intros c'. apply Preserva_ret.
  - unfold verCarrinho. apply Seguro_bind; [apply Hobter|].
    intros; apply Seguro_Retorne.
  - unfold removerItem. apply Seguro_bind; [apply Hobter|]. intros carrinho.
    destruct (find _ _) as [i|]; [|apply Seguro_Lance].
    apply Seguro_bind; [|intros; apply Seguro_Retorne].
    apply Seguro_await, Preserva_transaction, Preserva_bind;
      [apply Mesmos_produto_update_estoque|].
    intros p'. apply Preserva_bind; [apply Mesmos_carrinho_update_delete|].
    intros c'. apply Preserva_ret.
Qed.

(** X13.  Once the owner has a cart, a request served to its end leaves
    the table of carts as it is, however it ends; and so do two requests
    served at the same time, whatever the turns they take, once both have
    ended: no route deletes or replaces the cart, and
    [obterOuCriarCarrinho] creates no second one. *)
Theorem X13_carrinho_permanece (arredondar : Q -> number) db c :
  acharPor Carrinho.usuarioId usuarioId (carrinhos db) = Some c ->
  (forall r db' res,
      executar (rota arredondar r) db = (db', res) -> carrinhos db' = carrinhos db)
  /\ (forall agenda r1 r2 db' t1 t2 res1 res2,
         intercalar agenda (rota arredondar r1) (rota arredondar r2) db = (db', (t1, t2)) ->
         desfecho t1 = Some res1 -> desfecho t2 = Some res2 ->
         carrinhos db' = carrinhos db).
Proof.
  intros Hc. split.
  - intros r db' res Hex.
    pose proof (Seguro_executar (MesmosCarrinhos (carrinhos db)) _ (rota arredondar r) db
                  (Seguro_rota_carrinhos arredondar (carrinhos db) c r Hc) eq_refl) as H.
    now rewrite Hex in H.
  - intros agenda r1 r2 db' t1 t2 res1 res2 Hex _ _.
    pose proof (Seguro_intercalar (MesmosCarrinhos (carrinhos db)) _ _ agenda
                  (rota arredondar r1) (rota arredondar r2) db
                  (Seguro_rota_carrinhos arredondar (carrinhos db) c r1 Hc)
                  (Seguro_rota_carrinhos arredondar (carrinhos db) c r2 Hc) eq_refl) as H.
    now rewrite Hex in H.
Qed.

(** ** The view of the cart, again *)

Lemma verCarrinho_existente (arredondar : Q -> number) db uc c :
  Integro db ->
  acharPor Carrinho.usuarioId usuarioId (carrinhos db) = Some c ->
  executar (verCarrinho arredondar uc) db
  = (db, Ok (formatarCarrinho arredondar (CarrinhoComItens.mk c (carregado c db)))).
Proof.
  intros H Hc. destruct (obterOuCriarCarrinho_existente db uc c H Hc) as [l [Hl He]].
  unfold verCarrinho. rewrite executar_bind, He. unfold carregado. now rewrite Hl.
Qed.

Lemma adicionarItem_Ok (arredondar : Q -> number) db uc ui body db' r :
  Integro db ->
  executar (adicionarItem arredondar uc ui body) db = (db', Ok r) ->
  exists c, acharPor Carrinho.usuarioId usuarioId (carrinhos db') = Some c
            /\ Integro db'
            /\ RespostaCarrinho.carrinho r
               = formatarCarrinho arredondar (CarrinhoComItens.mk c (carregado c db')).
Proof.
  intros H Hex.
  assert (Integro db') as H'.
  { pose proof (Integro_atender arredondar db (PostCarrinhoAdicionar uc ui body) H) as H'.
    unfold atender, rota in H'. now rewrite fst_executar_bind_Retorne, Hex in H'. }
  rewrite adicionarItem_passos in Hex.
  destruct (obterOuCriarCarrinho_spec db uc H) as [(c & l & He & Hc & Hl)|(He & _)];
    rewrite He in Hex; [|discriminate].
  assert (Integro (comCarrinho uc db)) as H1.
  { pose proof (Seguro_executar _ _ _ db (Seguro_obterOuCriarCarrinho uc) H) as H1.
    now rewrite He in H1. }
  exists c.
  destruct (acharPor Produto.id _ (produtos (comCarrinho uc db))) as [p|] eqn:Hp;
    [|discriminate].
  destruct (number_lt _ _); [discriminate|].
  cbn [CarrinhoComItens.carrinho] in Hex.
  destruct (paraInt (AdicionarItemDto.quantidade body)) as [n|] eqn:Hn.
  - rewrite (transacao_adicionar _ c p ui _ _ n H1 Hn Hp (acharPor_carrinho_id _ _ _ Hc H1))
      in Hex.
    destruct (int4 (Produto.estoque p + - n)); [|discriminate].
    destruct (find _ _) as [i|].
    + destruct (int4 _); [|discriminate]. injection Hex as <- <-. auto.
    + destruct (temId _ _ _); [discriminate|]. injection Hex as <- <-. auto.
  - unfold transaction, consulta_bind, produto_update_estoque in Hex. cbn [variacao] in Hex.
    rewrite Hn in Hex. discriminate.
Qed.

Lemma removerItem_Ok (arredondar : Q -> number) db uc pid db' r :
  Integro db ->
  executar (removerItem arredondar uc pid) db = (db', Ok r) ->
  exists c, acharPor Carrinho.usuarioId usuarioId (carrinhos db') = Some c
            /\ Integro db'
            /\ RespostaCarrinho.carrinho r
               = formatarCarrinho arredondar (CarrinhoComItens.mk c (carregado c db')).
Proof.
  intros H Hex.
  assert (Integro db') as H'.
  { pose proof (Integro_atender arredondar db (DeleteCarrinhoRemover uc pid) H) as H'.
    unfold atender, rota in H'. now rewrite fst_executar_bind_Retorne, Hex in H'. }
  rewrite removerItem_passos in Hex.
  destruct (obterOuCriarCarrinho_spec db uc H) as [(c & l & He & Hc & Hl)|(He & _)];
    rewrite He in Hex; [|discriminate].
  assert (Integro (comCarrinho uc db)) as H1.
  { pose proof (Seguro_executar _ _ _ db (Seguro_obterOuCriarCarrinho uc) H) as H1.
    now rewrite He in H1. }
  exists c. cbn [CarrinhoComItens.itens CarrinhoComItens.carrinho] in Hex.
  pose proof (find_no_carrinho db _ _ pid Hl) as Hf.
  destruct (find _ l) as [ip|]; [|discriminate].
  simpl in Hf. symmetry in Hf. apply find_some in Hf as [Hi Hk].
  apply andb_true_iff in Hk as [Hk1 Hk2]. apply String.eqb_eq in Hk1, Hk2.
  set (i := ItemComProduto.item ip) in *.
  destruct (acharPor_existe Produto.id _ _ (fk_item_produto H _ Hi)) as [p Hp].
  rewrite <- Hk1 in Hex.
  rewrite (transacao_remover (comCarrinho uc db) c p i) in Hex; auto.
  - destruct (int4 _); [|discriminate]. injection Hex as <- <-. auto.
  - now rewrite comCarrinho_itens.
  - now apply acharPor_carrinho_id with (u := usuarioId).
  - now rewrite comCarrinho_produtos.
Qed.

(** X14.  What a successful [adicionarItem] or [removerItem] returns as
    [carrinho] is the view of the cart: a [verCarrinho] served right after
    returns the same and changes nothing. *)
Theorem X14_resposta_e_a_visao (arredondar : Q -> number) db :
  integro db = true ->
  (forall uc ui body db' r uc',
      executar (adicionarItem arredondar uc ui body) db = (db', Ok r) ->
      executar (verCarrinho arredondar uc') db' = (db', Ok (RespostaCarrinho.carrinho r)))
  /\ (forall uc pid db' r uc',
         executar (removerItem arredondar uc pid) db = (db', Ok r) ->
         executar (verCarrinho arredondar uc') db' = (db', Ok (RespostaCarrinho.carrinho r))).
Proof.
  intros H. apply integro_iff in H. split.
  - intros uc ui body db' r uc' Hex.
    destruct (adicionarItem_Ok arredondar db uc ui body db' r H Hex) as (c & Hc & H' & ->).
    now apply verCarrinho_existente.
  - intros uc pid db' r uc' Hex.
    destruct (removerItem_Ok arredondar db uc pid db' r H Hex) as (c & Hc & H' & ->).
    now apply verCarrinho_existente.
Qed.

(** X15.  The first [verCarrinho] of an owner without cart creates the cart
    and returns it empty, with total zero; every [verCarrinho] after it
    returns the same view and changes nothing. *)
Theorem X15_verCarrinho_primeira_vez (arredondar : Q -> number) db uc :
  integro db = true ->
  acharPor Carrinho.usuarioId usuarioId (carrinhos db) = None ->
  temId Carrinho.id uc (carrinhos db) = false ->
  exists db1,
    executar (verCarrinho arredondar uc) db
    = (db1, Ok (CarrinhoFormatado.mk uc usuarioId [] 0%Q))
    /\ carrinhos db1 = (carrinhos db ++ [Carrinho.mk uc usuarioId])%list
    /\ produtos db1 = produtos db /\ itens db1 = itens db
    /\ (forall uc', executar (verCarrinho arredondar uc') db1
                    = (db1, Ok (CarrinhoFormatado.mk uc usuarioId [] 0%Q))).
Proof.
  intros H Hc Hu. apply integro_iff in H.
  set (db1 := mkPrisma (produtos db) (carrinhos db ++ [Carrinho.mk uc usuarioId]) (itens db)).
  assert (executar (obterOuCriarCarrinho uc) db
          = (db1, Ok (CarrinhoComItens.mk (Carrinho.mk uc usuarioId) []))) as He.
  { rewrite (obterOuCriarCarrinho_novo db uc H Hc). now rewrite Hu. }
  assert (Integro db1) as H1.
  { pose proof (Seguro_executar _ _ _ db (Seguro_obterOuCriarCarrinho uc) H) as H1.
    now rewrite He in H1. }
  assert (acharPor Carrinho.usuarioId usuarioId (carrinhos db1)
          = Some (Carrinho.mk uc usuarioId)) as Hc1.
  { unfold db1. cbn [carrinhos]. rewrite acharPor_app, Hc. reflexivity. }
  exists db1. split; [|split; [reflexivity|split; [reflexivity|split; [reflexivity|]]]].
  - unfold verCarrinho. rewrite executar_bind, He. reflexivity.
  - intros uc'. rewrite (verCarrinho_existente arredondar db1 uc' _ H1 Hc1).
    unfold carregado.
    assert (itensDe uc db1 = []) as Hv.
    { change (itensDe uc db = []).
      apply itensDe_ausente; [assumption|now apply temId_false]. }
    cbn [Carrinho.id]. rewrite Hv. reflexivity.
Qed.

Lemma fold_total_exato (arredondar : Q -> number) l accR accE :
  (forall x y, x == y -> arredondar x == arredondar y)%Q ->
  (accR == accE)%Q ->
  Forall (fun v => arredondar v == v)%Q (valoresDoTotal accE l) ->
  (fold_left
     (fun acc item =>
        number_add arredondar acc
          (number_mul arredondar (ofInt (ItemCarrinho.quantidade (ItemComProduto.item item)))
             (Produto.preco (ItemComProduto.produto item))))
     l accR == accE + somaExata l)%Q.
Proof.
  intros Hp. revert accR accE. induction l as [|i l IH]; intros accR accE Hacc Hv; simpl.
  - now rewrite Qplus_0_r.
  - cbn [valoresDoTotal] in Hv.
    inversion Hv as [|v1 l1 Hv1 Hv']; subst. inversion Hv' as [|v2 l2 Hv2 Hv'']; subst.
    set (v := (inject_Z (ItemCarrinho.quantidade (ItemComProduto.item i))
               * Produto.preco (ItemComProduto.produto i))%Q) in *.
    rewrite (IH _ (accE + v)%Q); [ring| |assumption].
    unfold number_add, number_mul, ofInt. fold v.
    rewrite <- Hv2. apply Hp. now rewrite Hv1, Hacc.
Qed.

Lemma In_valoresDoTotal acc l i :
  In i l ->
  In (inject_Z (ItemCarrinho.quantidade (ItemComProduto.item i))
      * Produto.preco (ItemComProduto.produto i))%Q (valoresDoTotal acc l).
Proof.
  revert acc. induction l as [|j l IH]; intros acc Hi; [contradiction|].
  destruct Hi as [->|Hi]; cbn [valoresDoTotal]; [now left|].
  right. right. now apply IH.
Qed.

(** X16.  When the products of the lines and the sums met on the way are
    numbers the arithmetic does not round (whatever it does to others), the
    total [formatarCarrinho] computes is the sum over the lines of quantity
    times price, and each line total is the quantity times the price of its
    line. *)
Theorem X16_total_exato (arredondar : Q -> number) carrinho :
  (forall x y, x == y -> arredondar x == arredondar y)%Q ->
  Forall (fun v => arredondar v == v)%Q (valoresDoTotal 0 (CarrinhoComItens.itens carrinho)) ->
  (CarrinhoFormatado.total (formatarCarrinho arredondar carrinho)
   == somaExata (CarrinhoComItens.itens carrinho))%Q
  /\ Forall (fun l => (ItemFormatado.totalItem l
                       == inject_Z (ItemFormatado.quantidade l)
                          * ItemFormatado.precoUnitario l)%Q)
            (CarrinhoFormatado.itens (formatarCarrinho arredondar carrinho)).
Proof.
  intros Hp Hv. split.
  - unfold formatarCarrinho. cbn [CarrinhoFormatado.total].
    rewrite (fold_total_exato arredondar _ 0%Q 0%Q Hp (Qeq_refl 0) Hv). ring.
  - unfold formatarCarrinho. cbn [CarrinhoFormatado.itens].
    apply Forall_forall. intros l Hl. apply in_map_iff in Hl as [i [<- Hi]].
    cbn [ItemFormatado.totalItem ItemFormatado.quantidade ItemFormatado.precoUnitario].
    unfold number_mul, ofInt. rewrite Forall_forall in Hv.
    apply Hv. now apply In_valoresDoTotal.
Qed.

(** ** Two requests at the same time: who gets which error *)

(** X17.  Two calls of [criarProduto] with the same free name served at the
    same time, both looking the name up before either creates: the first
    creates the product and returns; the second is stopped by the unique
    index of the store and ends with its error P2002, not with the
    [ConflictException] it throws when served after the first.  One product
    of that name exists. *)
Theorem X17_criarProduto_intercalados db uuidA uuidB body e :
  acharPor Produto.nome (CriarProdutoDto.nome body) (produtos db) = None ->
  temId Produto.id uuidA (produtos db) = false ->
  toInt4 (CriarProdutoDto.estoque body) = Some e ->
  exists db' r,
    intercalar [true; false; true; false]
      (criarProduto uuidA body) (criarProduto uuidB body) db
    = (db', (Retorne r, Lance (PrismaClientError P2002)))
    /\ produtos db'
       = (produtos db ++ [Produto.mk uuidA (CriarProdutoDto.nome body)
                            (CriarProdutoDto.preco body) e])%list
    /\ (exists db1 r1,
          executar (criarProduto uuidA body) db = (db1, Ok r1)
          /\ executar (criarProduto uuidB body) db1
             = (db1, Lancou (ConflictException "Já existe um produto com este nome."))).
Proof.
  intros Hn Hu He. apply paraInt_toInt4 in He.
  assert (temId Produto.nome (CriarProdutoDto.nome body) (produtos db) = false) as Hn'.
  { apply temId_false. now apply acharPor_None. }
  set (p := Produto.mk uuidA (CriarProdutoDto.nome body) (CriarProdutoDto.preco body) e).
  assert (produto_create uuidA body db
          = (mkPrisma (produtos db ++ [p]) (carrinhos db) (itens db), Ok p)) as Hca.
  { unfold produto_create. now rewrite He, Hu, Hn'. }
  assert (produto_create uuidB body (mkPrisma (produtos db ++ [p]) (carrinhos db) (itens db))
          = (mkPrisma (produtos db ++ [p]) (carrinhos db) (itens db),
             Lancou (PrismaClientError P2002))) as Hcb.
  { unfold produto_create. rewrite He. cbn [produtos].
    assert (temId Produto.nome (CriarProdutoDto.nome body) (produtos db ++ [p]) = true) as ->.
    { apply temId_true. rewrite map_app. apply in_or_app. right. now left. }
    now rewrite orb_true_r. }
  do 2 eexists. split; [|split].
  - unfold criarProduto, produto_findUnique_nome.
    cbn [intercalar tarefa_bind await passo]. rewrite Hn.
    cbn [intercalar tarefa_bind await passo]. rewrite Hca.
    cbn [intercalar tarefa_bind await passo]. rewrite Hcb. reflexivity.
  - reflexivity.
  - do 2 eexists. split.
    + rewrite executar_criarProduto, Hn, Hca. reflexivity.
    + rewrite executar_criarProduto. cbn [produtos]. rewrite acharPor_app, Hn.
      unfold acharPor. simpl. now rewrite String.eqb_refl.
Qed.

(** X18.  Two first accesses to the cart served at the same time, both
    looking the cart up before either creates it: the first creates the cart
    and returns the empty view; the second is stopped by the unique index on
    [usuarioId] and ends with the error P2002 of the store.  One cart of the
    owner exists. *)
Theorem X18_primeiro_acesso_intercalado (arredondar : Q -> number) db ucA ucB :
  integro db = true ->
  acharPor Carrinho.usuarioId usuarioId (carrinhos db) = None ->
  temId Carrinho.id ucA (carrinhos db) = false ->
  exists db',
    intercalar [true; false; true; false]
      (verCarrinho arredondar ucA) (verCarrinho arredondar ucB) db
    = (db', (Retorne (CarrinhoFormatado.mk ucA usuarioId [] 0%Q),
             Lance (PrismaClientError P2002)))
    /\ carrinhos db' = (carrinhos db ++ [Carrinho.mk ucA usuarioId])%list.
Proof.
  intros H Hc Hu. apply integro_iff in H.
  set (db1 := mkPrisma (produtos db) (carrinhos db ++ [Carrinho.mk ucA usuarioId]) (itens db)).
  assert (carrinho_findUnique usuarioId db = (db, Ok None)) as Hf.
  { unfold carrinho_findUnique. now rewrite Hc. }
  assert (carrinho_create ucA usuarioId db
          = (db1, Ok (CarrinhoComItens.mk (Carrinho.mk ucA usuarioId) []))) as Hca.
  { unfold carrinho_create. rewrite Hu.
    assert (temId Carrinho.usuarioId usuarioId (carrinhos db) = false) as ->.
    { apply temId_false. now apply acharPor_None. }
    cbn [orb]. unfold incluir. cbn [produtos Carrinho.id].
    change (itensDe ucA (mkPrisma (produtos db) (carrinhos db ++ [Carrinho.mk ucA usuarioId])
                           (itens db))) with (itensDe ucA db).
    rewrite itensDe_ausente; [reflexivity|assumption|now apply temId_false]. }
  assert (carrinho_create ucB usuarioId db1 = (db1, Lancou (PrismaClientError P2002))) as Hcb.
  { unfold carrinho_create.
    assert (temId Carrinho.usuarioId usuarioId (carrinhos db1) = true) as ->.
    { apply temId_true. unfold db1. cbn [carrinhos]. rewrite map_app.
      apply in_or_app. right. now left. }
    now rewrite orb_true_r. }
  exists db1. split; [|reflexivity].
  unfold verCarrinho, obterOuCriarCarrinho.
  cbn [intercalar tarefa_bind await passo]. rewrite Hf.
  cbn [intercalar tarefa_bind await passo]. rewrite Hf.
  cbn [intercalar tarefa_bind await passo]. rewrite Hca.
  cbn [intercalar tarefa_bind await passo]. rewrite Hcb. reflexivity.
Qed.

(** ** Updates and the cart *)

Lemma nomeDeOutro_proprio db p :
  Integro db -> In p (produtos db) ->
  nomeDeOutro (Produto.id p) (Produto.nome p) (produtos db) = false.
Proof.
  intros H Hp. destruct (nomeDeOutro _ _ _) eqn:E; [|reflexivity]. exfalso.
  apply existsb_exists in E as [q [Hq E]]. apply andb_true_iff in E as [E1 E2].
  apply String.eqb_eq in E1. apply negb_true_iff, String.eqb_neq in E2.
  apply E2. f_equal. apply (NoDup_map_unico Produto.nome (produtos db)); auto. apply H.
Qed.

(** X19.  In a consistent database, sending back to [atualizarProduto] the
    name, price and stock a product has is accepted (its own name is no
    conflict): the product returned is the product stored, every identifier
    finds the product it found before, the table of products holds the rows
    it held, and carts and lines are not touched. *)
Theorem X19_atualizar_com_os_mesmos_dados db p :
  integro db = true ->
  In p (produtos db) ->
  exists db',
    executar (atualizarProduto (Produto.id p)
                (AtualizarProdutoDto.mk (Some (Produto.nome p)) (Some (Produto.preco p))
                   (Some (ofInt (Produto.estoque p))))) db
    = (db', Ok (RespostaProduto.mk "Produto atualizado!" p))
    /\ (forall id, acharPor Produto.id id (produtos db') = acharPor Produto.id id (produtos db))
    /\ Permutation (produtos db') (produtos db)
    /\ carrinhos db' = carrinhos db /\ itens db' = itens db.
Proof.
  intros H Hp. apply integro_iff in H.
  pose proof (acharPor_unico Produto.id (produtos db) p (pk_produto H) Hp) as Ha.
  exists (mkPrisma (substituir Produto.id (Produto.id p) p (produtos db))
            (carrinhos db) (itens db)).
  split; [|split; [|split; [|split; reflexivity]]].
  - rewrite executar_atualizarProduto, Ha.
    cbn [Object_keys_length presente Nat.add Nat.eqb
         AtualizarProdutoDto.nome AtualizarProdutoDto.preco AtualizarProdutoDto.estoque].
    rewrite (produto_update_escreve db (Produto.id p) _ p (Some (Produto.estoque p)) Ha).
    + cbn [campo AtualizarProdutoDto.nome AtualizarProdutoDto.preco].
      assert (Produto.mk (Produto.id p) (Produto.nome p) (Produto.preco p)
                (Produto.estoque p) = p) as -> by now destruct p.
      reflexivity.
    + cbn [intOpcional AtualizarProdutoDto.estoque].
      now rewrite (paraInt_ofInt _ (int4_estoque H p Hp)).
    + cbn [campo AtualizarProdutoDto.nome]. now apply nomeDeOutro_proprio.
  - intros id. cbn [produtos]. rewrite acharPor_substituir by reflexivity.
    destruct (String.eqb_spec id (Produto.id p)) as [->|E]; [now rewrite Ha|reflexivity].
  - cbn [produtos]. apply substituir_mesmo; [apply H|assumption].
Qed.

(** X20.  The price of a line is read when the cart is viewed, not when the
    product was added: after [atualizarProduto] gave a product a new price,
    [verCarrinho] shows the line of the product with the new price as unit
    price and the quantity times the new price as line total. *)
Theorem X20_preco_lido_na_hora (arredondar : Q -> number) db uc pid c i atual v :
  integro db = true ->
  acharPor Carrinho.usuarioId usuarioId (carrinhos db) = Some c ->
  find (mesmaLinha pid (Carrinho.id c)) (itens db) = Some i ->
  acharPor Produto.id pid (produtos db) = Some atual ->
  exists db1 r visao,
    executar (atualizarProduto pid (AtualizarProdutoDto.mk None (Some v) None)) db
    = (db1, Ok r)
    /\ executar (verCarrinho arredondar uc) db1 = (db1, Ok visao)
    /\ In (ItemFormatado.mk pid (Produto.nome atual) (ItemCarrinho.quantidade i) v
             (number_mul arredondar (ofInt (ItemCarrinho.quantidade i)) v))
          (CarrinhoFormatado.itens visao).
Proof.
  intros H Hc Hi Ha. apply integro_iff in H.
  destruct (acharPor_Some _ _ _ _ Ha) as [Hain Haid].
  set (body := AtualizarProdutoDto.mk None (Some v) None).
  set (p' := Produto.mk pid (Produto.nome atual) v (Produto.estoque atual)).
  set (db1 := mkPrisma (substituir Produto.id pid p' (produtos db)) (carrinhos db) (itens db)).
  assert (executar (atualizarProduto pid body) db
          = (db1, Ok (RespostaProduto.mk "Produto atualizado!" p'))) as Hex.
  { rewrite executar_atualizarProduto, Ha. unfold produto_update. rewrite Ha.
    cbn [body Object_keys_length presente Nat.add Nat.eqb AtualizarProdutoDto.nome
         AtualizarProdutoDto.preco AtualizarProdutoDto.estoque intOpcional campo].
    rewrite <- Haid at 1. rewrite (nomeDeOutro_proprio db atual H Hain). reflexivity. }
  assert (Integro db1) as H1.
  { pose proof (Integro_atender arredondar db (PutProdutosId pid body) H) as H1.
    unfold atender, rota in H1. now rewrite fst_executar_bind_Retorne, Hex in H1. }
  assert (acharPor Carrinho.usuarioId usuarioId (carrinhos db1) = Some c) as Hc1 by exact Hc.
  destruct (incluir_Integro db1 c H1) as [l [Hl _]].
  exists db1. do 2 eexists. split; [exact Hex|]. split.
  - apply (verCarrinho_existente arredondar db1 uc c H1 Hc1).
  - unfold carregado. rewrite Hl.
    unfold formatarCarrinho. cbn [CarrinhoFormatado.itens CarrinhoComItens.itens].
    apply comProdutos_Some in Hl as [Hmap Hall].
    apply find_some in Hi as [Hin Hk]. apply andb_true_iff in Hk as [Hk1 Hk2].
    apply String.eqb_eq in Hk1.
    assert (In i (itensDe (Carrinho.id c) db1)) as Hi1.
    { unfold itensDe. apply filter_In. split; assumption. }
    rewrite <- Hmap in Hi1. apply in_map_iff in Hi1 as [ip [Hip Hinl]].
    rewrite Forall_forall in Hall. specialize (Hall ip Hinl).
    rewrite Hip, Hk1 in Hall. unfold db1 in Hall. cbn [produtos] in Hall.
    rewrite acharPor_substituir in Hall by reflexivity.
    rewrite String.eqb_refl in Hall. injection Hall as Hp.
    apply in_map_iff. exists ip. split; [|assumption].
    rewrite Hip, <- Hp, Hk1. reflexivity.
Qed.

(** X21.  A product that has a line in the cart cannot be deleted: the foreign
    key refuses.  Once [removerItem] gave the line back, and no other line
    points to the product, the same [removerProduto] returns and the product
    is gone; the other lines are not touched. *)
Theorem X21_remover_produto_depois_da_linha (arredondar : Q -> number) db uc pid c i p :
  integro db = true ->
  acharPor Carrinho.usuarioId usuarioId (carrinhos db) = Some c ->
  find (mesmaLinha pid (Carrinho.id c)) (itens db) = Some i ->
  linhasDe pid db = [i] ->
  acharPor Produto.id pid (produtos db) = Some p ->
  int4 (Produto.estoque p + ItemCarrinho.quantidade i) = true ->
  executar (removerProduto pid) db = (db, Lancou (PrismaClientError P2003))
  /\ exists db1 r db2,
       executar (removerItem arredondar uc pid) db = (db1, Ok r)
       /\ executar (removerProduto pid) db1 = (db2, Ok tt)
       /\ acharPor Produto.id pid (produtos db2) = None
       /\ itens db2 = itens db1.
Proof.
  intros H Hc Hi Hl Hp Hr. apply integro_iff in H.
  destruct (acharPor_Some _ _ _ _ Hp) as [Hpin Hpid].
  pose proof (find_some _ _ Hi) as [Hin Hk].
  apply andb_true_iff in Hk as [Hk1 _]. apply String.eqb_eq in Hk1.
  split.
  - rewrite executar_removerProduto, Hp. unfold produto_delete. rewrite Hp.
    assert (temId ItemCarrinho.produtoId pid (itens db) = true) as ->.
    { apply temId_true. rewrite <- Hk1. now apply in_map. }
    reflexivity.
  - pose proof (removerItem_sucesso arredondar db uc pid c i p H Hc Hi Hp Hr) as Hrm.
    set (db1 := aposRemover db p i) in *.
    assert (acharPor Produto.id pid (produtos db1)
            = Some (comEstoque p (Produto.estoque p + ItemCarrinho.quantidade i))) as Hp1.
    { unfold db1, aposRemover. cbn [produtos].
      rewrite Hpid, acharPor_substituir by exact Hpid. now rewrite String.eqb_refl. }
    assert (temId ItemCarrinho.produtoId pid (itens db1) = false) as Hfk.
    { apply temId_false. intros Hj. apply in_map_iff in Hj as [j [Hjp Hj]].
      unfold db1, aposRemover in Hj. cbn [itens] in Hj.
      apply In_apagar in Hj as [Hj Hne]. apply Hne. f_equal.
      assert (In j (linhasDe pid db)) as Hjl.
      { unfold linhasDe. apply filter_In. split; [assumption|now apply String.eqb_eq]. }
      rewrite Hl in Hjl. destruct Hjl as [<-|[]]. reflexivity. }
    exists db1. do 2 eexists. split; [exact Hrm|]. split; [|split].
    + rewrite executar_removerProduto, Hp1. unfold produto_delete. rewrite Hp1, Hfk.
      reflexivity.
    + cbn [produtos]. rewrite acharPor_apagar. now rewrite String.eqb_refl.
    + reflexivity.
Qed.

(** ** [adicionarItem]: what a success means, and a quantity that is no integer *)

Lemma reservadoEm_aposAdicionar db p cid ui n pid :
  Integro db ->
  reservado pid (aposAdicionar db p cid ui n)
  = reservado pid db + (if (Produto.id p =? pid)%string then n else 0).
Proof.
  intros H. unfold reservado, aposAdicionar. cbn [itens].
  destruct (find _ _) as [i|] eqn:Hi.
  - apply find_some in Hi as [Hi Hk]. apply andb_true_iff in Hk as [Hk _].
    apply String.eqb_eq in Hk.
    rewrite reservadoEm_substituir; [|apply H|assumption|reflexivity].
    cbn [comQuantidade ItemCarrinho.quantidade]. rewrite Hk.
    destruct (Produto.id p =? pid)%string; lia.
  - now rewrite reservadoEm_app.
Qed.

(** X22.  In a consistent database, when [adicionarItem] returns: the
    product existed and the quantity asked for did not exceed its stock;
    with [n] the quantity without its fraction, the stock is now [n] less
    and the units cart lines hold of the product are [n] more; and the
    owner has a cart. *)
Theorem X22_adicionarItem_que_retorna (arredondar : Q -> number) db uc ui body db' r :
  integro db = true ->
  executar (adicionarItem arredondar uc ui body) db = (db', Ok r) ->
  exists p c,
    acharPor Produto.id (AdicionarItemDto.produtoId body) (produtos db) = Some p
    /\ (AdicionarItemDto.quantidade body <= inject_Z (Produto.estoque p))%Q
    /\ truncar (AdicionarItemDto.quantidade body) <= Produto.estoque p
    /\ acharPor Produto.id (AdicionarItemDto.produtoId body) (produtos db')
       = Some (comEstoque p (Produto.estoque p - truncar (AdicionarItemDto.quantidade body)))
    /\ reservado (AdicionarItemDto.produtoId body) db'
       = reservado (AdicionarItemDto.produtoId body) db
         + truncar (AdicionarItemDto.quantidade body)
    /\ acharPor Carrinho.usuarioId usuarioId (carrinhos db') = Some c.
Proof.
  intros H Hex. apply integro_iff in H.
  rewrite adicionarItem_passos in Hex.
  destruct (obterOuCriarCarrinho_spec db uc H) as [(c & l & He & Hc & Hl)|(He & _)];
    rewrite He in Hex; [|discriminate].
  assert (Integro (comCarrinho uc db)) as H1.
  { pose proof (Seguro_executar _ _ _ db (Seguro_obterOuCriarCarrinho uc) H) as H1.
    now rewrite He in H1. }
  set (pid := AdicionarItemDto.produtoId body) in *.
  destruct (acharPor Produto.id pid (produtos (comCarrinho uc db))) as [p|] eqn:Hp;
    [|discriminate].
  destruct (number_lt _ _) eqn:Hlt; [discriminate|].
  apply number_lt_nao in Hlt.
  cbn [CarrinhoComItens.carrinho] in Hex.
  destruct (paraInt (AdicionarItemDto.quantidade body)) as [n|] eqn:Hn.
  - assert (db' = aposAdicionar (comCarrinho uc db) p (Carrinho.id c) ui n) as ->.
    { rewrite (transacao_adicionar _ c p ui _ _ n H1 Hn Hp
                 (acharPor_carrinho_id _ _ _ Hc H1)) in Hex.
      destruct (int4 (Produto.estoque p + - n)); [|discriminate].
      destruct (find _ _) as [i|].
      - destruct (int4 _); [|discriminate]. now injection Hex as <- _.
      - destruct (temId _ _ _); [discriminate|]. now injection Hex as <- _. }
    destruct (acharPor_Some _ _ _ _ Hp) as [Hpin Hpid].
    rewrite <- (paraInt_truncar _ _ Hn).
    exists p, c.
    split; [now rewrite comCarrinho_produtos in Hp|]. split; [assumption|].
    split; [rewrite (paraInt_truncar _ _ Hn); now apply truncar_le|].
    split; [|split].
    + unfold aposAdicionar. cbn [produtos].
      rewrite Hpid, acharPor_substituir by exact Hpid.
      rewrite String.eqb_refl. reflexivity.
    + rewrite (reservadoEm_aposAdicionar _ p _ ui n pid H1), Hpid, String.eqb_refl.
      unfold reservado. now rewrite comCarrinho_itens.
    + exact Hc.
  - unfold transaction, consulta_bind, produto_update_estoque in Hex. cbn [variacao] in Hex.
    rewrite Hn in Hex. discriminate.
Qed.

(** X23.  A quantity that is no integer passes [@IsNumber() @Min(1)] and,
    when the stock is not below it, the stock check as well; the store
    then writes it without its fraction.  For any quantity from one up to
    the stock, integral or not, of a product that has no line in the cart
    of the owner: [adicionarItem] returns, the stock is less by the
    quantity without its fraction, and the new line holds that many units
    (one unit for a quantity of one and a half). *)
Theorem X23_adicionarItem_quantidade_nao_inteira
  (arredondar : Q -> number) db uc ui body p c :
  integro db = true ->
  acharPor Carrinho.usuarioId usuarioId (carrinhos db) = Some c ->
  acharPor Produto.id (AdicionarItemDto.produtoId body) (produtos db) = Some p ->
  find (mesmaLinha (AdicionarItemDto.produtoId body) (Carrinho.id c)) (itens db) = None ->
  temId ItemCarrinho.id ui (itens db) = false ->
  (1 <= AdicionarItemDto.quantidade body)%Q ->
  (AdicionarItemDto.quantidade body <= inject_Z (Produto.estoque p))%Q ->
  exists db' r,
    executar (adicionarItem arredondar uc ui body) db = (db', Ok r)
    /\ acharPor Produto.id (AdicionarItemDto.produtoId body) (produtos db')
       = Some (comEstoque p (Produto.estoque p - truncar (AdicionarItemDto.quantidade body)))
    /\ itens db'
       = (itens db ++ [ItemCarrinho.mk ui (truncar (AdicionarItemDto.quantidade body))
                         (AdicionarItemDto.produtoId body) (Carrinho.id c)])%list
    /\ 1 <= truncar (AdicionarItemDto.quantidade body) <= Produto.estoque p
    /\ (inject_Z (truncar (AdicionarItemDto.quantidade body))
        <= AdicionarItemDto.quantidade body)%Q.
Proof.
  intros H Hc Hp Hl Hui H1q Hle. apply integro_iff in H.
  set (q := AdicionarItemDto.quantidade body) in *.
  set (pid := AdicionarItemDto.produtoId body) in *.
  destruct (acharPor_Some _ _ _ _ Hp) as [Hpin Hpid].
  pose proof (truncar_ge 1 q H1q) as Hn1. pose proof (truncar_le q _ Hle) as Hne.
  pose proof (int4_estoque H p Hpin) as Hie. apply int4_iff in Hie.
  assert (paraInt q = Some (truncar q)) as Hn.
  { unfold paraInt. assert (int4 (truncar q) = true) as -> by (apply int4_iff; lia).
    reflexivity. }
  assert (comCarrinho uc db = db) as Hcc by (unfold comCarrinho; now rewrite Hc).
  pose proof (adicionarItem_retorna arredondar db uc ui body p (truncar q) c H
                (fun E => ltac:(congruence)) Hp Hn Hle) as Ha.
  rewrite Hcc in Ha. fold pid in Ha. rewrite Hl in Ha.
  specialize (Ha ltac:(apply int4_iff; lia) Hc Hui).
  do 2 eexists. split; [exact Ha|].
  unfold aposAdicionar. cbn [produtos itens]. rewrite Hpid, Hl.
  split; [|split; [reflexivity|split; [lia|]]].
  - rewrite acharPor_substituir by exact Hpid. now rewrite String.eqb_refl.
  - destruct (truncar_cota q) as [Hc1 _].
    assert (0 <= Qnum q) as Hq0.
    { unfold Qle in H1q. cbn [Qnum Qden] in H1q. lia. }
    specialize (Hc1 Hq0). unfold Qle. cbn [Qnum Qden inject_Z]. lia.
Qed.

(** ** [atualizarProduto], whatever the body *)

(** X26.  [atualizarProduto] looks the product up first and counts the
    fields second: it throws [NotFoundException] when the product is absent,
    even with an empty body, and [BadRequestException] when the product is
    there and the body has no field.  Otherwise, when no other product has
    the name and the stock given fits the column, it writes the fields it is
    given and no other (the stock without its fraction), returns the row
    it wrote, which is what the identifier then finds, and leaves the other
    products, the carts and the lines alone; when another product has the
    name, the unique index refuses and nothing is written. *)
Theorem X26_atualizarProduto_campos db id body :
  (acharPor Produto.id id (produtos db) = None ->
   executar (atualizarProduto id body) db
   = (db, Lancou (NotFoundException ("Produto com ID " ++ id ++ " não encontrado."))))
  /\ (forall atual,
        acharPor Produto.id id (produtos db) = Some atual ->
        (Object_keys_length body = 0%nat ->
         executar (atualizarProduto id body) db
         = (db, Lancou (BadRequestException
                          "Pelo menos um campo deve ser fornecido para atualização.")))
        /\ (forall e,
              Object_keys_length body <> 0%nat ->
              intOpcional (AtualizarProdutoDto.estoque body) = Some e ->
              if nomeDeOutro id (campo (AtualizarProdutoDto.nome body) (Produto.nome atual))
                   (produtos db)
              then executar (atualizarProduto id body) db
                   = (db, Lancou (PrismaClientError P2002))
              else
                exists db',
                  let p := Produto.mk id
                             (campo (AtualizarProdutoDto.nome body) (Produto.nome atual))
                             (campo (AtualizarProdutoDto.preco body) (Produto.preco atual))
                             (campo e (Produto.estoque atual)) in
                  executar (atualizarProduto id body) db
                  = (db', Ok (RespostaProduto.mk "Produto atualizado!" p))
                  /\ acharPor Produto.id id (produtos db') = Some p
                  /\ (forall k, k <> id ->
                                acharPor Produto.id k (produtos db')
                                = acharPor Produto.id k (produtos db))
                  /\ carrinhos db' = carrinhos db /\ itens db' = itens db)).
Proof.
  split.
  - intros Ha. rewrite executar_atualizarProduto. now rewrite Ha.
  - intros atual Ha. split.
    + intros Hk. rewrite executar_atualizarProduto, Ha. now rewrite Hk.
    + intros e Hk He. apply Nat.eqb_neq in Hk.
      destruct (nomeDeOutro _ _ _) eqn:Hn.
      * rewrite executar_atualizarProduto, Ha, Hk. unfold produto_update.
        now rewrite He, Ha, Hn.
      * exists (mkPrisma
                  (substituir Produto.id id
                     (Produto.mk id (campo (AtualizarProdutoDto.nome body) (Produto.nome atual))
                        (campo (AtualizarProdutoDto.preco body) (Produto.preco atual))
                        (campo e (Produto.estoque atual)))
                     (produtos db))
                  (carrinhos db) (itens db)).
        cbv zeta. split; [|split; [|split; [|split; reflexivity]]].
        -- rewrite executar_atualizarProduto, Ha, Hk.
           now rewrite (produto_update_escreve db id body atual e Ha He Hn).
        -- cbn [produtos]. rewrite acharPor_substituir by reflexivity.
           now rewrite String.eqb_refl.
        -- intros k Hne. cbn [produtos]. rewrite acharPor_substituir by reflexivity.
           destruct (String.eqb_spec k id); [contradiction|reflexivity].
Qed.

(** ** [adicionarItem] for a product that is in the cart *)

(** X27.  [adicionarItem] for a product that has a line in the cart of the
    owner, when the quantity does not exceed the stock: the call returns,
    that line holds what it held plus the quantity (without its fraction),
    it is the only line of the product in the cart, no line is created, and
    the stock is less by as much. *)
Theorem X27_adicionarItem_de_novo (arredondar : Q -> number) db uc ui body c i p n :
  integro db = true ->
  acharPor Carrinho.usuarioId usuarioId (carrinhos db) = Some c ->
  find (mesmaLinha (AdicionarItemDto.produtoId body) (Carrinho.id c)) (itens db) = Some i ->
  acharPor Produto.id (AdicionarItemDto.produtoId body) (produtos db) = Some p ->
  paraInt (AdicionarItemDto.quantidade body) = Some n ->
  (AdicionarItemDto.quantidade body <= inject_Z (Produto.estoque p))%Q ->
  int4 (Produto.estoque p - n) = true ->
  int4 (ItemCarrinho.quantidade i + n) = true ->
  exists db' r,
    executar (adicionarItem arredondar uc ui body) db = (db', Ok r)
    /\ find (mesmaLinha (AdicionarItemDto.produtoId body) (Carrinho.id c)) (itens db')
       = Some (comQuantidade i (ItemCarrinho.quantidade i + n))
    /\ List.length (itens db') = List.length (itens db)
    /\ List.length (filter (mesmaLinha (AdicionarItemDto.produtoId body) (Carrinho.id c))
                      (itens db')) = 1%nat
    /\ acharPor Produto.id (AdicionarItemDto.produtoId body) (produtos db')
       = Some (comEstoque p (Produto.estoque p - n)).
Proof.
  intros H Hc Hi Hp Hn Hle Hr Hq. apply integro_iff in H.
  set (pid := AdicionarItemDto.produtoId body) in *.
  destruct (acharPor_Some _ _ _ _ Hp) as [Hpin Hpid].
  assert (comCarrinho uc db = db) as Hcc by (unfold comCarrinho; now rewrite Hc).
  pose proof (adicionarItem_retorna arredondar db uc ui body p n c H
                (fun E => ltac:(congruence)) Hp Hn Hle Hr) as Ha.
  rewrite Hcc in Ha. fold pid in Ha. rewrite Hi in Ha. specialize (Ha Hc Hq).
  assert (Integro (aposAdicionar db p (Carrinho.id c) ui n)) as H'.
  { pose proof (Integro_atender arredondar db (PostCarrinhoAdicionar uc ui body) H) as H'.
    unfold atender, rota in H'. now rewrite fst_executar_bind_Retorne, Ha in H'. }
  pose proof (find_some _ _ Hi) as [Hin Hk].
  assert (itens (aposAdicionar db p (Carrinho.id c) ui n)
          = substituir ItemCarrinho.id (ItemCarrinho.id i)
              (comQuantidade i (ItemCarrinho.quantidade i + n)) (itens db)) as His.
  { unfold aposAdicionar. cbn [itens]. now rewrite Hpid, Hi. }
  assert (find (mesmaLinha pid (Carrinho.id c)) (itens (aposAdicionar db p (Carrinho.id c) ui n))
          = Some (comQuantidade i (ItemCarrinho.quantidade i + n))) as Hf.
  { rewrite His. apply find_substituir_linha; [apply H|assumption|exact Hk]. }
  do 2 eexists. split; [exact Ha|]. split; [exact Hf|]. split; [|split].
  - rewrite His. unfold substituir. rewrite length_app. cbn [List.length].
    assert (forall l, NoDup (map ItemCarrinho.id l) -> In i l ->
                      (List.length (apagar ItemCarrinho.id (ItemCarrinho.id i) l) + 1
                       = List.length l)%nat) as Hlen.
    { intros l Hnd Hil.
      rewrite <- (Permutation_length (apagar_Permutation ItemCarrinho.id i l Hnd Hil)).
      rewrite length_app. reflexivity. }
    apply Hlen; [apply H|assumption].
  - pose proof (uma_linha _ pid (Carrinho.id c) (uq_item_produto_carrinho H')) as Hum.
    apply find_some in Hf as [Hf1 Hf2].
    assert (In (comQuantidade i (ItemCarrinho.quantidade i + n))
              (filter (mesmaLinha pid (Carrinho.id c))
                 (itens (aposAdicionar db p (Carrinho.id c) ui n)))) as Hx
      by (apply filter_In; split; assumption).
    destruct (filter (mesmaLinha pid (Carrinho.id c))
                (itens (aposAdicionar db p (Carrinho.id c) ui n))) as [|x [|y l]];
      [contradiction|reflexivity|cbn [List.length] in Hum; lia].
  - unfold aposAdicionar. cbn [produtos].
    rewrite Hpid, acharPor_substituir by exact Hpid. now rewrite String.eqb_refl.
Qed.

(** ** [removerItem] served at the same time as another request *)

Lemma removerItem_le_a_linha db c pid i :
  Integro db ->
  find (mesmaLinha pid (Carrinho.id c)) (itens db) = Some i ->
  exists ip,
    find (fun j => (ItemCarrinho.produtoId (ItemComProduto.item j) =? pid)%string)
      (carregado c db) = Some ip
    /\ ItemComProduto.item ip = i.
Proof.
  intros H Hi. destruct (incluir_Integro db c H) as [l [Hl _]].
  unfold carregado. rewrite Hl.
  pose proof (find_no_carrinho db _ _ pid Hl) as Hf. rewrite Hi in Hf.
  destruct (find _ l) as [ip|]; [|discriminate]. simpl in Hf. injection Hf as Hf.
  now exists ip.
Qed.

(** The transaction of [removerItem] with a quantity [q] read earlier, for a
    line that is still there. *)
Lemma transacao_remover_lida db c p pid j q :
  Integro db ->
  In j (itens db) ->
  ItemCarrinho.carrinhoId j = Carrinho.id c ->
  acharPor Carrinho.id (Carrinho.id c) (carrinhos db) = Some c ->
  acharPor Produto.id pid (produtos db) = Some p ->
  int4 q = true ->
  int4 (Produto.estoque p + q) = true ->
  let db2 := mkPrisma (substituir Produto.id pid (comEstoque p (Produto.estoque p + q))
                         (produtos db))
                      (carrinhos db)
                      (apagar ItemCarrinho.id (ItemCarrinho.id j) (itens db)) in
  transaction
    (consulta_bind
       (produto_update_estoque pid (increment (ofInt q)))
       (fun p' => consulta_bind (carrinho_update_delete (Carrinho.id c) (ItemCarrinho.id j))
                    (fun c' => consulta_ret (p', c')))) db
  = (db2, Ok (comEstoque p (Produto.estoque p + q),
              CarrinhoComItens.mk c (carregado c db2))).
Proof.
  intros H Hj Hjc Hc Hp Hq Hr db2.
  pose proof (Integro_produto_update_estoque pid (increment (ofInt q)) _ H) as HA.
  unfold transaction, consulta_bind, produto_update_estoque in *.
  cbn [variacao] in *. rewrite (paraInt_ofInt _ Hq) in *. rewrite Hp in *. rewrite Hr in *.
  cbn [fst] in HA.
  pose proof (Integro_carrinho_update_delete (Carrinho.id c) (ItemCarrinho.id j) _ HA) as HB.
  unfold carrinho_update_delete in *. cbn [produtos carrinhos itens] in *. rewrite Hc in *.
  assert (existsb (fun x => (ItemCarrinho.id x =? ItemCarrinho.id j)%string
                            && (ItemCarrinho.carrinhoId x =? Carrinho.id c)%string)
            (itens db) = true) as He.
  { apply existsb_exists. exists j. split; [assumption|].
    rewrite String.eqb_refl. simpl. now apply String.eqb_eq. }
  rewrite He in *. rewrite fst_incluir in HB. now rewrite (incluir_ok _ c HB).
Qed.

(** The same transaction when the line is gone: the nested delete finds no
    line connected to the cart, and the increment of the stock is rolled
    back with it. *)
Lemma transacao_remover_sem_linha db cid pid q iid p c :
  acharPor Carrinho.id cid (carrinhos db) = Some c ->
  acharPor Produto.id pid (produtos db) = Some p ->
  int4 q = true ->
  int4 (Produto.estoque p + q) = true ->
  ~ In iid (map ItemCarrinho.id (itens db)) ->
  transaction
    (consulta_bind
       (produto_update_estoque pid (increment (ofInt q)))
       (fun p' => consulta_bind (carrinho_update_delete cid iid)
                    (fun c' => consulta_ret (p', c')))) db
  = (db, Lancou (PrismaClientError P2017)).
Proof.
  intros Hc Hp Hq Hr Hn.
  unfold transaction, consulta_bind, produto_update_estoque.
  cbn [variacao]. rewrite (paraInt_ofInt _ Hq), Hp, Hr.
  unfold carrinho_update_delete. cbn [carrinhos itens]. rewrite Hc.
  assert (existsb (fun x => (ItemCarrinho.id x =? iid)%string
                            && (ItemCarrinho.carrinhoId x =? cid)%string)
            (itens db) = false) as ->; [|reflexivity].
  destruct (existsb _ _) eqn:E; [|reflexivity]. exfalso.
  apply existsb_exists in E as [x [Hx E]]. apply andb_true_iff in E as [E _].
  apply String.eqb_eq in E. apply Hn. rewrite <- E. now apply in_map.
Qed.

(** X24.  Two calls of [removerItem] for the same line, taking turns at their
    awaits: both read the line before either writes.  The transaction of the
    first commits; in the transaction of the second the nested delete finds
    no line connected to the cart (P2017) and the increment of the stock is
    rolled back.  The first call
    returns, the second ends with the error of the store, and the stock got
    the quantity of the line once, not twice. *)
Theorem X24_dois_removerItem_intercalados (arredondar : Q -> number) db ucA ucB pid c i p :
  integro db = true ->
  acharPor Carrinho.usuarioId usuarioId (carrinhos db) = Some c ->
  find (mesmaLinha pid (Carrinho.id c)) (itens db) = Some i ->
  acharPor Produto.id pid (produtos db) = Some p ->
  int4 (Produto.estoque p + ItemCarrinho.quantidade i + ItemCarrinho.quantidade i) = true ->
  exists rA,
    intercalar [true; false; true; false]
      (removerItem arredondar ucA pid) (removerItem arredondar ucB pid) db
    = (aposRemover db p i, (Retorne rA, Lance (PrismaClientError P2017)))
    /\ acharPor Produto.id pid (produtos (aposRemover db p i))
       = Some (comEstoque p (Produto.estoque p + ItemCarrinho.quantidade i))
    /\ find (mesmaLinha pid (Carrinho.id c)) (itens (aposRemover db p i)) = None.
Proof.
  intros H Hc Hi Hp Hr2. apply integro_iff in H.
  destruct (acharPor_Some _ _ _ _ Hp) as [Hpin Hpid]. subst pid.
  pose proof (acharPor_carrinho_id _ _ _ Hc H) as Hcid.
  destruct (removerItem_le_a_linha db c _ i H Hi) as [ip [Hfl Hip]].
  pose proof (find_some _ _ Hi) as [Hin Hk].
  apply andb_true_iff in Hk as [_ Hk2]. apply String.eqb_eq in Hk2.
  pose proof (int4_estoque H p Hpin) as He. pose proof (int4_quantidade H i Hin) as Hq.
  assert (int4 (Produto.estoque p + ItemCarrinho.quantidade i) = true) as Hr1.
  { apply int4_iff in He, Hr2. apply int4_iff. lia. }
  assert (acharPor Produto.id (Produto.id p) (produtos (aposRemover db p i))
          = Some (comEstoque p (Produto.estoque p + ItemCarrinho.quantidade i))) as HpA.
  { unfold aposRemover. cbn [produtos].
    rewrite acharPor_substituir by reflexivity. now rewrite String.eqb_refl. }
  assert (find (mesmaLinha (Produto.id p) (Carrinho.id c)) (itens (aposRemover db p i)) = None)
    as HfA.
  { unfold aposRemover. cbn [itens]. apply find_apagar_linha; [apply H|assumption]. }
  assert (~ In (ItemCarrinho.id i) (map ItemCarrinho.id (itens (aposRemover db p i)))) as Hfora.
  { unfold aposRemover. cbn [itens]. intros Hx. apply in_map_iff in Hx as [x [Hx1 Hx2]].
    apply In_apagar in Hx2 as [_ Hx2]. contradiction. }
  pose proof (transacao_remover_sem_linha (aposRemover db p i) (Carrinho.id c) (Produto.id p)
                (ItemCarrinho.quantidade i) (ItemCarrinho.id i) _ c Hcid HpA Hq Hr2 Hfora)
    as Hs.
  unfold aposRemover in Hs.
  unfold removerItem, obterOuCriarCarrinho.
  cbn [intercalar tarefa_bind await passo].
  rewrite (carrinho_findUnique_ok db c H Hc).
  cbn [intercalar tarefa_bind await passo].
  rewrite (carrinho_findUnique_ok db c H Hc).
  cbn [intercalar tarefa_bind await passo CarrinhoComItens.itens CarrinhoComItens.carrinho].
  rewrite Hfl.
  cbn [intercalar tarefa_bind await passo CarrinhoComItens.itens CarrinhoComItens.carrinho].
  rewrite Hip.
  rewrite (transacao_remover_lida db c p (Produto.id p) i (ItemCarrinho.quantidade i)
             H Hin Hk2 Hcid Hp Hq Hr1).
  cbn [intercalar tarefa_bind await passo].
  rewrite Hs.
  eexists. split; [reflexivity|]. split; assumption.
Qed.

(** X25.  [removerItem] gives back the quantity it read, not the quantity the
    line holds when it writes.  When it has read a line of [q] units and an
    [adicionarItem] for [n] more units of the same product is served before
    its transaction, both calls return, the line is deleted with the [n]
    units the other call put there, and the stock plus the units in cart
    lines is [n] less than before. *)
Theorem X25_removerItem_e_adicionarItem_intercalados
  (arredondar : Q -> number) db ucR ucA ui body c i p n :
  integro db = true ->
  acharPor Carrinho.usuarioId usuarioId (carrinhos db) = Some c ->
  find (mesmaLinha (AdicionarItemDto.produtoId body) (Carrinho.id c)) (itens db) = Some i ->
  acharPor Produto.id (AdicionarItemDto.produtoId body) (produtos db) = Some p ->
  toInt4 (AdicionarItemDto.quantidade body) = Some n ->
  1 <= n <= Produto.estoque p ->
  int4 (ItemCarrinho.quantidade i + n) = true ->
  int4 (Produto.estoque p + ItemCarrinho.quantidade i) = true ->
  exists db' rR rA p',
    intercalar [true; false; false; false; true]
      (removerItem arredondar ucR (AdicionarItemDto.produtoId body))
      (adicionarItem arredondar ucA ui body) db
    = (db', (Retorne rR, Retorne rA))
    /\ acharPor Produto.id (AdicionarItemDto.produtoId body) (produtos db') = Some p'
    /\ Produto.estoque p' = Produto.estoque p - n + ItemCarrinho.quantidade i
    /\ find (mesmaLinha (AdicionarItemDto.produtoId body) (Carrinho.id c)) (itens db') = None
    /\ Produto.estoque p' + reservado (AdicionarItemDto.produtoId body) db'
       = Produto.estoque p + reservado (AdicionarItemDto.produtoId body) db - n.
Proof.
  intros H Hc Hi Hp Hn Hle Hqn Hr. apply integro_iff in H.
  set (pid := AdicionarItemDto.produtoId body) in *.
  destruct (acharPor_Some _ _ _ _ Hp) as [Hpin Hpid].
  pose proof (acharPor_carrinho_id _ _ _ Hc H) as Hcid.
  destruct (removerItem_le_a_linha db c pid i H Hi) as [ip [Hfl Hip]].
  pose proof (find_some _ _ Hi) as [Hin Hk].
  pose proof Hk as Hk'.
  apply andb_true_iff in Hk as [Hk1 Hk2]. apply String.eqb_eq in Hk1, Hk2.
  pose proof (int4_estoque H p Hpin) as He. pose proof (int4_quantidade H i Hin) as Hq.
  assert (int4 (Produto.estoque p + - n) = true) as Hr1.
  { apply int4_iff in He. apply int4_iff. lia. }
  set (dbB := aposAdicionar db p (Carrinho.id c) ui n).
  set (pB := comEstoque p (Produto.estoque p + - n)).
  set (iB := comQuantidade i (ItemCarrinho.quantidade i + n)).
  assert (Integro dbB) as HB.
  { pose proof (Integro_atender arredondar db (PostCarrinhoAdicionar ucA ui body) H) as HB.
    unfold atender, rota in HB.
    rewrite fst_executar_bind_Retorne in HB.
    rewrite (adicionarItem_sucesso arredondar db ucA ui body p n c) in HB; auto.
    - unfold comCarrinho in HB. now rewrite Hc in HB.
    - intros E. congruence.
    - lia.
    - unfold comCarrinho. now rewrite Hc.
    - fold pid. now rewrite Hi. }
  assert (produtos dbB = substituir Produto.id pid pB (produtos db)) as HpsB.
  { unfold dbB, aposAdicionar. simpl. now rewrite Hpid. }
  assert (itens dbB = substituir ItemCarrinho.id (ItemCarrinho.id i) iB (itens db)) as HisB.
  { unfold dbB, aposAdicionar. simpl. now rewrite Hpid, Hi. }
  assert (acharPor Produto.id pid (produtos dbB) = Some pB) as HpB.
  { rewrite HpsB, acharPor_substituir by exact Hpid. now rewrite String.eqb_refl. }
  assert (find (mesmaLinha pid (Carrinho.id c)) (itens dbB) = Some iB) as HfB.
  { rewrite HisB. apply find_substituir_linha; [apply H|assumption|exact Hk']. }
  pose proof (find_some _ _ HfB) as [HinB _].
  assert (int4 (Produto.estoque pB + ItemCarrinho.quantidade i) = true) as Hr2.
  { pose proof (proj1 (int4_iff _) Hq) as Hq'.
    apply int4_iff in He, Hr. apply int4_iff. unfold pB. cbn [comEstoque Produto.estoque].
    lia. }
  unfold removerItem, adicionarItem, obterOuCriarCarrinho.
  cbn [intercalar tarefa_bind await passo].
  rewrite (carrinho_findUnique_ok db c H Hc).
  cbn [intercalar tarefa_bind await passo].
  rewrite (carrinho_findUnique_ok db c H Hc).
  cbn [intercalar tarefa_bind await passo].
  unfold produto_findUnique_id. fold pid. rewrite Hp.
  cbn [intercalar tarefa_bind await passo CarrinhoComItens.carrinho CarrinhoComItens.itens].
  rewrite (number_lt_ofInt _ _ _ Hn).
  assert ((Produto.estoque p <? n) = false) as -> by (apply Z.ltb_ge; lia).
  cbn [intercalar tarefa_bind await passo].
  rewrite (transacao_adicionar db c p ui pid _ n H (paraInt_toInt4 _ _ Hn) Hp Hcid).
  rewrite Hr1, Hi, Hqn.
  cbn [intercalar tarefa_bind await passo].
  fold dbB. rewrite Hfl.
  cbn [intercalar tarefa_bind await passo].
  rewrite Hip.
  change (ItemCarrinho.id i) with (ItemCarrinho.id iB).
  rewrite (transacao_remover_lida dbB c pB pid iB (ItemCarrinho.quantidade i)
             HB HinB Hk2 Hcid HpB Hq Hr2).
  cbn [intercalar tarefa_bind await passo].
  do 3 eexists. exists (comEstoque pB (Produto.estoque pB + ItemCarrinho.quantidade i)).
  split; [reflexivity|]. cbn [produtos itens].
  split; [|split; [|split]].
  - rewrite acharPor_substituir by exact Hpid.
    now rewrite String.eqb_refl.
  - unfold pB. cbn [comEstoque Produto.estoque]. lia.
  - apply find_apagar_linha; [apply HB|exact HfB].
  - unfold reservado. cbn [itens].
    rewrite (reservadoEm_apagar pid (itens dbB) iB); [|apply HB|exact HinB].
    pose proof (reservadoEm_aposAdicionar db p (Carrinho.id c) ui n pid H) as HR.
    fold dbB in HR. unfold reservado in HR. rewrite HR, Hpid, String.eqb_refl.
    change (ItemCarrinho.produtoId iB) with (ItemCarrinho.produtoId i).
    rewrite Hk1, String.eqb_refl.
    unfold pB, iB. cbn [comEstoque comQuantidade Produto.estoque ItemCarrinho.quantidade]. lia.
Qed.

(** ** The theorems of this part at concrete inputs *)

(** X1 at: the Widget is created in the empty database. *)
Lemma X1_criarProduto_e_consultas_witness :
  acharPor Produto.nome "Widget" (produtos bancoVazio) = None
  /\ temId Produto.id "p1" (produtos bancoVazio) = false
  /\ paraInt 5%Q = Some 5
  /\ exists db',
       executar (criarProduto "p1" widget) bancoVazio
       = (db', Ok (RespostaProduto.mk "Produto criado com sucesso!"
                     (Produto.mk "p1" "Widget" 10%Q 5)))
       /\ (exists l, executar listarTodos db' = (db', Ok l)
                     /\ Permutation l [Produto.mk "p1" "Widget" 10%Q 5])
       /\ passo (criarProduto "p2" widget) db'
          = (db', Lance (ConflictException "Já existe um produto com este nome.")).
Proof.
  repeat (split; [reflexivity|]).
  destruct (X1_criarProduto_e_consultas bancoVazio "p1" widget 5 eq_refl eq_refl eq_refl)
    as (db' & H).
  cbv zeta in H. destruct H as (H1 & _ & _ & _ & H2 & H3).
  exists db'. split; [exact H1|]. split; [exact H2|exact (proj1 (H3 "p2"))].
Defined.

(** X2 at: the Widget is created in the empty database and deleted. *)
Lemma X2_criar_e_remover_produto_witness :
  integro bancoVazio = true
  /\ acharPor Produto.nome "Widget" (produtos bancoVazio) = None
  /\ temId Produto.id "p1" (produtos bancoVazio) = false
  /\ toInt4 5%Q = Some 5
  /\ exists db1 r,
       executar (criarProduto "p1" widget) bancoVazio = (db1, Ok r)
       /\ executar (removerProduto "p1") db1 = (bancoVazio, Ok tt).
Proof.
  repeat (split; [reflexivity|]).
  destruct (X2_criar_e_remover_produto bancoVazio "p1" widget 5
              eq_refl eq_refl eq_refl eq_refl) as (db1 & r & _ & H1 & H2 & _).
  exists db1, r. split; assumption.
Defined.


(** X4 at: three units of a product the catalogue with the Widget does not
    have. *)
Lemma X4_adicionarItem_produto_desconhecido_witness :
  integro bancoComWidget = true
  /\ (acharPor Carrinho.usuarioId usuarioId (carrinhos bancoComWidget) = None ->
      temId Carrinho.id "c2" (carrinhos bancoComWidget) = false)
  /\ acharPor Produto.id "p9" (produtos bancoComWidget) = None
  /\ exists db' m,
       executar (adicionarItem Qred "c2" "i1" (AdicionarItemDto.mk "p9" 3%Q)) bancoComWidget
       = (db', Lancou (NotFoundException m))
       /\ contem "p9" m
       /\ produtos db' = produtos bancoComWidget.
Proof.
  split; [reflexivity|]. split; [intros _; reflexivity|]. split; [reflexivity|].
  destruct (X4_adicionarItem_produto_desconhecido Qred bancoComWidget "c2" "i1"
              (AdicionarItemDto.mk "p9" 3%Q) eq_refl (fun _ => eq_refl) eq_refl)
    as (db' & m & H1 & H2 & H3 & _).
  exists db', m. repeat split; assumption.
Defined.

(** X5 at: the Widget is not in the empty cart. *)
Lemma X5_removerItem_fora_do_carrinho_witness :
  integro bancoComWidget = true
  /\ (acharPor Carrinho.usuarioId usuarioId (carrinhos bancoComWidget) = None ->
      temId Carrinho.id "c2" (carrinhos bancoComWidget) = false)
  /\ (forall c, acharPor Carrinho.usuarioId usuarioId (carrinhos bancoComWidget) = Some c ->
                find (mesmaLinha "p1" (Carrinho.id c)) (itens bancoComWidget) = None)
  /\ exists db' m,
       executar (removerItem Qred "c2" "p1") bancoComWidget
       = (db', Lancou (NotFoundException m))
       /\ contem "p1" m
       /\ produtos db' = produtos bancoComWidget.
Proof.
  split; [reflexivity|]. split; [intros _; reflexivity|].
  split; [intros c _; reflexivity|].
  destruct (X5_removerItem_fora_do_carrinho Qred bancoComWidget "c2" "p1"
              eq_refl (fun _ => eq_refl) (fun _ _ => eq_refl))
    as (db' & m & H1 & H2 & H3 & _).
  exists db', m. repeat split; assumption.
Defined.

(** X6 at: the line of three Widgets is removed; the stock goes from 2 to 5. *)
Lemma X6_removerItem_devolve_tudo_witness :
  integro bancoComLinha = true
  /\ acharPor Carrinho.usuarioId usuarioId (carrinhos bancoComLinha)
     = Some (Carrinho.mk "c1" "usuario-123")
  /\ find (mesmaLinha "p1" "c1") (itens bancoComLinha)
     = Some (ItemCarrinho.mk "i1" 3 "p1" "c1")
  /\ acharPor Produto.id "p1" (produtos bancoComLinha)
     = Some (Produto.mk "p1" "Widget" 10%Q 2)
  /\ int4 (2 + 3) = true
  /\ exists db1 r m,
       executar (removerItem Qred "c2" "p1") bancoComLinha = (db1, Ok r)
       /\ acharPor Produto.id "p1" (produtos db1) = Some (Produto.mk "p1" "Widget" 10%Q 5)
       /\ itens db1 = []
       /\ executar (removerItem Qred "c3" "p1") db1 = (db1, Lancou (NotFoundException m)).
Proof.
  repeat (split; [reflexivity|]).
  destruct (X6_removerItem_devolve_tudo Qred bancoComLinha "c2" "c3" "p1"
              (Carrinho.mk "c1" "usuario-123") (ItemCarrinho.mk "i1" 3 "p1" "c1")
              (Produto.mk "p1" "Widget" 10%Q 2) eq_refl eq_refl eq_refl eq_refl eq_refl)
    as (db1 & r & m & H1 & H2 & H3 & _ & _ & H4).
  exists db1, r, m. repeat split; assumption.
Defined.

(** X7 at: seven Widgets asked for, five in stock. *)
Lemma X7_excecao_nao_escreve_witness :
  exists e,
    snd (executar (rota Qred (PostCarrinhoAdicionar "c2" "i1" (AdicionarItemDto.mk "p1" 7%Q)))
           bancoComWidget) = Lancou e
    /\ produtos (atender Qred bancoComWidget
                   (PostCarrinhoAdicionar "c2" "i1" (AdicionarItemDto.mk "p1" 7%Q)))
       = [Produto.mk "p1" "Widget" 10%Q 5]
    /\ itens (atender Qred bancoComWidget
                (PostCarrinhoAdicionar "c2" "i1" (AdicionarItemDto.mk "p1" 7%Q)))
       = [].
Proof.
  eexists. split; [reflexivity|].
  exact (X7_excecao_nao_escreve Qred bancoComWidget
           (PostCarrinhoAdicionar "c2" "i1" (AdicionarItemDto.mk "p1" 7%Q)) _ eq_refl).
Defined.

(** X8 at: a second product is created while the cart holds three Widgets. *)
Lemma X8_produtos_nao_tocam_carrinho_witness :
  rotaDeProdutos (PostProdutos "p2" (CriarProdutoDto.mk "Gadget" 4%Q 1%Q)) = true
  /\ carrinhos (atender Qred bancoComLinha
                  (PostProdutos "p2" (CriarProdutoDto.mk "Gadget" 4%Q 1%Q)))
     = [Carrinho.mk "c1" "usuario-123"]
  /\ itens (atender Qred bancoComLinha
              (PostProdutos "p2" (CriarProdutoDto.mk "Gadget" 4%Q 1%Q)))
     = [ItemCarrinho.mk "i1" 3 "p1" "c1"].
Proof.
  split; [reflexivity|].
  exact (X8_produtos_nao_tocam_carrinho Qred bancoComLinha
           (PostProdutos "p2" (CriarProdutoDto.mk "Gadget" 4%Q 1%Q)) eq_refl).
Defined.

(** X9 at: three Widgets go to the cart. *)
Lemma X9_carrinho_so_muda_estoque_witness :
  integro bancoComWidget = true
  /\ rotaDeProdutos (PostCarrinhoAdicionar "c2" "i1" tresWidgets) = false
  /\ option_map fichaDoProduto
       (acharPor Produto.id "p1"
          (produtos (atender Qred bancoComWidget
                       (PostCarrinhoAdicionar "c2" "i1" tresWidgets))))
     = Some ("p1", "Widget", 10%Q).
Proof.
  split; [reflexivity|]. split; [reflexivity|].
  exact (X9_carrinho_so_muda_estoque Qred bancoComWidget
           (PostCarrinhoAdicionar "c2" "i1" tresWidgets) "p1" eq_refl eq_refl).
Defined.

(** X10 at: three Widgets go to the cart that holds a Gadget. *)
Lemma X10_carrinho_nao_toca_outro_produto_witness :
  integro bancoComDoisProdutos = true
  /\ outroProduto "p2" (PostCarrinhoAdicionar "c2" "i1" tresWidgets) = true
  /\ acharPor Produto.id "p2"
       (produtos (atender Qred bancoComDoisProdutos
                    (PostCarrinhoAdicionar "c2" "i1" tresWidgets)))
     = Some (Produto.mk "p2" "Gadget" 4%Q 1)
  /\ linhasDe "p2" (atender Qred bancoComDoisProdutos
                      (PostCarrinhoAdicionar "c2" "i1" tresWidgets))
     = [ItemCarrinho.mk "i2" 1 "p2" "c1"].
Proof.
  split; [reflexivity|]. split; [reflexivity|].
  exact (X10_carrinho_nao_toca_outro_produto Qred bancoComDoisProdutos
           (PostCarrinhoAdicionar "c2" "i1" tresWidgets) "p2" eq_refl eq_refl).
Defined.

(** X11 at: the Widget is created, three go to the cart, and its deletion is
    asked for. *)
Lemma X11_consistencia_em_serie_witness :
  integro bancoVazio = true
  /\ integro (atenderTodas Qred bancoVazio
                [PostProdutos "p1" widget;
                 PostCarrinhoAdicionar "c1" "i1" tresWidgets;
                 DeleteProdutosId "p1"]) = true.
Proof.
  split; [reflexivity|].
  pose proof (X11_consistencia_em_serie Qred bancoVazio
                [PostProdutos "p1" widget;
                 PostCarrinhoAdicionar "c1" "i1" tresWidgets;
                 DeleteProdutosId "p1"] eq_refl) as H.
  cbv zeta in H. exact (proj1 H).
Defined.

(** X12 at: two requests for three Widgets each, taking turns. *)
Lemma X12_consistencia_intercalada_witness :
  integro bancoComWidget = true
  /\ integro (fst (intercalar [true; false; true; false; true; false; true; false]
                     (rota Qred (PostCarrinhoAdicionar "c2" "i1" tresWidgets))
                     (rota Qred (PostCarrinhoAdicionar "c3" "i2" tresWidgets))
                     bancoComWidget)) = true.
Proof.
  split; [reflexivity|].
  exact (X12_consistencia_intercalada Qred bancoComWidget
           [true; false; true; false; true; false; true; false]
           (PostCarrinhoAdicionar "c2" "i1" tresWidgets)
           (PostCarrinhoAdicionar "c3" "i2" tresWidgets) eq_refl).
Defined.

(** X13 at: a view and an addition served at the same time, to their
    ends. *)
Lemma X13_carrinho_permanece_witness :
  acharPor Carrinho.usuarioId usuarioId (carrinhos bancoComWidget)
  = Some (Carrinho.mk "c1" "usuario-123")
  /\ exists db' t1 t2 res1 res2,
       intercalar [false; true; false; false]
         (rota Qred (GetCarrinho "c2"))
         (rota Qred (PostCarrinhoAdicionar "c3" "i1" tresWidgets)) bancoComWidget
       = (db', (t1, t2))
       /\ desfecho t1 = Some res1 /\ desfecho t2 = Some res2
       /\ carrinhos db' = [Carrinho.mk "c1" "usuario-123"].
Proof.
  split; [reflexivity|].
  do 5 eexists. split; [reflexivity|]. split; [reflexivity|]. split; [reflexivity|].
  exact (proj2 (X13_carrinho_permanece Qred bancoComWidget (Carrinho.mk "c1" "usuario-123")
                  eq_refl)
           [false; true; false; false] (GetCarrinho "c2")
           (PostCarrinhoAdicionar "c3" "i1" tresWidgets) _ _ _ _ _ eq_refl eq_refl eq_refl).
Defined.

(** X14 at: the cart with three Widgets; one more is added and the cart
    viewed; the Widgets are removed and the cart viewed. *)
Lemma X14_resposta_e_a_visao_witness :
  integro bancoComLinha = true
  /\ (exists db' r,
        executar (adicionarItem Qred "c2" "i2" (AdicionarItemDto.mk "p1" 1%Q)) bancoComLinha
        = (db', Ok r)
        /\ executar (verCarrinho Qred "c3") db' = (db', Ok (RespostaCarrinho.carrinho r))
        /\ CarrinhoFormatado.total (RespostaCarrinho.carrinho r) = 40%Q)
  /\ (exists db' r,
        executar (removerItem Qred "c2" "p1") bancoComLinha = (db', Ok r)
        /\ executar (verCarrinho Qred "c3") db' = (db', Ok (RespostaCarrinho.carrinho r))
        /\ CarrinhoFormatado.itens (RespostaCarrinho.carrinho r) = []).
Proof.
  split; [reflexivity|]. split.
  - do 2 eexists. split; [reflexivity|]. split; [|reflexivity].
    apply (proj1 (X14_resposta_e_a_visao Qred bancoComLinha eq_refl)
             "c2" "i2" (AdicionarItemDto.mk "p1" 1%Q) _ _ "c3").
    reflexivity.
  - do 2 eexists. split; [reflexivity|]. split; [|reflexivity].
    apply (proj2 (X14_resposta_e_a_visao Qred bancoComLinha eq_refl) "c2" "p1" _ _ "c3").
    reflexivity.
Defined.

(** X15 at: the first view in the empty database. *)
Lemma X15_verCarrinho_primeira_vez_witness :
  integro bancoVazio = true
  /\ acharPor Carrinho.usuarioId usuarioId (carrinhos bancoVazio) = None
  /\ temId Carrinho.id "c1" (carrinhos bancoVazio) = false
  /\ exists db1,
       executar (verCarrinho Qred "c1") bancoVazio
       = (db1, Ok (CarrinhoFormatado.mk "c1" "usuario-123" [] 0%Q))
       /\ carrinhos db1 = [Carrinho.mk "c1" "usuario-123"]
       /\ executar (verCarrinho Qred "c2") db1
          = (db1, Ok (CarrinhoFormatado.mk "c1" "usuario-123" [] 0%Q)).
Proof.
  repeat (split; [reflexivity|]).
  destruct (X15_verCarrinho_primeira_vez Qred bancoVazio "c1" eq_refl eq_refl eq_refl)
    as (db1 & H1 & H2 & _ & _ & H3).
  exists db1. split; [exact H1|]. split; [exact H2|exact (H3 "c2")].
Defined.

(** X16 at: a rounding to quarters, which is not exact on a third, and the
    cart with three Widgets at 10 and two Gadgets at 2.5: the total is 35. *)
Lemma X16_total_exato_witness :
  (forall x y, x == y -> aosQuartos x == aosQuartos y)%Q
  /\ Forall (fun v => aosQuartos v == v)%Q
       (valoresDoTotal 0 (CarrinhoComItens.itens carrinhoDeDoisProdutos))
  /\ ~ (aosQuartos (1 # 3) == 1 # 3)%Q
  /\ (CarrinhoFormatado.total (formatarCarrinho aosQuartos carrinhoDeDoisProdutos) == 35)%Q.
Proof.
  assert (forall x y, x == y -> aosQuartos x == aosQuartos y)%Q as Hp.
  { intros x y E. unfold aosQuartos. now rewrite E. }
  assert (Forall (fun v => aosQuartos v == v)%Q
            (valoresDoTotal 0 (CarrinhoComItens.itens carrinhoDeDoisProdutos))) as Hv.
  { repeat constructor. }
  split; [exact Hp|]. split; [exact Hv|]. split; [discriminate|].
  rewrite (proj1 (X16_total_exato aosQuartos carrinhoDeDoisProdutos Hp Hv)).
  reflexivity.
Defined.

(** X17 at: the Widget is created twice at the same time. *)
Lemma X17_criarProduto_intercalados_witness :
  acharPor Produto.nome "Widget" (produtos bancoVazio) = None
  /\ temId Produto.id "p1" (produtos bancoVazio) = false
  /\ toInt4 5%Q = Some 5
  /\ exists db' r,
       intercalar [true; false; true; false]
         (criarProduto "p1" widget) (criarProduto "p2" widget) bancoVazio
       = (db', (Retorne r, Lance (PrismaClientError P2002)))
       /\ produtos db' = [Produto.mk "p1" "Widget" 10%Q 5].
Proof.
  repeat (split; [reflexivity|]).
  destruct (X17_criarProduto_intercalados bancoVazio "p1" "p2" widget 5
              eq_refl eq_refl eq_refl) as (db' & r & H1 & H2 & _).
  exists db', r. split; assumption.
Defined.

(** X18 at: two first views of the cart at the same time. *)
Lemma X18_primeiro_acesso_intercalado_witness :
  integro bancoVazio = true
  /\ acharPor Carrinho.usuarioId usuarioId (carrinhos bancoVazio) = None
  /\ temId Carrinho.id "c1" (carrinhos bancoVazio) = false
  /\ exists db',
       intercalar [true; false; true; false]
         (verCarrinho Qred "c1") (verCarrinho Qred "c2") bancoVazio
       = (db', (Retorne (CarrinhoFormatado.mk "c1" "usuario-123" [] 0%Q),
                Lance (PrismaClientError P2002)))
       /\ carrinhos db' = [Carrinho.mk "c1" "usuario-123"].
Proof.
  repeat (split; [reflexivity|]).
  exact (X18_primeiro_acesso_intercalado Qred bancoVazio "c1" "c2"
           eq_refl eq_refl eq_refl).
Defined.

(** X19 at: the Widget is sent back as it is, with a Gadget after it in the
    table. *)
Lemma X19_atualizar_com_os_mesmos_dados_witness :
  integro bancoComDoisProdutos = true
  /\ In (Produto.mk "p1" "Widget" 10%Q 5) (produtos bancoComDoisProdutos)
  /\ exists db',
       executar (atualizarProduto "p1"
                   (AtualizarProdutoDto.mk (Some "Widget") (Some 10%Q) (Some 5%Q)))
         bancoComDoisProdutos
       = (db', Ok (RespostaProduto.mk "Produto atualizado!"
                     (Produto.mk "p1" "Widget" 10%Q 5)))
       /\ acharPor Produto.id "p2" (produtos db') = Some (Produto.mk "p2" "Gadget" 4%Q 1)
       /\ Permutation (produtos db') (produtos bancoComDoisProdutos).
Proof.
  split; [reflexivity|]. split; [left; reflexivity|].
  destruct (X19_atualizar_com_os_mesmos_dados bancoComDoisProdutos
              (Produto.mk "p1" "Widget" 10%Q 5) eq_refl (or_introl eq_refl))
    as (db' & H1 & H2 & H3 & _).
  exists db'. split; [exact H1|]. split; [exact (H2 "p2")|exact H3].
Defined.

(** X20 at: the Widget of the cart gets the price 12. *)
Lemma X20_preco_lido_na_hora_witness :
  integro bancoComLinha = true
  /\ acharPor Carrinho.usuarioId usuarioId (carrinhos bancoComLinha)
     = Some (Carrinho.mk "c1" "usuario-123")
  /\ find (mesmaLinha "p1" "c1") (itens bancoComLinha)
     = Some (ItemCarrinho.mk "i1" 3 "p1" "c1")
  /\ acharPor Produto.id "p1" (produtos bancoComLinha)
     = Some (Produto.mk "p1" "Widget" 10%Q 2)
  /\ exists db1 r visao,
       executar (atualizarProduto "p1" (AtualizarProdutoDto.mk None (Some 12%Q) None))
         bancoComLinha = (db1, Ok r)
       /\ executar (verCarrinho Qred "c2") db1 = (db1, Ok visao)
       /\ In (ItemFormatado.mk "p1" "Widget" 3 12%Q 36%Q) (CarrinhoFormatado.itens visao).
Proof.
  repeat (split; [reflexivity|]).
  exact (X20_preco_lido_na_hora Qred bancoComLinha "c2" "p1"
           (Carrinho.mk "c1" "usuario-123") (ItemCarrinho.mk "i1" 3 "p1" "c1")
           (Produto.mk "p1" "Widget" 10%Q 2) 12%Q eq_refl eq_refl eq_refl eq_refl).
Defined.

(** X21 at: the Widget that has a line in the cart. *)
Lemma X21_remover_produto_depois_da_linha_witness :
  integro bancoComLinha = true
  /\ acharPor Carrinho.usuarioId usuarioId (carrinhos bancoComLinha)
     = Some (Carrinho.mk "c1" "usuario-123")
  /\ find (mesmaLinha "p1" "c1") (itens bancoComLinha)
     = Some (ItemCarrinho.mk "i1" 3 "p1" "c1")
  /\ linhasDe "p1" bancoComLinha = [ItemCarrinho.mk "i1" 3 "p1" "c1"]
  /\ acharPor Produto.id "p1" (produtos bancoComLinha)
     = Some (Produto.mk "p1" "Widget" 10%Q 2)
  /\ int4 (2 + 3) = true
  /\ executar (removerProduto "p1") bancoComLinha
     = (bancoComLinha, Lancou (PrismaClientError P2003))
  /\ exists db1 r db2,
       executar (removerItem Qred "c2" "p1") bancoComLinha = (db1, Ok r)
       /\ executar (removerProduto "p1") db1 = (db2, Ok tt)
       /\ acharPor Produto.id "p1" (produtos db2) = None.
Proof.
  do 6 (split; [reflexivity|]).
  destruct (X21_remover_produto_depois_da_linha Qred bancoComLinha "c2" "p1"
              (Carrinho.mk "c1" "usuario-123") (ItemCarrinho.mk "i1" 3 "p1" "c1")
              (Produto.mk "p1" "Widget" 10%Q 2)
              eq_refl eq_refl eq_refl eq_refl eq_refl eq_refl)
    as (H0 & db1 & r & db2 & H1 & H2 & H3 & _).
  split; [exact H0|]. exists db1, r, db2. repeat split; assumption.
Defined.

(** X22 at: three Widgets go to the cart. *)
Lemma X22_adicionarItem_que_retorna_witness :
  integro bancoComWidget = true
  /\ exists db' r,
       executar (adicionarItem Qred "c2" "i1" tresWidgets) bancoComWidget = (db', Ok r)
       /\ acharPor Produto.id "p1" (produtos db') = Some (Produto.mk "p1" "Widget" 10%Q 2)
       /\ reservado "p1" db' = 3.
Proof.
  split; [reflexivity|].
  do 2 eexists. split; [reflexivity|].
  destruct (X22_adicionarItem_que_retorna Qred bancoComWidget "c2" "i1" tresWidgets _ _
              eq_refl eq_refl) as (p & c & Hp & _ & _ & H1 & H2 & _).
  change (Some (Produto.mk "p1" "Widget" 10%Q 5) = Some p) in Hp.
  injection Hp as <-. split; [exact H1|exact H2].
Defined.

(** X23 at: one Widget and a half is asked for; one goes to the cart. *)
Lemma X23_adicionarItem_quantidade_nao_inteira_witness :
  integro bancoComWidget = true
  /\ acharPor Carrinho.usuarioId usuarioId (carrinhos bancoComWidget)
     = Some (Carrinho.mk "c1" "usuario-123")
  /\ acharPor Produto.id "p1" (produtos bancoComWidget)
     = Some (Produto.mk "p1" "Widget" 10%Q 5)
  /\ find (mesmaLinha "p1" "c1") (itens bancoComWidget) = None
  /\ temId ItemCarrinho.id "i1" (itens bancoComWidget) = false
  /\ (1 <= 3 # 2)%Q
  /\ (3 # 2 <= inject_Z 5)%Q
  /\ validarAdicionarItemDto (AdicionarItemDto.mk "p1" (3 # 2)) = true
  /\ exists db' r,
       executar (adicionarItem Qred "c2" "i1" (AdicionarItemDto.mk "p1" (3 # 2)))
         bancoComWidget = (db', Ok r)
       /\ acharPor Produto.id "p1" (produtos db') = Some (Produto.mk "p1" "Widget" 10%Q 4)
       /\ itens db' = [ItemCarrinho.mk "i1" 1 "p1" "c1"].
Proof.
  do 5 (split; [reflexivity|]).
  split; [unfold Qle; simpl; lia|]. split; [unfold Qle; simpl; lia|].
  split; [reflexivity|].
  destruct (X23_adicionarItem_quantidade_nao_inteira Qred bancoComWidget "c2" "i1"
              (AdicionarItemDto.mk "p1" (3 # 2)) (Produto.mk "p1" "Widget" 10%Q 5)
              (Carrinho.mk "c1" "usuario-123")
              eq_refl eq_refl eq_refl eq_refl eq_refl
              ltac:(unfold Qle; simpl; lia) ltac:(unfold Qle; simpl; lia))
    as (db' & r & H1 & H2 & H3 & _).
  exists db', r. split; [exact H1|]. split; [exact H2|exact H3].
Defined.

(** X24 at: the line of three Widgets is removed twice at the same time. *)
Lemma X24_dois_removerItem_intercalados_witness :
  integro bancoComLinha = true
  /\ acharPor Carrinho.usuarioId usuarioId (carrinhos bancoComLinha)
     = Some (Carrinho.mk "c1" "usuario-123")
  /\ find (mesmaLinha "p1" "c1") (itens bancoComLinha)
     = Some (ItemCarrinho.mk "i1" 3 "p1" "c1")
  /\ acharPor Produto.id "p1" (produtos bancoComLinha)
     = Some (Produto.mk "p1" "Widget" 10%Q 2)
  /\ int4 (2 + 3 + 3) = true
  /\ exists rA,
       intercalar [true; false; true; false]
         (removerItem Qred "c2" "p1") (removerItem Qred "c3" "p1") bancoComLinha
       = (mkPrisma [Produto.mk "p1" "Widget" 10%Q 5] [Carrinho.mk "c1" "usuario-123"] [],
          (Retorne rA, Lance (PrismaClientError P2017))).
Proof.
  do 5 (split; [reflexivity|]).
  destruct (X24_dois_removerItem_intercalados Qred bancoComLinha "c2" "c3" "p1"
              (Carrinho.mk "c1" "usuario-123") (ItemCarrinho.mk "i1" 3 "p1" "c1")
              (Produto.mk "p1" "Widget" 10%Q 2) eq_refl eq_refl eq_refl eq_refl eq_refl)
    as (rA & H1 & _).
  exists rA. exact H1.
Defined.

(** X25 at: the line of three Widgets is read for removal, one more Widget
    is added, and the removal goes on: the stock is four, the cart is empty,
    and the catalogue had five Widgets in all. *)
Lemma X25_removerItem_e_adicionarItem_intercalados_witness :
  integro bancoComLinha = true
  /\ acharPor Carrinho.usuarioId usuarioId (carrinhos bancoComLinha)
     = Some (Carrinho.mk "c1" "usuario-123")
  /\ find (mesmaLinha "p1" "c1") (itens bancoComLinha)
     = Some (ItemCarrinho.mk "i1" 3 "p1" "c1")
  /\ acharPor Produto.id "p1" (produtos bancoComLinha)
     = Some (Produto.mk "p1" "Widget" 10%Q 2)
  /\ toInt4 1%Q = Some 1
  /\ 1 <= 1 <= 2
  /\ int4 (3 + 1) = true
  /\ int4 (2 + 3) = true
  /\ exists db' rR rA p',
       intercalar [true; false; false; false; true]
         (removerItem Qred "c2" "p1")
         (adicionarItem Qred "c3" "i2" (AdicionarItemDto.mk "p1" 1%Q)) bancoComLinha
       = (db', (Retorne rR, Retorne rA))
       /\ acharPor Produto.id "p1" (produtos db') = Some p'
       /\ Produto.estoque p' = 4
       /\ Produto.estoque p' + reservado "p1" db' = 4.
Proof.
  do 5 (split; [reflexivity|]). split; [lia|]. do 2 (split; [reflexivity|]).
  destruct (X25_removerItem_e_adicionarItem_intercalados Qred bancoComLinha "c2" "c3" "i2"
              (AdicionarItemDto.mk "p1" 1%Q)
              (Carrinho.mk "c1" "usuario-123") (ItemCarrinho.mk "i1" 3 "p1" "c1")
              (Produto.mk "p1" "Widget" 10%Q 2) 1
              eq_refl eq_refl eq_refl eq_refl eq_refl ltac:(simpl; lia) eq_refl eq_refl)
    as (db' & rR & rA & p' & H1 & H2 & H3 & _ & H4).
  exists db', rR, rA, p'. split; [exact H1|]. split; [exact H2|].
  split; [exact H3|exact H4].
Defined.

(** X26 at: the Widget gets the price 12 and a stock of seven and a half. *)
Lemma X26_atualizarProduto_campos_witness :
  acharPor Produto.id "p1" (produtos bancoComWidget) = Some (Produto.mk "p1" "Widget" 10%Q 5)
  /\ Object_keys_length (AtualizarProdutoDto.mk None (Some 12%Q) (Some (15 # 2)%Q)) <> 0%nat
  /\ intOpcional (Some (15 # 2)%Q) = Some (Some 7)
  /\ exists db',
       executar (atualizarProduto "p1"
                   (AtualizarProdutoDto.mk None (Some 12%Q) (Some (15 # 2)%Q)))
         bancoComWidget
       = (db', Ok (RespostaProduto.mk "Produto atualizado!"
                     (Produto.mk "p1" "Widget" 12%Q 7)))
       /\ acharPor Produto.id "p1" (produtos db') = Some (Produto.mk "p1" "Widget" 12%Q 7).
Proof.
  split; [reflexivity|]. split; [discriminate|]. split; [reflexivity|].
  destruct (proj2 (proj2 (X26_atualizarProduto_campos bancoComWidget "p1"
                            (AtualizarProdutoDto.mk None (Some 12%Q) (Some (15 # 2)%Q)))
                     (Produto.mk "p1" "Widget" 10%Q 5) eq_refl)
              (Some 7) ltac:(discriminate) eq_refl) as (db' & H1 & H2 & _).
  exists db'. split; [exact H1|exact H2].
Defined.

(** X27 at: one more Widget for the cart that holds three. *)
Lemma X27_adicionarItem_de_novo_witness :
  integro bancoComLinha = true
  /\ acharPor Carrinho.usuarioId usuarioId (carrinhos bancoComLinha)
     = Some (Carrinho.mk "c1" "usuario-123")
  /\ find (mesmaLinha "p1" "c1") (itens bancoComLinha)
     = Some (ItemCarrinho.mk "i1" 3 "p1" "c1")
  /\ acharPor Produto.id "p1" (produtos bancoComLinha)
     = Some (Produto.mk "p1" "Widget" 10%Q 2)
  /\ paraInt 1%Q = Some 1
  /\ (1 <= inject_Z 2)%Q
  /\ int4 (2 - 1) = true
  /\ int4 (3 + 1) = true
  /\ exists db' r,
       executar (adicionarItem Qred "c2" "i2" (AdicionarItemDto.mk "p1" 1%Q)) bancoComLinha
       = (db', Ok r)
       /\ find (mesmaLinha "p1" "c1") (itens db') = Some (ItemCarrinho.mk "i1" 4 "p1" "c1")
       /\ List.length (itens db') = 1%nat.
Proof.
  do 5 (split; [reflexivity|]). split; [unfold Qle; simpl; lia|].
  do 2 (split; [reflexivity|]).
  destruct (X27_adicionarItem_de_novo Qred bancoComLinha "c2" "i2"
              (AdicionarItemDto.mk "p1" 1%Q) (Carrinho.mk "c1" "usuario-123")
              (ItemCarrinho.mk "i1" 3 "p1" "c1") (Produto.mk "p1" "Widget" 10%Q 2) 1
              eq_refl eq_refl eq_refl eq_refl eq_refl ltac:(unfold Qle; simpl; lia)
              eq_refl eq_refl)
    as (db' & r & H1 & H2 & H3 & _).
  exists db', r. split; [exact H1|]. split; [exact H2|exact H3].
Defined.
